(** * GGUF metadata enrichment: extraction client and enrichment pipeline

    A shallow embedding of [gguf_parser.py] (the extraction client that wraps
    the external [gguf-parser] tool) and of the GGUF part of
    [model_scraper.py] (file listing, representative-file choice, merge of
    the metadata into a model record).

    Conventions of the embedding.
    - Python [str] is [string]; characters are code points below 256 and
      [lower] is the ASCII lower-casing.
    - Python [int] is [Z]; Python [float] is a binary64 [spec_float].
    - A JSON document / dynamically typed Python object is a [value].
    - A Python [dict] read by key is an association list; the model record
      that the scraper updates by key is a [gmap string value].
    - Code that can raise runs in the [result] monad; code that talks to the
      parser process threads a [world] (attempt counter and event trace). *)

From Stdlib Require Import ZArith String Ascii List Bool Lia.
From Stdlib Require Import Floats.SpecFloat.
From stdpp Require Import base option gmap strings list fin_maps.

Import ListNotations.
#[local] Set Warnings "-register-all".
#[local] Arguments String.append !_ _ / : simpl nomatch.
Local Open Scope string_scope.
Local Open Scope Z_scope.

(* ===================================================================== *)
(** ** Exceptions and the [result] monad *)
(* ===================================================================== *)

(** The subclasses of Python's [Exception] that the modelled code can meet. *)
Inductive exn : Type :=
  | AttributeError
  | TypeError
  | KeyError
  | IndexError
  | OverflowError
  | ZeroDivisionError
  | JSONDecodeError
  | TimeoutExpired
  | OSError
  | OtherException (name : string).

Inductive result (A : Type) : Type :=
  | Ok (a : A)
  | Raise (e : exn).
Arguments Ok {A} a.
Arguments Raise {A} e.

#[global] Instance result_ret : MRet result := fun _ a => Ok a.
#[global] Instance result_bind : MBind result := fun _ _ k r =>
  match r with
  | Ok a => k a
  | Raise e => Raise e
  end.

(* ===================================================================== *)
(** ** Python strings *)
(* ===================================================================== *)

Module PyStr.

(** [c.lower()] on one ASCII character. *)
Definition lower_ascii (c : ascii) : ascii :=
  let n := nat_of_ascii c in
  if ((65 <=? n)%nat && (n <=? 90)%nat)%bool then ascii_of_nat (n + 32) else c.

(** [s.lower()] *)
Fixpoint lower (s : string) : string :=
  match s with
  | EmptyString => EmptyString
  | String c s' => String (lower_ascii c) (lower s')
  end.

(** [s.startswith(p)] *)
Fixpoint startswith (p s : string) : bool :=
  match p with
  | EmptyString => true
  | String a p' =>
      match s with
      | EmptyString => false
      | String b s' => if Ascii.eqb a b then startswith p' s' else false
      end
  end.

(** [p in s]: [p] occurs in [s] as a contiguous substring. *)
Fixpoint contains (p s : string) : bool :=
  if startswith p s then true
  else match s with
       | EmptyString => false
       | String _ s' => contains p s'
       end.

Fixpoint rev_onto (s acc : string) : string :=
  match s with
  | EmptyString => acc
  | String c s' => rev_onto s' (String c acc)
  end.

Definition rev (s : string) : string := rev_onto s EmptyString.

(** [s.endswith(p)] *)
Definition endswith (p s : string) : bool := startswith (rev p) (rev s).

(** The characters [str.strip()] removes: the code points below 256 for
    which [str.isspace()] holds. *)
Definition isspace (c : ascii) : bool :=
  let n := nat_of_ascii c in
  (((9 <=? n)%nat && (n <=? 13)%nat) || ((28 <=? n)%nat && (n <=? 32)%nat)
   || (n =? 133)%nat || (n =? 160)%nat)%bool.

Fixpoint dropwhile (f : ascii -> bool) (s : string) : string :=
  match s with
  | EmptyString => EmptyString
  | String c s' => if f c then dropwhile f s' else s
  end.

(** [s.lstrip()], [s.rstrip()], [s.strip()] *)
Definition lstrip (s : string) : string := dropwhile isspace s.
Definition rstrip (s : string) : string := rev (dropwhile isspace (rev s)).
Definition strip (s : string) : string := rstrip (lstrip s).

(** [s.rstrip(c)] for a one-character argument. *)
Definition rstrip_char (c : ascii) (s : string) : string :=
  rev (dropwhile (Ascii.eqb c) (rev s)).

(** [s.replace(old, new)] for a non-empty [old]: every non-overlapping
    occurrence, scanning from the left.  [skip] counts the characters of
    an occurrence that was just replaced and are still to be passed. *)
Fixpoint replace_from (old new : string) (skip : nat) (s : string) : string :=
  match s with
  | EmptyString => EmptyString
  | String c s' =>
      match skip with
      | S k => replace_from old new k s'
      | O =>
          if startswith old s
          then String.append new (replace_from old new (Nat.pred (String.length old)) s')
          else String c (replace_from old new O s')
      end
  end.

Definition replace (old new s : string) : string := replace_from old new O s.

(** The one-character strings a [for c in s] loop yields. *)
Fixpoint chars (s : string) : list string :=
  match s with
  | EmptyString => []
  | String c s' => String c EmptyString :: chars s'
  end.

End PyStr.

(* ===================================================================== *)
(** ** Decimal rendering of integers: [str(n)] *)
(* ===================================================================== *)

Module Dec.

Definition digit (d : Z) : ascii := ascii_of_nat (48 + Z.to_nat d).

(** Digits of a non-negative integer, most significant first; the fuel is
    an upper bound on the number of digits. *)
Fixpoint digits_fuel (fuel : nat) (n : Z) (acc : string) : string :=
  match fuel with
  | O => acc
  | S fuel' =>
      let acc' := String (digit (n mod 10)) acc in
      if n / 10 =? 0 then acc' else digits_fuel fuel' (n / 10) acc'
  end.

Definition of_nonneg (n : Z) : string :=
  digits_fuel (S (Z.to_nat (Z.log2 n))) n EmptyString.

(** [str(n)] for a Python [int]. *)
Definition of_Z (n : Z) : string :=
  if n <? 0 then String "-"%char (of_nonneg (- n)) else of_nonneg n.

End Dec.

(* ===================================================================== *)
(** ** Python floats (IEEE 754 binary64) *)
(* ===================================================================== *)

Module PyFloat.

Definition prec : Z := 53.
Definition emax : Z := 1024.

(** The binary64 number nearest to [n / d] (ties to even) with sign [s],
    for [0 <= n] and [0 < d]. *)
Definition of_ratio (s : bool) (n d : Z) : spec_float :=
  match n with
  | Z0 => S754_zero s
  | _ =>
      let '(q, e, l) := SFdiv_core_binary prec emax n 0 d 0 in
      binary_round_aux prec emax s q e l
  end.

(** [a / b] on two [int]s: correctly rounded true division. *)
Definition int_truediv (a b : Z) : result spec_float :=
  if b =? 0 then Raise ZeroDivisionError
  else match of_ratio (xorb (a <? 0) (b <? 0)) (Z.abs a) (Z.abs b) with
       | S754_infinity _ => Raise OverflowError
       | x => Ok x
       end.

(** [float(n)] for an [int] operand of a mixed operation. *)
Definition of_int (n : Z) : result spec_float :=
  match of_ratio (n <? 0) (Z.abs n) 1 with
  | S754_infinity _ => Raise OverflowError
  | x => Ok x
  end.

Definition is_zero (x : spec_float) : bool :=
  match x with
  | S754_zero _ => true
  | _ => false
  end.

(** [x / b] for a [float] [x] and an [int] [b]. *)
Definition truediv_int (x : spec_float) (b : Z) : result spec_float :=
  y ← of_int b;
  if is_zero y then Raise ZeroDivisionError
  else Ok (SFdiv prec emax x y).

(** Nearest integer to [n / d], ties to even, for [0 <= n] and [0 < d]. *)
Definition round_half_even (n d : Z) : Z :=
  let q := n / d in
  match Z.compare (2 * (n mod d)) d with
  | Lt => q
  | Gt => q + 1
  | Eq => if Z.even q then q else q + 1
  end.

(** [|x| * 10^nd] rounded to the nearest integer (ties to even), for the
    finite float of mantissa [m] and exponent [e]: the digit string that
    correctly rounded decimal conversion produces. *)
Definition scaled (m : positive) (e : Z) (nd : Z) : Z :=
  if 0 <=? e then Zpos m * 2 ^ e * 10 ^ nd
  else round_half_even (Zpos m * 10 ^ nd) (2 ^ (- e)).

(** [round(x, nd)] for a [float] [x] and [0 <= nd]: the decimal with [nd]
    fractional digits nearest to [x], read back as a float. *)
Definition round_ndigits (nd : Z) (x : spec_float) : result spec_float :=
  match x with
  | S754_finite s m e =>
      match of_ratio s (scaled m e nd) (10 ^ nd) with
      | S754_infinity _ => Raise OverflowError
      | y => Ok y
      end
  | _ => Ok x
  end.

Fixpoint zeros (n : nat) : string :=
  match n with
  | O => EmptyString
  | S n' => String "0"%char (zeros n')
  end.

(** The last [nd] decimal digits of [k], zero padded on the left. *)
Definition frac_digits (nd : nat) (k : Z) : string :=
  let s := Dec.of_nonneg (k mod 10 ^ Z.of_nat nd) in
  String.append (zeros (nd - String.length s)) s.

(** [format(x, ".{nd}f")] *)
Definition format_fixed (nd : nat) (x : spec_float) : string :=
  let body (k : Z) :=
    String.append (Dec.of_nonneg (k / 10 ^ Z.of_nat nd))
      match nd with
      | O => EmptyString
      | S _ => String "."%char (frac_digits nd k)
      end in
  let sign (s : bool) := if s then "-" else EmptyString in
  match x with
  | S754_nan => "nan"
  | S754_infinity s => String.append (sign s) "inf"
  | S754_zero s => String.append (sign s) (body 0)
  | S754_finite s m e => String.append (sign s) (body (scaled m e (Z.of_nat nd)))
  end.

(** [x >= n] for a [float] [x] and an [int] [n]; the comparison is exact. *)
Definition ge_int (x : spec_float) (n : Z) : bool :=
  match x with
  | S754_nan => false
  | S754_infinity s => negb s
  | S754_zero _ => 0 >=? n
  | S754_finite s m e =>
      let v := if s then Zneg m else Zpos m in
      if 0 <=? e then v * 2 ^ e >=? n else v >=? n * 2 ^ (- e)
  end.

(** [bool(x)] *)
Definition truthy (x : spec_float) : bool := negb (is_zero x).

End PyFloat.

(* ===================================================================== *)
(** ** Dynamically typed values *)
(* ===================================================================== *)

(** What [json.loads] builds, and what the metadata dictionaries hold. *)
Inductive value : Type :=
  | VNone
  | VBool (b : bool)
  | VInt (n : Z)
  | VFloat (x : spec_float)
  | VStr (s : string)
  | VList (l : list value)
  | VDict (d : list (string * value)).

(** A Python [dict] with string keys, read by key. *)
Abbreviation pydict := (list (string * value)).

Module Py.

(** [d.get(k)] on the entries of a dict: the first entry with that key. *)
Fixpoint lookup (k : string) (d : pydict) : option value :=
  match d with
  | [] => None
  | (k', v) :: d' => if String.eqb k k' then Some v else lookup k d'
  end.

(** [k in d] *)
Definition has_key (k : string) (d : pydict) : bool :=
  match lookup k d with
  | Some _ => true
  | None => false
  end.

(** [bool(v)] *)
Definition truthy (v : value) : bool :=
  match v with
  | VNone => false
  | VBool b => b
  | VInt n => negb (n =? 0)
  | VFloat x => PyFloat.truthy x
  | VStr s => negb (String.eqb s EmptyString)
  | VList l => match l with [] => false | _ => true end
  | VDict d => match d with [] => false | _ => true end
  end.

(** [v.get(k, default)]: only a dict has the method. *)
Definition get (v : value) (k : string) (default : value) : result value :=
  match v with
  | VDict d => Ok (from_option id default (lookup k d))
  | VNone | VBool _ | VInt _ | VFloat _ | VStr _ | VList _ => Raise AttributeError
  end.

(** [v[k]] for a string key. *)
Definition getitem (v : value) (k : string) : result value :=
  match v with
  | VDict d => match lookup k d with
               | Some x => Ok x
               | None => Raise KeyError
               end
  | VNone | VBool _ | VInt _ | VFloat _ => Raise TypeError
  | VStr _ | VList _ => Raise TypeError
  end.

(** [v[0]] *)
Definition index0 (v : value) : result value :=
  match v with
  | VList (x :: _) => Ok x
  | VList [] => Raise IndexError
  | VStr (String c _) => Ok (VStr (String c EmptyString))
  | VStr EmptyString => Raise IndexError
  | VDict _ => Raise KeyError
  | VNone | VBool _ | VInt _ | VFloat _ => Raise TypeError
  end.

Definition int_of_bool (b : bool) : Z := if b then 1 else 0.

(** [v / n] for an [int] literal [n]. *)
Definition truediv (v : value) (n : Z) : result spec_float :=
  match v with
  | VInt a => PyFloat.int_truediv a n
  | VBool b => PyFloat.int_truediv (int_of_bool b) n
  | VFloat a => PyFloat.truediv_int a n
  | VNone | VStr _ | VList _ | VDict _ => Raise TypeError
  end.

(** [round(v, 2)]: an [int] is returned as it is, a [float] is rounded. *)
Definition round2 (v : value) : result value :=
  match v with
  | VInt a => Ok (VInt a)
  | VBool b => Ok (VInt (int_of_bool b))
  | VFloat a => x ← PyFloat.round_ndigits 2 a; Ok (VFloat x)
  | VNone | VStr _ | VList _ | VDict _ => Raise TypeError
  end.

(** [v >= n] for an [int] literal [n]. *)
Definition ge (v : value) (n : Z) : result bool :=
  match v with
  | VInt a => Ok (a >=? n)
  | VBool b => Ok (int_of_bool b >=? n)
  | VFloat a => Ok (PyFloat.ge_int a n)
  | VNone | VStr _ | VList _ | VDict _ => Raise TypeError
  end.

(** [a or b], with [b] evaluated only when [a] is falsy. *)
Definition or_else (a : value) (b : result value) : result value :=
  if truthy a then Ok a else b.

(** The items a [for x in v] loop visits. *)
Definition iterate (v : value) : result (list value) :=
  match v with
  | VList l => Ok l
  | VStr s => Ok (map VStr (PyStr.chars s))
  | VDict d => Ok (map (fun kv => VStr (fst kv)) d)
  | VNone | VBool _ | VInt _ | VFloat _ => Raise TypeError
  end.

End Py.

(* ===================================================================== *)
(** ** gguf_parser.py: normalisation of the tool's JSON *)
(* ===================================================================== *)

Definition GiB : Z := 1024 ^ 3.

Section Normalise.

(** [repr] of a float (the shortest digit string that reads back as the
    same float), which [str(params)] uses when the parameter count is a
    float below one million.  It is not modelled. *)
Variable float_repr : spec_float -> string.

(** [str(params)] for the numbers that reach it; every other type has
    already raised at [params >= 1_000_000_000]. *)
Definition str_number (v : value) : result string :=
  match v with
  | VInt n => Ok (Dec.of_Z n)
  | VBool b => Ok (if b then "True" else "False")
  | VFloat x => Ok (float_repr x)
  | VNone | VStr _ | VList _ | VDict _ => Raise TypeError
  end.

(** [round(b / (1024 ** 3), 2) if b else None] *)
Definition gb_of_bytes (b : value) : result value :=
  if Py.truthy b then
    x ← Py.truediv b GiB;
    y ← PyFloat.round_ndigits 2 x;
    Ok (VFloat y)
  else Ok VNone.

(** The [vram_bytes] block. *)
Definition vram_bytes_of (estimate : value) : result value :=
  items ← Py.get estimate "items" VNone;
  if Py.truthy items then
    items ← Py.getitem estimate "items";
    item0 ← Py.index0 items;
    vrams ← Py.get item0 "vrams" (VList []);
    if Py.truthy vrams then
      vram0 ← Py.index0 vrams;
      Py.get vram0 "nonuma" (VInt 0)
    else Ok (VInt 0)
  else Ok (VInt 0).

(** The [ram_bytes] block. *)
Definition ram_bytes_of (estimate : value) : result value :=
  items ← Py.get estimate "items" VNone;
  if Py.truthy items then
    items ← Py.getitem estimate "items";
    item0 ← Py.index0 items;
    ram_info ← Py.get item0 "ram" (VDict []);
    Py.get ram_info "nonuma" (VInt 0)
  else Ok (VInt 0).

(** The [params_str] block. *)
Definition params_str_of (params : value) : result string :=
  big ← Py.ge params 1000000000;
  if big : bool then
    x ← Py.truediv params 1000000000;
    Ok (String.append (PyFloat.format_fixed 1 x) "B")
  else
    mid ← Py.ge params 1000000;
    if mid : bool then
      x ← Py.truediv params 1000000;
      Ok (String.append (PyFloat.format_fixed 0 x) "M")
    else str_number params.

Definition _extract_metadata (raw : value) : result pydict :=
  metadata ← Py.get raw "metadata" (VDict []);
  architecture ← Py.get raw "architecture" (VDict []);
  estimate ← Py.get raw "estimate" (VDict []);
  vram_bytes ← vram_bytes_of estimate;
  vram_gb ← gb_of_bytes vram_bytes;
  ram_bytes ← ram_bytes_of estimate;
  ram_gb ← gb_of_bytes ram_bytes;
  params ← Py.get metadata "parameters" (VInt 0);
  params_str ← params_str_of params;
  arch_m ← Py.get metadata "architecture" VNone;
  arch ← Py.or_else arch_m (Py.get architecture "architecture" VNone);
  quantization ← Py.get metadata "fileTypeDetail" VNone;
  parameters ← Py.get metadata "parameters" VNone;
  context_length ← Py.get architecture "maximumContextLength" VNone;
  embedding_length ← Py.get architecture "embeddingLength" VNone;
  file_size_bytes ← Py.get metadata "fileSize" VNone;
  file_size ← Py.get metadata "fileSize" VNone;
  file_size_gb ←
    (if Py.truthy file_size then
       b ← Py.get metadata "fileSize" (VInt 0);
       x ← Py.truediv b GiB;
       y ← PyFloat.round_ndigits 2 x;
       Ok (VFloat y)
     else Ok VNone);
  bpw ← Py.get metadata "bitsPerWeight" VNone;
  bits_per_weight ←
    (if Py.truthy bpw then
       b ← Py.get metadata "bitsPerWeight" (VInt 0);
       Py.round2 b
     else Ok VNone);
  model_name ← Py.get metadata "name" VNone;
  flash_attention ← Py.get estimate "flashAttention" (VBool false);
  items ← Py.get estimate "items" (VList [VDict []]);
  item0 ← Py.index0 items;
  fully_offloadable ← Py.get item0 "fullOffloaded" (VBool false);
  Ok [ ("architecture", arch);
       ("quantization", quantization);
       ("parameters", parameters);
       ("parameters_str", VStr params_str);
       ("context_length", context_length);
       ("embedding_length", embedding_length);
       ("file_size_bytes", file_size_bytes);
       ("file_size_gb", file_size_gb);
       ("bits_per_weight", bits_per_weight);
       ("vram_required_gb", vram_gb);
       ("ram_required_gb", ram_gb);
       ("model_name", model_name);
       ("flash_attention", flash_attention);
       ("fully_offloadable", fully_offloadable) ].

End Normalise.

(* ===================================================================== *)
(** ** gguf_parser.py: the extraction client *)
(* ===================================================================== *)

Definition PARSER_TIMEOUT : Z := 60.
Definition MAX_RETRIES : Z := 3.
Definition RETRY_DELAY : Z := 2.

(** What the client does to the outside, in program order. *)
Inductive event : Type :=
  | EvCheck                       (* PARSER_PATH.exists() *)
  | EvSpawn (cmd : list string)   (* subprocess.run(cmd, ..., timeout=60) *)
  | EvSleep (seconds : Z).        (* time.sleep(seconds) *)

(** [attempts] counts the calls of [_run_parser] so far; [trace] is the
    list of events, oldest first. *)
Record world : Type := mkWorld { attempts : nat; trace : list event }.

Definition world0 : world := mkWorld 0 [].

Definition next_attempt (w : world) : world :=
  mkWorld (S (attempts w)) (trace w ++ [EvCheck])%list.

Definition emit (e : event) (w : world) : world :=
  mkWorld (attempts w) (trace w ++ [e])%list.

(** How one [subprocess.run] ends. *)
Inductive run_outcome : Type :=
  | RunRaises (e : exn)
  | Completed (returncode : Z) (stdout stderr : string).

(** The command lines of the subprocess invocations of a trace, and the
    durations of its sleeps. *)
Fixpoint spawns (t : list event) : list (list string) :=
  match t with
  | [] => []
  | EvSpawn cmd :: t' => cmd :: spawns t'
  | _ :: t' => spawns t'
  end.

Fixpoint sleeps (t : list event) : list Z :=
  match t with
  | [] => []
  | EvSleep d :: t' => d :: sleeps t'
  | _ :: t' => sleeps t'
  end.

Section Client.

Variable float_repr : spec_float -> string.

(** [str(PARSER_PATH)] *)
Variable PARSER_PATH : string.

(** [json.loads] *)
Variable json_loads : string -> result value.

(** The outside world, by attempt number: whether the tool binary exists
    when the attempt checks it, and how the subprocess it starts ends. *)
Variable parser_exists : nat -> bool.
Variable subprocess_run : nat -> list string -> run_outcome.

(** The body of the [try] block of [_run_parser]. *)
Definition _run_parser_try (k : nat) (cmd : list string) : result (option pydict) :=
  match subprocess_run k cmd with
  | RunRaises e => Raise e
  | Completed returncode stdout stderr =>
      if negb (returncode =? 0) then
        let stderr := PyStr.strip stderr in
        if PyStr.contains "404" stderr
        then Ok (Some [("_error", VStr "not_found"); ("_message", VStr stderr)])
        else Ok None
      else
        raw_data ← json_loads stdout;
        md ← _extract_metadata float_repr raw_data;
        Ok (Some md)
  end.

(** One attempt.  The three [except] clauses all return [None]. *)
Definition _run_parser (args : list string) (w : world) : option pydict * world :=
  let k := attempts w in
  if negb (parser_exists k) then (None, next_attempt w)
  else
    let cmd := ([PARSER_PATH] ++ args ++ ["--json"])%list in
    let w' := emit (EvSpawn cmd) (next_attempt w) in
    match _run_parser_try k cmd with
    | Ok r => (r, w')
    | Raise TimeoutExpired => (None, w')
    | Raise JSONDecodeError => (None, w')
    | Raise _ => (None, w')
    end.

(** [result is not None and "_error" not in result] *)
Definition is_success (r : option pydict) : bool :=
  match r with
  | Some d => negb (Py.has_key "_error" d)
  | None => false
  end.

(** [result is not None and result.get("_error") == "not_found"] *)
Definition is_not_found (r : option pydict) : bool :=
  match r with
  | Some d =>
      match Py.lookup "_error" d with
      | Some (VStr s) => String.eqb s "not_found"
      | _ => false
      end
  | None => false
  end.

(** The [for attempt in range(retries)] loop with [todo] iterations left,
    and the [return None] after it. *)
Fixpoint retry_loop (args : list string) (retries : Z) (todo : nat)
    (attempt delay : Z) (w : world) : option pydict * world :=
  match todo with
  | O => (None, w)
  | S todo' =>
      let '(result, w) := _run_parser args w in
      if is_success result then (result, w)
      else if is_not_found result then (None, w)
      else if attempt <? retries - 1
           then retry_loop args retries todo' (attempt + 1) (delay * 2)
                           (emit (EvSleep delay) w)
           else retry_loop args retries todo' (attempt + 1) delay w
  end.

Definition _run_parser_with_retry (args : list string) (retries : Z) (w : world)
    : option pydict * world :=
  retry_loop args retries (Z.to_nat retries) 0 RETRY_DELAY w.

Definition parse_gguf_from_hf (repo filename : string) (retries : Z) (w : world)
    : option pydict * world :=
  _run_parser_with_retry ["--hf-repo"; repo; "--hf-file"; filename] retries w.

Definition parse_gguf_from_ms (repo filename : string) (retries : Z) (w : world)
    : option pydict * world :=
  _run_parser_with_retry ["--ms-repo"; repo; "--ms-file"; filename] retries w.

Definition parse_gguf_local (filepath : string) (w : world) : option pydict * world :=
  _run_parser_with_retry ["--path"; filepath] 1 w.

End Client.

(* ===================================================================== *)
(** ** model_scraper.py: GGUF file listing, file choice and enrichment *)
(* ===================================================================== *)

(** How one [requests.get] ends: it raises, or it gives a response with a
    status code and a body that [response.json()] decodes or rejects. *)
Inductive http_outcome : Type :=
  | HttpRaises (e : exn)
  | HttpResponse (status_code : Z) (json : result value).

(** [f.get(key, '').lower()]: only a [str] has the method. *)
Definition lower_of (v : value) : result string :=
  match v with
  | VStr s => Ok (PyStr.lower s)
  | VNone | VBool _ | VInt _ | VFloat _ | VList _ | VDict _ => Raise AttributeError
  end.

(** [[f.get(key) for f in entries if f.get(key, '').lower().endswith('.gguf')]]
    over the items already taken from the iterable.  An entry that passes
    the filter holds a [str] under [key], and that string is what
    [f.get(key)] yields. *)
Fixpoint gguf_names (key : string) (entries : list value) : result (list string) :=
  match entries with
  | [] => Ok []
  | f :: rest =>
      name ← Py.get f key (VStr EmptyString);
      lowered ← lower_of name;
      if PyStr.endswith ".gguf" lowered then
        picked ← Py.get f key VNone;
        match picked with
        | VStr s => names ← gguf_names key rest; Ok (s :: names)
        | _ => Raise TypeError
        end
      else gguf_names key rest
  end.

(** The preference order of [pick_representative_gguf_file]. *)
Definition preferences : list string :=
  ["q4_k_m"; "q4_k_s"; "q5_k_m"; "q5_k_s"; "q4_0"; "q5_0"].

(** The inner loop: [for f in gguf_files: if pref in f.lower(): return f]. *)
Fixpoint first_containing (pref : string) (gguf_files : list string) : option string :=
  match gguf_files with
  | [] => None
  | f :: rest =>
      if PyStr.contains pref (PyStr.lower f) then Some f
      else first_containing pref rest
  end.

(** The outer loop: [for pref in preferences: ...]. *)
Fixpoint scan_preferences (prefs : list string) (gguf_files : list string) : option string :=
  match prefs with
  | [] => None
  | pref :: rest =>
      match first_containing pref gguf_files with
      | Some f => Some f
      | None => scan_preferences rest gguf_files
      end
  end.

Definition pick_representative_gguf_file (gguf_files : list string) : option string :=
  match gguf_files with
  | [] => None
  | first :: _ =>
      match scan_preferences preferences gguf_files with
      | Some f => Some f
      | None => Some first
      end
  end.

Section Scraper.

Variable float_repr : spec_float -> string.
Variable PARSER_PATH : string.
Variable json_loads : string -> result value.
Variable parser_exists : nat -> bool.
Variable subprocess_run : nat -> list string -> run_outcome.

(** Whether [from gguf_parser import ...] succeeded when the module was
    loaded. *)
Variable GGUF_PARSER_AVAILABLE : bool.

(** [requests.get(url, ...)] *)
Variable requests_get : string -> http_outcome.

(** Everything inside a [try] whose [except Exception] falls through to
    [return []]. *)
Definition or_empty (r : result (option (list string))) : list string :=
  match r with
  | Ok (Some l) => l
  | Ok None => []
  | Raise _ => []
  end.

Definition get_gguf_files_from_hf (repo_id : string) : list string :=
  or_empty
    match requests_get (String.append "https://huggingface.co/api/models/" repo_id) with
    | HttpRaises e => Raise e
    | HttpResponse status_code json =>
        if status_code =? 200 then
          data ← json;
          siblings ← Py.get data "siblings" (VList []);
          entries ← Py.iterate siblings;
          gguf_files ← gguf_names "rfilename" entries;
          Ok (Some gguf_files)
        else Ok None
    end.

Definition get_gguf_files_from_ms (repo_id : string) : list string :=
  or_empty
    match requests_get (String.append "https://modelscope.cn/api/v1/models/"
                          (String.append repo_id "/repo/files")) with
    | HttpRaises e => Raise e
    | HttpResponse status_code json =>
        if status_code =? 200 then
          data ← json;
          data' ← Py.get data "Data" (VDict []);
          files ← Py.get data' "Files" (VList []);
          entries ← Py.iterate files;
          gguf_files ← gguf_names "Name" entries;
          Ok (Some gguf_files)
        else Ok None
    end.

(** [metadata.get(k)] on the extraction result. *)
Definition md_get (metadata : pydict) (k : string) : value :=
  from_option id VNone (Py.lookup k metadata).

(** The two branches of [if metadata:]. *)
Definition merge_metadata (model_dict : gmap string value) (gguf_file : string)
    (metadata : option pydict) : gmap string value :=
  match metadata with
  | Some ((_ :: _) as md) =>
      <["gguf_file" := VStr gguf_file]>
      (<["bits_per_weight" := md_get md "bits_per_weight"]>
      (<["vram_required_gb" := md_get md "vram_required_gb"]>
      (<["parameter_count" := md_get md "parameters"]>
      (<["context_length" := md_get md "context_length"]>
      (<["gguf_architecture" := md_get md "architecture"]>
      (<["quantization" := md_get md "quantization"]>
      (<["is_gguf" := VBool true]> model_dict)))))))
  | Some [] | None =>
      <["gguf_file" := VStr gguf_file]> (<["is_gguf" := VBool true]> model_dict)
  end.

Definition enrich_model_with_gguf_metadata (model_dict : gmap string value)
    (source : string) (w : world) : result (gmap string value) * world :=
  if negb GGUF_PARSER_AVAILABLE then (Ok model_dict, w)
  else
    match from_option id (VStr EmptyString) (model_dict !! "url") with
    | VStr url =>
        let hf := String.eqb source "huggingface" in
        let repo_id :=
          if hf then PyStr.replace "https://huggingface.co/" EmptyString url
          else PyStr.rstrip_char "/"%char
                 (PyStr.replace "https://modelscope.cn/models/" EmptyString url) in
        let gguf_files :=
          if hf then get_gguf_files_from_hf repo_id
          else get_gguf_files_from_ms repo_id in
        let parse_fn :=
          if hf then parse_gguf_from_hf float_repr PARSER_PATH json_loads
                       parser_exists subprocess_run
          else parse_gguf_from_ms float_repr PARSER_PATH json_loads
                 parser_exists subprocess_run in
        match gguf_files with
        | [] => (Ok model_dict, w)
        | _ :: _ =>
            match pick_representative_gguf_file gguf_files with
            | None | Some EmptyString => (Ok model_dict, w)
            | Some gguf_file =>
                let '(metadata, w) := parse_fn repo_id gguf_file MAX_RETRIES w in
                (Ok (merge_metadata model_dict gguf_file metadata), w)
            end
        end
    | _ => (Raise AttributeError, w)
    end.

End Scraper.

(* ===================================================================== *)
(** ** Vocabulary of the statements *)
(* ===================================================================== *)

(** [f] is the first file name of [files], in listing order, whose
    lower-cased form contains [pref]. *)
Definition first_match (pref : string) (files : list string) (f : string) : Prop :=
  exists before after : list string,
    files = (before ++ f :: after)%list
    /\ PyStr.contains pref (PyStr.lower f) = true
    /\ Forall (fun g => PyStr.contains pref (PyStr.lower g) = false) before.

(** No file name of [files] contains [pref]. *)
Definition unmatched (files : list string) (pref : string) : Prop :=
  Forall (fun g => PyStr.contains pref (PyStr.lower g) = false) files.

(** [2; 4; 8; ...]: the first [j] back-off delays. *)
Definition backoff (j : nat) : list Z :=
  map (fun i : nat => RETRY_DELAY * 2 ^ Z.of_nat i) (seq 0 j).

(** The keys of a metadata record, in the order [_extract_metadata] writes
    them. *)
Definition metadata_keys : list string :=
  [ "architecture"; "quantization"; "parameters"; "parameters_str";
    "context_length"; "embedding_length"; "file_size_bytes"; "file_size_gb";
    "bits_per_weight"; "vram_required_gb"; "ram_required_gb"; "model_name";
    "flash_attention"; "fully_offloadable" ].

(** A populated metadata record: exactly the fourteen fields. *)
Definition populated (md : pydict) : Prop := map fst md = metadata_keys.

Section ClientVocabulary.

Variable float_repr : spec_float -> string.
Variable PARSER_PATH : string.
Variable json_loads : string -> result value.
Variable parser_exists : nat -> bool.
Variable subprocess_run : nat -> list string -> run_outcome.

(** The command line of an attempt. *)
Definition command_line (args : list string) : list string :=
  ([PARSER_PATH] ++ args ++ ["--json"])%list.

(** What attempt number [k] does to the outside. *)
Definition attempt_events (args : list string) (k : nat) : list event :=
  EvCheck :: (if parser_exists k then [EvSpawn (command_line args)] else []).

(** What attempt number [k] returns. *)
Definition attempt_result (args : list string) (k : nat) : option pydict :=
  fst (_run_parser float_repr PARSER_PATH json_loads parser_exists subprocess_run
         args (mkWorld k [])).

(** The three ways a single attempt ends. *)
Definition transient (args : list string) (k : nat) : Prop :=
  attempt_result args k = None.

Definition succeeds (args : list string) (k : nat) (md : pydict) : Prop :=
  attempt_result args k = Some md /\ Py.has_key "_error" md = false.

Definition not_found (args : list string) (k : nat) : Prop :=
  exists d, attempt_result args k = Some d
            /\ Py.lookup "_error" d = Some (VStr "not_found").

(** Attempts number [k], [k+1], ..., [k+j] with a sleep between each two,
    the first sleep lasting [delay] and each next one twice the one
    before. *)
Fixpoint backoff_trace (args : list string) (k j : nat) (delay : Z) : list event :=
  (attempt_events args k ++
   match j with
   | O => []
   | S j' => EvSleep delay :: backoff_trace args (S k) j' (delay * 2)
   end)%list.

End ClientVocabulary.

(** A path into a JSON document: a key of an object, or the first element
    of an array. *)
Inductive step : Type :=
  | Key (k : string)
  | First.

(** The value a document holds at a path, if the path exists. *)
Fixpoint descend (path : list step) (v : value) : option value :=
  match path with
  | [] => Some v
  | Key k :: rest =>
      match v with
      | VDict d =>
          match Py.lookup k d with
          | Some x => descend rest x
          | None => None
          end
      | _ => None
      end
  | First :: rest =>
      match v with
      | VList (x :: _) => descend rest x
      | _ => None
      end
  end.

(** Where the tool's JSON holds the values that normalisation reads. *)
Definition parameters_path : list step := [Key "metadata"; Key "parameters"].
Definition file_size_path : list step := [Key "metadata"; Key "fileSize"].
Definition bits_per_weight_path : list step := [Key "metadata"; Key "bitsPerWeight"].
Definition vram_path : list step :=
  [Key "estimate"; Key "items"; First; Key "vrams"; First; Key "nonuma"].
Definition ram_path : list step :=
  [Key "estimate"; Key "items"; First; Key "ram"; Key "nonuma"].

(** The specification's display rule for an integer parameter count:
    [{:.1f}B] of [p / 1e9] from one billion on, [{:.0f}M] of [p / 1e6] from
    one million on, the decimal string of [p] below. *)
Definition parameters_display_spec (p : Z) : result string :=
  if p >=? 10 ^ 9 then
    x ← PyFloat.int_truediv p (10 ^ 9);
    Ok (String.append (PyFloat.format_fixed 1 x) "B")
  else if p >=? 10 ^ 6 then
    x ← PyFloat.int_truediv p (10 ^ 6);
    Ok (String.append (PyFloat.format_fixed 0 x) "M")
  else Ok (Dec.of_Z p).

(** The specification's conversion of a byte count:
    [round(b / 1024**3, 2)]. *)
Definition gb_spec (b : Z) : result spec_float :=
  x ← PyFloat.int_truediv b (1024 ^ 3);
  PyFloat.round_ndigits 2 x.

(** A source value that counts as zero or missing. *)
Definition zero_or_missing (source : option value) : Prop :=
  source = None \/ source = Some (VInt 0).

(** Floats that are not negative and not NaN, and those that are above
    zero. *)
Definition nonnegative (x : spec_float) : Prop :=
  match x with
  | S754_zero false | S754_finite false _ _ | S754_infinity false => True
  | _ => False
  end.

Definition strictly_positive (x : spec_float) : Prop :=
  match x with
  | S754_finite false _ _ | S754_infinity false => True
  | _ => False
  end.

(** The invariant as the specification words it: the field is absent or a
    strictly positive float. *)
Definition positive_or_absent (md : pydict) (field : string) : Prop :=
  Py.lookup field md = Some VNone
  \/ exists x, Py.lookup field md = Some (VFloat x) /\ strictly_positive x.

(** A document that reports a file of one byte, and one that reports
    0.001 bits per weight. *)
Definition one_byte_file : value :=
  VDict [("metadata", VDict [("fileSize", VInt 1)])].

(** The field of the record converts the byte count found at [path]:
    a positive count [b] gives [round(b / 1024**3, 2)], a zero or missing
    count gives [None]. *)
Definition converts (raw : value) (md : pydict) (path : list step) (field : string)
    : Prop :=
  (forall b : Z,
      0 < b ->
      descend path raw = Some (VInt b) ->
      exists y, gb_spec b = Ok y /\ Py.lookup field md = Some (VFloat y))
  /\ (zero_or_missing (descend path raw) -> Py.lookup field md = Some VNone).

(** As [converts], with the sign of the result: a positive count gives a
    float that is not negative (and can be zero). *)
Definition converts_nonnegative (raw : value) (md : pydict) (path : list step)
    (field : string) : Prop :=
  (forall b : Z,
      0 < b ->
      descend path raw = Some (VInt b) ->
      exists y, gb_spec b = Ok y /\ nonnegative y
                /\ Py.lookup field md = Some (VFloat y))
  /\ (zero_or_missing (descend path raw) -> Py.lookup field md = Some VNone).

(** The float that [json.loads] reads from the text 0.001. *)
Definition one_thousandth : spec_float := PyFloat.of_ratio false 1 1000.

(** The same event with every subprocess invocation given the command
    line [cmd]. *)
Definition retarget (cmd : list string) (e : event) : event :=
  match e with
  | EvSpawn _ => EvSpawn cmd
  | EvCheck => EvCheck
  | EvSleep d => EvSleep d
  end.

(** Every subprocess invocation among the events has the command line
    [cmd]. *)
Definition spawns_only (cmd : list string) (t : list event) : Prop :=
  Forall (fun e => forall c, e = EvSpawn c -> c = cmd) t.

(** The three outcomes of an enrichment.  The source does not compute the
    tag; it names the return statement that is taken. *)
Inductive EnrichmentOutcome : Type :=
  | not_gguf
  | enriched
  | detected_unparsed.

(** The outcome, from the GGUF files found for the model and from what the
    extraction of the chosen file returned. *)
Definition outcome_of (gguf_files : list string) (metadata : option pydict)
    : EnrichmentOutcome :=
  match gguf_files, metadata with
  | [], _ => not_gguf
  | _ :: _, Some _ => enriched
  | _ :: _, None => detected_unparsed
  end.

(** The [url] of a model record when it is a string, the empty string when
    the record has none. *)
Definition url_of (model_dict : gmap string value) : option string :=
  match model_dict !! "url" with
  | None => Some EmptyString
  | Some (VStr url) => Some url
  | Some _ => None
  end.

(** The repository identifier that enrichment derives from the URL. *)
Definition repo_id_of (source url : string) : string :=
  if String.eqb source "huggingface"
  then PyStr.replace "https://huggingface.co/" EmptyString url
  else PyStr.rstrip_char "/"%char
         (PyStr.replace "https://modelscope.cn/models/" EmptyString url).

(** The fields that enrichment writes when extraction succeeds, and the two
    it writes when extraction fails. *)
Definition enriched_keys : list string :=
  [ "is_gguf"; "quantization"; "gguf_architecture"; "context_length";
    "parameter_count"; "vram_required_gb"; "bits_per_weight"; "gguf_file" ].

Definition unparsed_keys : list string := [ "is_gguf"; "gguf_file" ].

Section ScraperVocabulary.

Variable float_repr : spec_float -> string.
Variable PARSER_PATH : string.
Variable json_loads : string -> result value.
Variable parser_exists : nat -> bool.
Variable subprocess_run : nat -> list string -> run_outcome.
Variable requests_get : string -> http_outcome.

(** The GGUF files of the model: the model qualifies when there is one. *)
Definition listed_gguf_files (source repo_id : string) : list string :=
  if String.eqb source "huggingface"
  then get_gguf_files_from_hf requests_get repo_id
  else get_gguf_files_from_ms requests_get repo_id.

(** Extraction of [gguf_file] from the hub of the model, with the default
    number of attempts. *)
Definition extraction (source repo_id gguf_file : string) (w : world)
    : option pydict * world :=
  if String.eqb source "huggingface"
  then parse_gguf_from_hf float_repr PARSER_PATH json_loads parser_exists
         subprocess_run repo_id gguf_file MAX_RETRIES w
  else parse_gguf_from_ms float_repr PARSER_PATH json_loads parser_exists
         subprocess_run repo_id gguf_file MAX_RETRIES w.

End ScraperVocabulary.

(** A model record of the first hub, and a listing of its repository with
    one GGUF file. *)
Definition sample_model : gmap string value :=
  {[ "name" := VStr "m-GGUF";
     "url" := VStr "https://huggingface.co/org/m-GGUF" ]}.

Definition sample_listing (url : string) : http_outcome :=
  HttpResponse 200
    (Ok (VDict [("siblings",
                 VList [VDict [("rfilename", VStr "README.md")];
                        VDict [("rfilename", VStr "m.Q4_K_M.gguf")]])])).

(** A concrete outside world for trying the statements: a parser that
    fails twice and then answers, one that reports a missing file, one
    whose answer has an empty items list. *)
Definition no_repr (x : spec_float) : string := EmptyString.

Definition loads_empty_object (stdout : string) : result value := Ok (VDict []).

Definition loads_empty_items (stdout : string) : result value :=
  Ok (VDict [("estimate", VDict [("items", VList [])])]).

Definition loads_sample (stdout : string) : result value :=
  Ok (VDict [("metadata",
              VDict [("parameters", VInt 6738415616);
                     ("fileSize", VInt 4080263168);
                     ("bitsPerWeight", VFloat (PyFloat.of_ratio false 484 100))]);
             ("estimate",
              VDict [("items",
                      VList [VDict [("vrams", VList [VDict [("nonuma", VInt 0)]]);
                                    ("ram", VDict [])]])])]).

Definition sample_document : value :=
  Eval vm_compute in
    match loads_sample EmptyString with
    | Ok raw => raw
    | Raise _ => VNone
    end.

Definition always_installed (k : nat) : bool := true.

Definition flaky_tool (k : nat) (cmd : list string) : run_outcome :=
  if (k <? 2)%nat then Completed 1 EmptyString "connection reset by peer"
  else Completed 0 "{}" EmptyString.

Definition not_found_tool (k : nat) (cmd : list string) : run_outcome :=
  Completed 1 EmptyString "Error: 404 Not Found ".

Definition answering_tool (k : nat) (cmd : list string) : run_outcome :=
  Completed 0 "{}" EmptyString.

(** The record that normalisation makes of the empty JSON object, and the
    one it makes of the sample document. *)
Definition bare_record : pydict :=
  Eval vm_compute in
    match _extract_metadata no_repr (VDict []) with
    | Ok md => md
    | Raise _ => []
    end.

Definition sample_record : pydict :=
  Eval vm_compute in
    match _extract_metadata no_repr sample_document with
    | Ok md => md
    | Raise _ => []
    end.

(* ===================================================================== *)
(** ** Further vocabulary: measuring a trace *)
(* ===================================================================== *)

(** The number of attempts a trace records (each attempt starts with the
    check for the binary), and the seconds it sleeps in total. *)
Fixpoint checks (t : list event) : nat :=
  match t with
  | [] => O
  | EvCheck :: t' => S (checks t')
  | _ :: t' => checks t'
  end.

Definition total_sleep (t : list event) : Z := foldr Z.add 0 (sleeps t).

Definition is_sleep (e : event) : bool :=
  match e with
  | EvSleep _ => true
  | _ => false
  end.

(** A machine on which the parser binary is not installed. *)
Definition never_installed (k : nat) : bool := false.

(** [d[k] = v] on the entries of a dict: the entry with that key is
    replaced where it stands, a new key is added at the end. *)
Fixpoint set_key (k : string) (v : value) (d : pydict) : pydict :=
  match d with
  | [] => [(k, v)]
  | (k', v') :: d' =>
      if String.eqb k k' then (k, v) :: d' else (k', v') :: set_key k v d'
  end.

(** Values that are not numbers: comparing one with an [int] raises. *)
Definition not_a_number (v : value) : Prop :=
  match v with
  | VNone | VStr _ | VList _ | VDict _ => True
  | VBool _ | VInt _ | VFloat _ => False
  end.

(** Values that are not JSON objects. *)
Definition not_an_object (v : value) : Prop :=
  match v with
  | VDict _ => False
  | _ => True
  end.

(** The name a listing entry carries under [key]: the string found there,
    the empty string when the key is missing; none when the entry is not an
    object or holds something else than a string. *)
Definition entry_name (key : string) (f : value) : option string :=
  match f with
  | VDict d =>
      match Py.lookup key d with
      | None => Some EmptyString
      | Some (VStr s) => Some s
      | Some _ => None
      end
  | _ => None
  end.

(** A file name with the GGUF extension, in any case. *)
Definition has_gguf_suffix (s : string) : bool :=
  PyStr.endswith ".gguf" (PyStr.lower s).

(* ===================================================================== *)
(** ** model_scraper.py: configuration and classification of a model *)
(* ===================================================================== *)

Module Scrape.

(** [t in container] for a [str] [t]: an element of a list, a substring of
    a string, a key of a dict; nothing else is iterable. *)
Definition str_in (t : string) (container : value) : result bool :=
  match container with
  | VList l =>
      Ok (existsb (fun x => match x with
                            | VStr s => String.eqb s t
                            | _ => false
                            end) l)
  | VStr s => Ok (PyStr.contains t s)
  | VDict d => Ok (Py.has_key t d)
  | VNone | VBool _ | VInt _ | VFloat _ => Raise TypeError
  end.

(** [any(t in container for t in ts)], left to right, stopping at the
    first hit. *)
Fixpoint any_in (ts : list string) (container : value) : result bool :=
  match ts with
  | [] => Ok false
  | t :: rest =>
      hit ← str_in t container;
      if hit : bool then Ok true else any_in rest container
  end.

(** [a in x or b in x] *)
Definition either_in (a b : string) (container : value) : result bool :=
  hit ← str_in a container;
  if hit : bool then Ok true else str_in b container.

Definition image_tags : list string :=
  ["diffusers"; "stable-diffusion"; "image-generation"; "text-to-image"].
Definition coding_tags : list string :=
  ["code"; "coding"; "coder"; "code-generation"].
Definition multimodal_tags : list string :=
  ["vision"; "multimodal"; "image-text-to-text"; "visual-question-answering"].

(** [model_data.get('id', '').lower()] *)
Definition lower_id (model_data : value) : result string :=
  v ← Py.get model_data "id" (VStr EmptyString);
  lower_of v.

Definition detect_category (model_data : value) : result string :=
  tags ← Py.get model_data "tags" (VList []);
  pipeline ← Py.get model_data "pipeline_tag" (VStr EmptyString);
  image ← any_in image_tags tags;
  if image : bool then Ok "image" else
  image ← either_in "text-to-image" "image-to-image" pipeline;
  if image : bool then Ok "image" else
  coding ← any_in coding_tags tags;
  if coding : bool then Ok "coding" else
  name ← lower_id model_data;
  if PyStr.contains "code" name then Ok "coding" else
  multimodal ← any_in multimodal_tags tags;
  if multimodal : bool then Ok "multimodal" else
  name ← lower_id model_data;
  if PyStr.contains "vision" name then Ok "multimodal" else
  Ok "text".

Definition chinese_indicators : list string :=
  [ "qwen"; "baichuan"; "chatglm"; "yi-"; "deepseek"; "chinese"; "minicpm";
    "internlm"; "moss"; "tigerbot"; "aquila"; "skywork"; "xverse"; "orion" ].

Definition is_chinese_model (model_data : value) : result bool :=
  model_id ← lower_id model_data;
  tags ← Py.get model_data "tags" (VList []);
  if existsb (fun indicator => PyStr.contains indicator model_id) chinese_indicators
  then Ok true
  else either_in "zh" "chinese" tags.

(** [[t.lower() for t in tags]] *)
Fixpoint lowered (tags : list value) : result (list string) :=
  match tags with
  | [] => Ok []
  | t :: rest =>
      s ← lower_of t;
      l ← lowered rest;
      Ok (s :: l)
  end.

(** The loop over the files of [is_gguf_model]: it returns at the first
    name with the extension. *)
Fixpoint any_gguf_file (files : list value) : result bool :=
  match files with
  | [] => Ok false
  | file :: rest =>
      name ← Py.get file "rfilename" (VStr EmptyString);
      filename ← lower_of name;
      if PyStr.endswith ".gguf" filename then Ok true else any_gguf_file rest
  end.

Definition is_gguf_model (model_data : value) : result bool :=
  model_id ← lower_id model_data;
  tags ← Py.get model_data "tags" (VList []);
  if PyStr.contains "gguf" model_id then Ok true else
  tags ← Py.iterate tags;
  tags ← lowered tags;
  if existsb (String.eqb "gguf") tags then Ok true else
  siblings ← Py.get model_data "siblings" (VList []);
  files ← Py.iterate siblings;
  any_gguf_file files.

(** [total + size] for a number [total]: [int] arithmetic while both are
    [int]s (a [bool] counts as one), [float] arithmetic as soon as one is a
    [float]. *)
Definition add (total size : value) : result value :=
  let as_int (v : value) : option Z :=
    match v with
    | VInt n => Some n
    | VBool b => Some (Py.int_of_bool b)
    | _ => None
    end in
  let as_float (v : value) : result spec_float :=
    match v with
    | VFloat x => Ok x
    | VInt n => PyFloat.of_int n
    | VBool b => PyFloat.of_int (Py.int_of_bool b)
    | VNone | VStr _ | VList _ | VDict _ => Raise TypeError
    end in
  match as_int total, as_int size with
  | Some a, Some b => Ok (VInt (a + b))
  | _, _ =>
      match total, size with
      | (VNone | VStr _ | VList _ | VDict _), _ => Raise TypeError
      | _, (VNone | VStr _ | VList _ | VDict _) => Raise TypeError
      | _, _ =>
          x ← as_float total;
          y ← as_float size;
          Ok (VFloat (SFadd PyFloat.prec PyFloat.emax x y))
      end
  end.

(** [total > 0] *)
Definition gt0 (total : value) : result bool :=
  match total with
  | VInt n => Ok (0 <? n)
  | VBool b => Ok b
  | VFloat x => Ok (SFltb (S754_zero false) x)
  | VNone | VStr _ | VList _ | VDict _ => Raise TypeError
  end.

(** The loop that adds up the sizes of the files. *)
Fixpoint sum_sizes (files : list value) (total_bytes : value) : result value :=
  match files with
  | [] => Ok total_bytes
  | file :: rest =>
      size ← Py.get file "size" (VInt 0);
      if Py.truthy size then
        total_bytes ← add total_bytes size;
        sum_sizes rest total_bytes
      else sum_sizes rest total_bytes
  end.

(** [size_indicators], in the order the dict literal lists them. *)
Definition size_indicators : list (string * Z) :=
  [ ("0.5b", 1); ("1b", 2); ("1.5b", 3); ("2b", 4); ("3b", 6);
    ("4b", 8); ("7b", 14); ("8b", 16); ("13b", 26); ("14b", 28);
    ("32b", 64); ("34b", 68); ("70b", 140); ("72b", 144) ].

(** The loop over [size_indicators.items()]. *)
Fixpoint first_indicator (table : list (string * Z)) (name : string) : option Z :=
  match table with
  | [] => None
  | (indicator, size) :: rest =>
      if PyStr.contains indicator name then Some size
      else first_indicator rest name
  end.

Definition estimate_model_size (model_data : value) : result value :=
  siblings ← Py.get model_data "siblings" (VList []);
  files ← Py.iterate siblings;
  total_bytes ← sum_sizes files (VInt 0);
  positive ← gt0 total_bytes;
  if positive : bool then
    x ← Py.truediv total_bytes GiB;
    y ← PyFloat.round_ndigits 1 x;
    Ok (VFloat y)
  else
    name ← lower_id model_data;
    Ok match first_indicator size_indicators name with
       | Some size => VInt size
       | None => VNone
       end.

Definition DEFAULT_CONFIG : pydict :=
  [ ("scrape_interval_hours", VInt 6);
    ("max_models_per_source", VInt 100);
    ("sources", VDict [("huggingface", VBool true); ("modelscope", VBool true)]);
    ("vram_limit_gb", VInt 24);
    ("include_chinese", VBool true) ].

(** [{**d1, **d2}]: the entries of [d2] are set one after the other on a
    copy of [d1]. *)
Definition merge (d1 d2 : pydict) : pydict :=
  fold_left (fun acc kv => set_key (fst kv) (snd kv) acc) d2 d1.

(** [load_config], given whether config.json exists and what opening and
    decoding it gives. *)
Definition load_config (config_exists : bool) (json_load : result value)
    : result pydict :=
  if config_exists then
    loaded ← json_load;
    match loaded with
    | VDict user => Ok (merge DEFAULT_CONFIG user)
    | VNone | VBool _ | VInt _ | VFloat _ | VStr _ | VList _ => Raise TypeError
    end
  else Ok DEFAULT_CONFIG.

(** [config.get('sources', {}).get(name, True)], the switch of a source in
    [run_scraper], as a truth value. *)
Definition source_enabled (config : pydict) (name : string) : result bool :=
  v ← Py.get (default (VDict []) (Py.lookup "sources" config)) name (VBool true);
  Ok (Py.truthy v).

End Scrape.

(* ===================================================================== *)
(** ** web_dashboard.py: the statistics of /api/models *)
(* ===================================================================== *)

Module Dashboard.

(** [m[k]] on a row. *)
Definition getitem (m : pydict) (k : string) : result value :=
  match Py.lookup k m with
  | Some v => Ok v
  | None => Raise KeyError
  end.

(** The local [is_gguf_model(m)], as the truth value the filter takes. *)
Definition is_gguf_model (m : pydict) : result bool :=
  if Py.truthy (default VNone (Py.lookup "is_gguf" m)) then Ok true
  else
    name ← lower_of (default (VStr EmptyString) (Py.lookup "name" m));
    Ok (PyStr.contains "gguf" name).

(** [m['is_chinese']] as a truth value. *)
Definition is_chinese (m : pydict) : result bool :=
  v ← getitem m "is_chinese";
  Ok (Py.truthy v).

(** [m['category'] == category] *)
Definition category_is (category : string) (m : pydict) : result bool :=
  v ← getitem m "category";
  Ok match v with
     | VStr s => String.eqb s category
     | _ => false
     end.

(** [sum(1 for m in models_list if test(m))] *)
Fixpoint count_where (test : pydict -> result bool) (models_list : list pydict)
    : result Z :=
  match models_list with
  | [] => Ok 0
  | m :: rest =>
      hit ← test m;
      n ← count_where test rest;
      Ok (if hit : bool then 1 + n else n)
  end.

(** The [stats] dict of [get_models]. *)
Definition stats (models_list : list pydict) : result pydict :=
  gguf ← count_where is_gguf_model models_list;
  chinese ← count_where is_chinese models_list;
  text ← count_where (category_is "text") models_list;
  image ← count_where (category_is "image") models_list;
  coding ← count_where (category_is "coding") models_list;
  multimodal ← count_where (category_is "multimodal") models_list;
  Ok [ ("total", VInt (Z.of_nat (length models_list)));
       ("gguf", VInt gguf);
       ("chinese", VInt chinese);
       ("text", VInt text);
       ("image", VInt image);
       ("coding", VInt coding);
       ("multimodal", VInt multimodal) ].

End Dashboard.

(** The categories the scraper assigns. *)
Definition categories : list string := ["text"; "image"; "coding"; "multimodal"].

(** The integer a statistics dict holds under [k], zero when it holds
    none. *)
Definition stat (k : string) (s : pydict) : Z :=
  match Py.lookup k s with
  | Some (VInt n) => n
  | _ => 0
  end.

(** The size a listing entry reports: the integer found under [size], zero
    when the key is missing; none when the entry is not an object or the
    size is not an integer. *)
Definition entry_size (f : value) : option Z :=
  match f with
  | VDict d =>
      match Py.lookup "size" d with
      | None => Some 0
      | Some (VInt n) => Some n
      | Some _ => None
      end
  | _ => None
  end.

(** [round(total / 1024**3, 1)] for an integer number of bytes. *)
Definition gb_estimate (total : Z) : result value :=
  x ← PyFloat.int_truediv total GiB;
  y ← PyFloat.round_ndigits 1 x;
  Ok (VFloat y).

(** Model data as the hub's API documents it: the identifier and the
    pipeline tag are strings, the tags are a list of strings, the files
    are a list of objects whose names are strings; each may be missing. *)
Definition well_formed_model (d : pydict) : Prop :=
  (Py.lookup "id" d = None \/ exists s, Py.lookup "id" d = Some (VStr s))
  /\ (Py.lookup "pipeline_tag" d = None
      \/ exists s, Py.lookup "pipeline_tag" d = Some (VStr s))
  /\ (Py.lookup "tags" d = None
      \/ exists l : list string, Py.lookup "tags" d = Some (VList (map VStr l)))
  /\ (Py.lookup "siblings" d = None
      \/ exists fs : list value,
           Py.lookup "siblings" d = Some (VList fs)
           /\ Forall (fun f => is_Some (entry_name "rfilename" f)) fs).

(** Values a [for] loop or an [in] test cannot go through. *)
Definition not_iterable (v : value) : Prop :=
  match v with
  | VNone | VBool _ | VInt _ | VFloat _ => True
  | VStr _ | VList _ | VDict _ => False
  end.

(* ===================================================================== *)
(** * Properties *)
(* ===================================================================== *)

(** ** Choice of the representative file *)

Lemma first_containing_unmatched (pref : string) (files : list string) :
  unmatched files pref -> first_containing pref files = None.
Proof.
  unfold unmatched. induction 1 as [|g files Hg _ IH]; simpl.
  - reflexivity.
  - rewrite Hg. exact IH.
Qed.

Lemma first_containing_first_match (pref : string) (files : list string) (f : string) :
  first_match pref files f -> first_containing pref files = Some f.
Proof.
  intros (before & after & -> & Hf & Hbefore).
  induction Hbefore as [|g before Hg _ IH]; simpl.
  - rewrite Hf. reflexivity.
  - rewrite Hg. exact IH.
Qed.

Lemma scan_preferences_earliest (earlier later files : list string) (pref f : string) :
  Forall (unmatched files) earlier ->
  first_match pref files f ->
  scan_preferences (earlier ++ pref :: later) files = Some f.
Proof.
  intros Hearlier Hf.
  induction Hearlier as [|p earlier Hp _ IH]; simpl.
  - rewrite (first_containing_first_match _ _ _ Hf). reflexivity.
  - rewrite (first_containing_unmatched _ _ Hp). exact IH.
Qed.

Lemma scan_preferences_none (prefs files : list string) :
  Forall (unmatched files) prefs -> scan_preferences prefs files = None.
Proof.
  induction 1 as [|p prefs Hp _ IH]; simpl.
  - reflexivity.
  - rewrite (first_containing_unmatched _ _ Hp). exact IH.
Qed.

Lemma first_match_nonempty (pref f : string) (files : list string) :
  first_match pref files f -> exists g rest, files = g :: rest.
Proof.
  intros ([|g before] & after & -> & _); simpl; eauto.
Qed.



(** ** The retry loop *)

Lemma sleeps_app (t1 t2 : list event) :
  sleeps (t1 ++ t2) = (sleeps t1 ++ sleeps t2)%list.
Proof.
  induction t1 as [|[| |] t1 IH]; simpl; rewrite ?IH; reflexivity.
Qed.

Lemma spawns_app (t1 t2 : list event) :
  spawns (t1 ++ t2) = (spawns t1 ++ spawns t2)%list.
Proof.
  induction t1 as [|[| |] t1 IH]; simpl; rewrite ?IH; reflexivity.
Qed.

Section ClientProperties.

Variable float_repr : spec_float -> string.
Variable PARSER_PATH : string.
Variable json_loads : string -> result value.
Variable parser_exists : nat -> bool.
Variable subprocess_run : nat -> list string -> run_outcome.

Local Abbreviation run_parser :=
  (_run_parser float_repr PARSER_PATH json_loads parser_exists subprocess_run).
Local Abbreviation loop :=
  (retry_loop float_repr PARSER_PATH json_loads parser_exists subprocess_run).
Local Abbreviation with_retry :=
  (_run_parser_with_retry float_repr PARSER_PATH json_loads parser_exists
     subprocess_run).
Local Abbreviation result_of :=
  (attempt_result float_repr PARSER_PATH json_loads parser_exists subprocess_run).
Local Abbreviation events_of := (attempt_events PARSER_PATH parser_exists).
Local Abbreviation fails := 
  (transient float_repr PARSER_PATH json_loads parser_exists subprocess_run).
Local Abbreviation yields :=
  (succeeds float_repr PARSER_PATH json_loads parser_exists subprocess_run).
Local Abbreviation missing :=
  (not_found float_repr PARSER_PATH json_loads parser_exists subprocess_run).
Local Abbreviation schedule := (backoff_trace PARSER_PATH parser_exists).

(** One attempt returns what its number decides and appends its events. *)
Lemma run_parser_step (args : list string) (w : world) :
  run_parser args w
  = (result_of args (attempts w),
     mkWorld (S (attempts w)) (trace w ++ events_of args (attempts w))).
Proof.
  unfold attempt_result, attempt_events, command_line, _run_parser,
    next_attempt, emit; simpl.
  destruct (parser_exists (attempts w)); simpl.
  - rewrite <- app_assoc; simpl.
    destruct (_run_parser_try _ _ _ _ _) as [r|[]]; reflexivity.
  - reflexivity.
Qed.

Lemma loop_step (args : list string) (n : Z) (todo : nat) (a d : Z) (w : world) :
  loop args n (S todo) a d w
  = let r := result_of args (attempts w) in
    let w1 := mkWorld (S (attempts w)) (trace w ++ events_of args (attempts w)) in
    if is_success r then (r, w1)
    else if is_not_found r then (None, w1)
    else if a <? n - 1
         then loop args n todo (a + 1) (d * 2) (emit (EvSleep d) w1)
         else loop args n todo (a + 1) d w1.
Proof. cbn [retry_loop]. rewrite run_parser_step. reflexivity. Qed.

Lemma loop_attempts_le (args : list string) (n : Z) (todo : nat) :
  forall (a d : Z) (w : world),
    (attempts (snd (loop args n todo a d w)) <= attempts w + todo)%nat.
Proof.
  induction todo as [|todo IH]; intros a d w; simpl.
  - lia.
  - rewrite run_parser_step.
    destruct (is_success _); [simpl; lia|].
    destruct (is_not_found _); [simpl; lia|].
    destruct (a <? n - 1).
    + etransitivity; [apply IH|]. simpl. lia.
    + etransitivity; [apply IH|]. simpl. lia.
Qed.

Lemma loop_all_transient (args : list string) (n : Z) (todo : nat) :
  forall (a d : Z) (w : world),
    a + Z.of_nat (S todo) = n ->
    (forall i : nat, (i <= todo)%nat -> fails args (attempts w + i)) ->
    loop args n (S todo) a d w
    = (None, mkWorld (attempts w + S todo)
               (trace w ++ schedule args (attempts w) todo d)).
Proof.
  induction todo as [|todo IH]; intros a d w Hn Hfail.
  - rewrite loop_step. cbv zeta.
    pose proof (Hfail O ltac:(lia)) as H0. rewrite Nat.add_0_r in H0.
    unfold transient in H0. rewrite H0. cbn [is_success is_not_found].
    replace (a <? n - 1) with false by (symmetry; apply Z.ltb_ge; lia).
    cbn [retry_loop backoff_trace]. rewrite app_nil_r.
    replace (attempts w + 1)%nat with (S (attempts w)) by lia. reflexivity.
  - rewrite loop_step. cbv zeta.
    pose proof (Hfail O ltac:(lia)) as H0. rewrite Nat.add_0_r in H0.
    unfold transient in H0. rewrite H0. cbn [is_success is_not_found].
    replace (a <? n - 1) with true by (symmetry; apply Z.ltb_lt; lia).
    rewrite IH.
    + cbn [emit attempts trace backoff_trace].
      rewrite <- !app_assoc. cbn [app].
      replace (S (attempts w) + S todo)%nat with (attempts w + S (S todo))%nat
        by lia.
      reflexivity.
    + lia.
    + intros i Hi. cbn [emit attempts].
      replace (S (attempts w) + i)%nat with (attempts w + S i)%nat by lia.
      apply Hfail. lia.
Qed.

Lemma loop_success_after (args : list string) (n : Z) (md : pydict) (j : nat) :
  forall (todo : nat) (a d : Z) (w : world),
    (j < todo)%nat ->
    a + Z.of_nat todo = n ->
    (forall i : nat, (i < j)%nat -> fails args (attempts w + i)) ->
    yields args (attempts w + j) md ->
    loop args n todo a d w
    = (Some md, mkWorld (attempts w + S j)
                  (trace w ++ schedule args (attempts w) j d)).
Proof.
  induction j as [|j IH]; intros [|todo] a d w Hj Hn Hfail [Hres Hkey];
    try lia.
  - rewrite loop_step. cbv zeta.
    rewrite Nat.add_0_r in Hres. rewrite Hres.
    cbn [is_success]. rewrite Hkey. cbn [negb backoff_trace].
    rewrite app_nil_r.
    replace (attempts w + 1)%nat with (S (attempts w)) by lia. reflexivity.
  - rewrite loop_step. cbv zeta.
    pose proof (Hfail O ltac:(lia)) as H0. rewrite Nat.add_0_r in H0.
    unfold transient in H0. rewrite H0. cbn [is_success is_not_found].
    replace (a <? n - 1) with true by (symmetry; apply Z.ltb_lt; lia).
    rewrite (IH todo).
    + cbn [emit attempts trace backoff_trace].
      rewrite <- !app_assoc. cbn [app].
      replace (S (attempts w) + S j)%nat with (attempts w + S (S j))%nat
        by lia.
      reflexivity.
    + lia.
    + lia.
    + intros i Hi. cbn [emit attempts].
      replace (S (attempts w) + i)%nat with (attempts w + S i)%nat by lia.
      apply Hfail. lia.
    + cbn [emit attempts].
      replace (S (attempts w) + j)%nat with (attempts w + S j)%nat by lia.
      split; assumption.
Qed.

Lemma sleeps_events_of (args : list string) (k : nat) :
  sleeps (events_of args k) = [].
Proof. unfold attempt_events. destruct (parser_exists k); reflexivity. Qed.

Lemma sleeps_schedule (args : list string) (j : nat) :
  forall (k : nat) (d : Z),
    sleeps (schedule args k j d)
    = map (fun i : nat => d * 2 ^ Z.of_nat i) (seq 0 j).
Proof.
  induction j as [|j IH]; intros k d; cbn [backoff_trace].
  - rewrite app_nil_r. apply sleeps_events_of.
  - rewrite sleeps_app, sleeps_events_of. cbn [app sleeps].
    rewrite IH. cbn [seq map]. f_equal; [simpl; lia|].
    rewrite <- seq_shift, map_map. apply map_ext. intros i.
    rewrite Nat2Z.inj_succ, Z.pow_succ_r by lia. lia.
Qed.

End ClientProperties.

(** ** The not-found signal survives [strip] *)

Lemma append_assoc (s t u : string) :
  String.append (String.append s t) u = String.append s (String.append t u).
Proof.
  induction s as [|c s IH]; [reflexivity|].
  change (String c (String.append (String.append s t) u)
          = String c (String.append s (String.append t u))).
  rewrite IH. reflexivity.
Qed.

Lemma append_empty_r (s : string) : String.append s EmptyString = s.
Proof.
  induction s as [|c s IH]; [reflexivity|].
  change (String c (String.append s EmptyString) = String c s).
  rewrite IH. reflexivity.
Qed.

Lemma rev_onto_append (s acc : string) :
  PyStr.rev_onto s acc = String.append (PyStr.rev s) acc.
Proof.
  unfold PyStr.rev. revert acc.
  induction s as [|c s IH]; intros acc; simpl.
  - reflexivity.
  - rewrite (IH (String c EmptyString)), IH.
    rewrite append_assoc. reflexivity.
Qed.

Lemma rev_cons (c : ascii) (s : string) :
  PyStr.rev (String c s) = String.append (PyStr.rev s) (String c EmptyString).
Proof. unfold PyStr.rev at 1. simpl. apply rev_onto_append. Qed.

Lemma rev_append (s t : string) :
  PyStr.rev (String.append s t) = String.append (PyStr.rev t) (PyStr.rev s).
Proof.
  induction s as [|c s IH].
  - change (PyStr.rev EmptyString) with EmptyString. rewrite append_empty_r. reflexivity.
  - change (String.append (String c s) t) with (String c (String.append s t)).
    rewrite !rev_cons, IH, append_assoc. reflexivity.
Qed.

Lemma rev_involutive (s : string) : PyStr.rev (PyStr.rev s) = s.
Proof.
  induction s as [|c s IH].
  - reflexivity.
  - rewrite rev_cons, rev_append, IH. reflexivity.
Qed.

Lemma isspace_not_4 (c : ascii) : PyStr.isspace c = true -> Ascii.eqb "4" c = false.
Proof.
  destruct c as [[] [] [] [] [] [] [] []]; vm_compute; congruence.
Qed.

Lemma startswith_404_snoc (c : ascii) (s : string) :
  Ascii.eqb "4" c = false ->
  PyStr.startswith "404" (String.append s (String c EmptyString))
  = PyStr.startswith "404" s.
Proof.
  intros Hc.
  destruct s as [|a [|b [|d s]]]; cbn [String.append PyStr.startswith].
  - rewrite Hc. reflexivity.
  - destruct (Ascii.eqb "4" a); [|reflexivity].
    destruct (Ascii.eqb "0" c); reflexivity.
  - destruct (Ascii.eqb "4" a); [|reflexivity].
    destruct (Ascii.eqb "0" b); [|reflexivity].
    rewrite Hc. reflexivity.
  - reflexivity.
Qed.

Lemma contains_404_snoc (c : ascii) (s : string) :
  Ascii.eqb "4" c = false ->
  PyStr.contains "404" (String.append s (String c EmptyString))
  = PyStr.contains "404" s.
Proof.
  intros Hc. induction s as [|a s IH].
  - change (String.append EmptyString (String c EmptyString)) with (String c EmptyString).
    cbn [PyStr.contains PyStr.startswith]. rewrite Hc. reflexivity.
  - change (String.append (String a s) (String c EmptyString))
      with (String a (String.append s (String c EmptyString))).
    cbn [PyStr.contains].
    change (String a (String.append s (String c EmptyString)))
      with (String.append (String a s) (String c EmptyString)).
    rewrite (startswith_404_snoc c (String a s) Hc), IH. reflexivity.
Qed.

Lemma contains_404_cons (c : ascii) (s : string) :
  Ascii.eqb "4" c = false ->
  PyStr.contains "404" (String c s) = PyStr.contains "404" s.
Proof.
  intros Hc. cbn [PyStr.contains PyStr.startswith]. rewrite Hc. reflexivity.
Qed.

Lemma contains_404_lstrip (s : string) :
  PyStr.contains "404" (PyStr.lstrip s) = PyStr.contains "404" s.
Proof.
  unfold PyStr.lstrip. induction s as [|c s IH]; cbn [PyStr.dropwhile].
  - reflexivity.
  - destruct (PyStr.isspace c) eqn:Hc; [|reflexivity].
    rewrite IH. symmetry. apply contains_404_cons, isspace_not_4, Hc.
Qed.

Lemma contains_404_rstrip (s : string) :
  PyStr.contains "404" (PyStr.rstrip s) = PyStr.contains "404" s.
Proof.
  unfold PyStr.rstrip.
  rewrite <- (rev_involutive s) at 2.
  induction (PyStr.rev s) as [|c t IH]; cbn [PyStr.dropwhile].
  - reflexivity.
  - destruct (PyStr.isspace c) eqn:Hc; [|reflexivity].
    rewrite IH, rev_cons. symmetry.
    apply contains_404_snoc, isspace_not_4, Hc.
Qed.

(** [stderr.strip()] neither hides nor creates an occurrence of 404. *)
Lemma contains_404_strip (s : string) :
  PyStr.contains "404" (PyStr.strip s) = PyStr.contains "404" s.
Proof.
  unfold PyStr.strip. rewrite contains_404_rstrip. apply contains_404_lstrip.
Qed.

(** ** Normalisation: shape of the result *)

Lemma bind_Ok {A B : Type} (r : result A) (k : A -> result B) (b : B) :
  (r ≫= k) = Ok b -> exists a, r = Ok a /\ k a = Ok b.
Proof. destruct r as [a|e]; [eauto | discriminate]. Qed.

Lemma bind_Raise {A B : Type} (r : result A) (k : A -> result B) :
  (forall a, r = Ok a -> exists e, k a = Raise e) ->
  exists e, (r ≫= k) = Raise e.
Proof. destruct r as [a|e]; [intros H; apply (H a eq_refl) | eauto]. Qed.

(** Splits a successful run of binds into its successful steps. *)
Ltac invert_binds H :=
  repeat (let a := fresh "v" in
          let Ha := fresh "Hv" in
          apply bind_Ok in H; destruct H as (a & Ha & H)).

Lemma _extract_metadata_populated (float_repr : spec_float -> string)
    (raw : value) (md : pydict) :
  _extract_metadata float_repr raw = Ok md -> populated md.
Proof.
  unfold _extract_metadata. intros H. invert_binds H.
  injection H as <-. reflexivity.
Qed.

Lemma populated_no_error (md : pydict) :
  populated md -> Py.has_key "_error" md = false.
Proof.
  unfold populated, metadata_keys. intros H.
  repeat (destruct md as [|[? ?] md]; simpl in H; [discriminate H|];
          injection H as -> H).
  destruct md; [reflexivity | simpl in H; discriminate H].
Qed.

Lemma populated_truthy (md : pydict) : populated md -> md <> [].
Proof. intros H ->. simpl in H. discriminate H. Qed.

Lemma empty_items_raises (float_repr : spec_float -> string) (raw : value) :
  descend [Key "estimate"; Key "items"] raw = Some (VList []) ->
  exists e, _extract_metadata float_repr raw = Raise e.
Proof.
  intros Hpath.
  destruct raw as [| | | | | |d]; try discriminate Hpath.
  cbn [descend] in Hpath.
  destruct (Py.lookup "estimate" d) as [est|] eqn:Hest; [|discriminate Hpath].
  destruct est as [| | | | | |e]; try discriminate Hpath.
  destruct (Py.lookup "items" e) as [items|] eqn:Hitems; [|discriminate Hpath].
  injection Hpath as ->.
  unfold _extract_metadata. cbn [Py.get mbind result_bind from_option id].
  rewrite Hest. cbn [from_option id].
  unfold vram_bytes_of, ram_bytes_of.
  cbn [Py.get mbind result_bind from_option id]. rewrite Hitems.
  cbn [from_option id Py.truthy mbind result_bind gb_of_bytes Z.eqb negb].
  repeat (lazymatch goal with
          | |- exists _, (Py.index0 _ ≫= _) = Raise _ => fail
          | |- _ => apply bind_Raise; intros ? ?
          end).
  exists IndexError. reflexivity.
Qed.

(** ** Normalisation: the parameter count *)

Lemma descend_metadata_field (raw : value) (field : string) (v : value) :
  descend [Key "metadata"; Key field] raw = Some v ->
  exists d m, raw = VDict d
              /\ Py.lookup "metadata" d = Some (VDict m)
              /\ Py.lookup field m = Some v.
Proof.
  intros H.
  destruct raw as [| | | | | |d]; try discriminate H. cbn [descend] in H.
  destruct (Py.lookup "metadata" d) as [[| | | | | |m]|] eqn:Hm;
    try discriminate H.
  destruct (Py.lookup field m) as [x|] eqn:Hx; [|discriminate H].
  injection H as ->. eauto.
Qed.

Lemma params_str_of_int (float_repr : spec_float -> string) (p : Z) :
  params_str_of float_repr (VInt p) = parameters_display_spec p.
Proof.
  unfold params_str_of, parameters_display_spec.
  cbn [Py.ge mbind result_bind Py.truediv str_number].
  change (10 ^ 9) with 1000000000. change (10 ^ 6) with 1000000.
  destruct (p >=? 1000000000); [reflexivity|].
  destruct (p >=? 1000000); reflexivity.
Qed.

(** C8.  When the tool reports the integer parameter count [p], the display
    field of the record is the [{:.1f}B] formatting of [p / 1e9] for
    [p >= 1e9], the [{:.0f}M] formatting of [p / 1e6] for
    [1e6 <= p < 1e9], and the decimal string of [p] below; 6738415616 gives
    6.7B, 500000000 gives 500M and 999 gives 999. *)
Theorem parameters_display (float_repr : spec_float -> string)
    (raw : value) (md : pydict) (p : Z) :
  descend parameters_path raw = Some (VInt p) ->
  _extract_metadata float_repr raw = Ok md ->
  (exists s, parameters_display_spec p = Ok s
             /\ Py.lookup "parameters_str" md = Some (VStr s))
  /\ (p < 10 ^ 6 -> Py.lookup "parameters_str" md = Some (VStr (Dec.of_Z p)))
  /\ parameters_display_spec 6738415616 = Ok "6.7B"
  /\ parameters_display_spec 500000000 = Ok "500M"
  /\ parameters_display_spec 999 = Ok "999".
Proof.
  intros Hpath H.
  destruct (descend_metadata_field _ _ _ Hpath) as (d & m & -> & Hm & Hp).
  unfold _extract_metadata in H.
  cbn [Py.get mbind result_bind] in H. rewrite Hm in H.
  cbn [from_option id] in H.
  do 4 (apply bind_Ok in H; destruct H as (? & _ & H)).
  cbn [mbind result_bind Py.get] in H. rewrite Hp in H.
  cbn [from_option id mbind result_bind] in H.
  rewrite params_str_of_int in H.
  destruct (parameters_display_spec p) as [s|e] eqn:Hs; [|discriminate H].
  cbn [mbind result_bind] in H. invert_binds H. injection H as <-.
  split; [exists s; split; reflexivity|].
  split; [|repeat split; vm_compute; reflexivity].
  intros Hsmall. unfold parameters_display_spec in Hs.
  change (10 ^ 9) with 1000000000 in Hs.
  change (10 ^ 6) with 1000000 in Hs, Hsmall.
  rewrite !Z.geb_leb in Hs.
  rewrite (proj2 (Z.leb_gt 1000000000 p)) in Hs by lia.
  rewrite (proj2 (Z.leb_gt 1000000 p)) in Hs by lia.
  injection Hs as <-. reflexivity.
Qed.

(** ** Floats: rounding keeps the sign *)

Lemma shr_1_nonneg (r : shr_record) : 0 <= shr_m r -> 0 <= shr_m (shr_1 r).
Proof.
  destruct r as [[|[p|p|]|p] r s]; simpl; intros H; lia.
Qed.

Lemma iter_pos_shr_1_nonneg (p : positive) :
  forall r : shr_record, 0 <= shr_m r -> 0 <= shr_m (SpecFloat.iter_pos shr_1 p r).
Proof.
  induction p as [p IH|p IH|]; intros r H; simpl.
  - apply IH, IH, shr_1_nonneg, H.
  - apply IH, IH, H.
  - apply shr_1_nonneg, H.
Qed.

Lemma shr_fexp_nonneg (m e : Z) (l : location) :
  0 <= m -> 0 <= shr_m (fst (shr_fexp PyFloat.prec PyFloat.emax m e l)).
Proof.
  intros H. unfold shr_fexp, shr.
  assert (0 <= shr_m (shr_record_of_loc m l)) as H0
    by (destruct l as [|[]]; exact H).
  destruct (_ - e) as [|p|p]; simpl; try exact H0.
  apply iter_pos_shr_1_nonneg, H0.
Qed.

Lemma round_nearest_even_nonneg (m : Z) (l : location) :
  0 <= m -> 0 <= round_nearest_even m l.
Proof.
  intros H. destruct l as [|[]]; simpl; try lia.
  destruct (Z.even m); lia.
Qed.

Lemma binary_round_aux_sign (s : bool) (m e : Z) (l : location) :
  0 <= m ->
  match binary_round_aux PyFloat.prec PyFloat.emax s m e l with
  | S754_zero s' | S754_finite s' _ _ | S754_infinity s' => s' = s
  | S754_nan => False
  end.
Proof.
  intros H. unfold binary_round_aux.
  pose proof (shr_fexp_nonneg m e l H) as H1.
  destruct (shr_fexp _ _ m e l) as [r1 e1]. simpl in H1.
  pose proof (shr_fexp_nonneg _ e1 loc_Exact
                (round_nearest_even_nonneg _ (loc_of_shr_record r1) H1)) as H2.
  destruct (shr_fexp _ _ _ e1 loc_Exact) as [r2 e2]. simpl in H2.
  destruct (shr_m r2) as [|q|q]; try lia; try reflexivity.
  destruct (e2 <=? _); reflexivity.
Qed.

Lemma of_ratio_sign (s : bool) (n d : Z) :
  0 <= n -> 0 < d ->
  match PyFloat.of_ratio s n d with
  | S754_zero s' | S754_finite s' _ _ | S754_infinity s' => s' = s
  | S754_nan => False
  end.
Proof.
  intros Hn Hd. unfold PyFloat.of_ratio.
  destruct n as [|n|n]; [reflexivity| |lia].
  unfold SFdiv_core_binary.
  set (m' := match _ - _ with Z0 => Z.pos n | Zpos _ => _ | Zneg _ => 0 end).
  assert (0 <= m') as Hm'.
  { subst m'. destruct (_ - _); try lia. apply Z.shiftl_nonneg. lia. }
  pose proof (Z_div_mod m' d ltac:(lia)) as Hdiv.
  destruct (Z.div_eucl m' d) as [q r].
  apply binary_round_aux_sign. nia.
Qed.

Lemma of_ratio_nonnegative (n d : Z) :
  0 <= n -> 0 < d -> nonnegative (PyFloat.of_ratio false n d).
Proof.
  intros Hn Hd. pose proof (of_ratio_sign false n d Hn Hd) as H.
  destruct (PyFloat.of_ratio false n d) as [[]|[]| |[] ? ?];
    simpl; congruence || exact I || exact H.
Qed.

Lemma round_half_even_nonneg (n d : Z) :
  0 <= n -> 0 < d -> 0 <= PyFloat.round_half_even n d.
Proof.
  intros Hn Hd. unfold PyFloat.round_half_even.
  pose proof (Z.div_pos n d Hn Hd).
  destruct (_ ?= d); [destruct (Z.even _)| |]; lia.
Qed.

Lemma scaled_nonneg (m : positive) (e nd : Z) :
  0 <= nd -> 0 <= PyFloat.scaled m e nd.
Proof.
  intros Hnd. unfold PyFloat.scaled.
  pose proof (Z.pow_pos_nonneg 10 nd ltac:(lia) Hnd).
  destruct (0 <=? e) eqn:He.
  - apply Z.leb_le in He. pose proof (Z.pow_pos_nonneg 2 e ltac:(lia) He). nia.
  - apply Z.leb_gt in He.
    apply round_half_even_nonneg; [lia|].
    apply Z.pow_pos_nonneg; lia.
Qed.

Lemma int_truediv_nonnegative (b d : Z) (x : spec_float) :
  0 <= b -> 0 < d -> PyFloat.int_truediv b d = Ok x -> nonnegative x.
Proof.
  intros Hb Hd. unfold PyFloat.int_truediv.
  replace (d =? 0) with false by (symmetry; apply Z.eqb_neq; lia).
  replace (b <? 0) with false by (symmetry; apply Z.ltb_ge; lia).
  replace (d <? 0) with false by (symmetry; apply Z.ltb_ge; lia).
  rewrite (Z.abs_eq b), (Z.abs_eq d) by lia. cbn [xorb].
  pose proof (of_ratio_nonnegative b d Hb Hd) as H.
  destruct (PyFloat.of_ratio false b d); intros Hx;
    try discriminate Hx; injection Hx as <-; exact H.
Qed.

Lemma round_ndigits_nonnegative (x y : spec_float) :
  nonnegative x -> PyFloat.round_ndigits 2 x = Ok y -> nonnegative y.
Proof.
  intros Hx. unfold PyFloat.round_ndigits.
  destruct x as [[]|[]| |[] m e]; try (destruct Hx);
    try (intros H; injection H as <-; exact I).
  pose proof (of_ratio_nonnegative (PyFloat.scaled m e 2) (10 ^ 2)
                (scaled_nonneg m e 2 ltac:(lia)) ltac:(lia)) as H.
  destruct (PyFloat.of_ratio false _ _); intros Hy;
    try discriminate Hy; injection Hy as <-; exact H.
Qed.

(** A positive byte count converts to a float that is not negative. *)
Lemma gb_spec_nonnegative (b : Z) (y : spec_float) :
  0 < b -> gb_spec b = Ok y -> nonnegative y.
Proof.
  intros Hb H. unfold gb_spec in H.
  apply bind_Ok in H as (x & Hx & Hy).
  apply (round_ndigits_nonnegative x y); [|exact Hy].
  apply (int_truediv_nonnegative b (1024 ^ 3)); [lia | lia | exact Hx].
Qed.

(** ** Normalisation: byte counts *)

(** Case analysis on the values a successful run inspects, until the run is
    an [Ok] whose content settles the goal. *)
Ltac settle H :=
  cbn in H |- *;
  first
    [ discriminate H
    | injection H as <-; reflexivity
    | match type of H with
      | context [Py.truthy ?x] => is_var x; destruct x; settle H
      | context [Py.index0 ?x] => is_var x; destruct x; settle H
      | context [Py.get ?x _ _] => is_var x; destruct x; settle H
      | context [match ?x with _ => _ end] => is_var x; destruct x; settle H
      | context [Py.lookup ?k ?d] => destruct (Py.lookup k d); settle H
      | context [if ?b then _ else _] => destruct b; settle H
      end ].

Lemma vram_bytes_of_path (estimate vb : value) :
  vram_bytes_of estimate = Ok vb ->
  vb = default (VInt 0)
         (descend [Key "items"; First; Key "vrams"; First; Key "nonuma"] estimate).
Proof.
  unfold vram_bytes_of. intros H.
  destruct estimate as [| | | | | |e]; try discriminate H.
  cbn [Py.get Py.getitem descend mbind result_bind] in H |- *.
  destruct (Py.lookup "items" e) as [items|]; settle H.
Qed.

Lemma ram_bytes_of_path (estimate rb : value) :
  ram_bytes_of estimate = Ok rb ->
  rb = default (VInt 0)
         (descend [Key "items"; First; Key "ram"; Key "nonuma"] estimate).
Proof.
  unfold ram_bytes_of. intros H.
  destruct estimate as [| | | | | |e]; try discriminate H.
  cbn [Py.get Py.getitem descend mbind result_bind] in H |- *.
  destruct (Py.lookup "items" e) as [items|]; settle H.
Qed.

Lemma gb_of_bytes_int (b : Z) (g : value) :
  gb_of_bytes (VInt b) = Ok g ->
  (b = 0 -> g = VNone)
  /\ (b <> 0 -> exists y, gb_spec b = Ok y /\ g = VFloat y).
Proof.
  unfold gb_of_bytes, gb_spec. cbn [Py.truthy Py.truediv].
  change GiB with (1024 ^ 3).
  destruct (b =? 0) eqn:Hb; cbn [negb]; intros H.
  - apply Z.eqb_eq in Hb. injection H as <-. split; [reflexivity | lia].
  - apply Z.eqb_neq in Hb. split; [lia|]. intros _.
    apply bind_Ok in H as (x & Hx & H). apply bind_Ok in H as (y & Hy & H).
    injection H as <-. exists y. rewrite Hx. cbn. auto.
Qed.

(** What a successful normalisation did for the four numeric fields. *)
Lemma _extract_metadata_sizes (float_repr : spec_float -> string)
    (raw : value) (md : pydict) :
  _extract_metadata float_repr raw = Ok md ->
  exists (d m : pydict) (vb rb vram_gb ram_gb file_size_gb bits_per_weight : value),
    raw = VDict d
    /\ default (VDict []) (Py.lookup "metadata" d) = VDict m
    /\ vram_bytes_of (default (VDict []) (Py.lookup "estimate" d)) = Ok vb
    /\ gb_of_bytes vb = Ok vram_gb
    /\ ram_bytes_of (default (VDict []) (Py.lookup "estimate" d)) = Ok rb
    /\ gb_of_bytes rb = Ok ram_gb
    /\ gb_of_bytes (default VNone (Py.lookup "fileSize" m)) = Ok file_size_gb
    /\ (if Py.truthy (default VNone (Py.lookup "bitsPerWeight" m))
        then Py.round2 (default VNone (Py.lookup "bitsPerWeight" m))
        else Ok VNone) = Ok bits_per_weight
    /\ Py.lookup "vram_required_gb" md = Some vram_gb
    /\ Py.lookup "ram_required_gb" md = Some ram_gb
    /\ Py.lookup "file_size_gb" md = Some file_size_gb
    /\ Py.lookup "bits_per_weight" md = Some bits_per_weight.
Proof.
  unfold _extract_metadata. intros H.
  destruct raw as [| | | | | |d]; try discriminate H.
  cbn [Py.get mbind result_bind] in H.
  apply bind_Ok in H as (vb & Hvb & H). apply bind_Ok in H as (vg & Hvg & H).
  apply bind_Ok in H as (rb & Hrb & H). apply bind_Ok in H as (rg & Hrg & H).
  apply bind_Ok in H as (params & Hparams & H).
  destruct (from_option id (VDict []) (Py.lookup "metadata" d))
    as [| | | | | |m] eqn:Hm; try discriminate Hparams.
  do 8 (apply bind_Ok in H; destruct H as (? & _ & H)).
  apply bind_Ok in H as (fs & Hfs & H). apply bind_Ok in H as (fg & Hfg & H).
  apply bind_Ok in H as (bpw & Hbpw & H). apply bind_Ok in H as (bg & Hbg & H).
  invert_binds H. injection H as <-.
  cbn [Py.get] in Hfs, Hfg, Hbpw, Hbg.
  injection Hfs as <-. injection Hbpw as <-.
  exists d, m, vb, rb, vg, rg, fg, bg.
  repeat split; try assumption; try reflexivity.
  - unfold gb_of_bytes.
    destruct (Py.lookup "fileSize" m); exact Hfg.
  - destruct (Py.lookup "bitsPerWeight" m); exact Hbg.
Qed.

Lemma descend_metadata (d m : pydict) (field : string) :
  default (VDict []) (Py.lookup "metadata" d) = VDict m ->
  descend [Key "metadata"; Key field] (VDict d) = Py.lookup field m.
Proof.
  cbn [descend]. destruct (Py.lookup "metadata" d) as [x|]; simpl.
  - intros ->. destruct (Py.lookup field m); reflexivity.
  - intros H. injection H as <-. reflexivity.
Qed.

Lemma descend_estimate (d : pydict) (k : string) (rest : list step) :
  descend (Key "estimate" :: Key k :: rest) (VDict d)
  = descend (Key k :: rest) (default (VDict []) (Py.lookup "estimate" d)).
Proof.
  cbn [descend]. destruct (Py.lookup "estimate" d) as [x|]; reflexivity.
Qed.

Lemma gb_of_bytes_converts (source : option value) (zero g : value) :
  zero = VInt 0 \/ zero = VNone ->
  gb_of_bytes (default zero source) = Ok g ->
  (forall b : Z, 0 < b -> source = Some (VInt b) ->
     exists y, gb_spec b = Ok y /\ g = VFloat y)
  /\ (zero_or_missing source -> g = VNone).
Proof.
  intros Hzero Hg. split.
  - intros b Hb ->. simpl in Hg.
    apply (proj2 (gb_of_bytes_int b g Hg)). lia.
  - intros [-> | ->]; simpl in Hg.
    + destruct Hzero as [-> | ->]; injection Hg as <-; reflexivity.
    + injection Hg as <-; reflexivity.
Qed.

Lemma _extract_metadata_converts (float_repr : spec_float -> string)
    (raw : value) (md : pydict) :
  _extract_metadata float_repr raw = Ok md ->
  converts raw md file_size_path "file_size_gb"
  /\ converts raw md vram_path "vram_required_gb"
  /\ converts raw md ram_path "ram_required_gb".
Proof.
  intros H.
  destruct (_extract_metadata_sizes _ _ _ H)
    as (d & m & vb & rb & vg & rg & fg & bg & -> & Hm & Hvb & Hvg & Hrb & Hrg
        & Hfg & _ & Lv & Lr & Lf & _).
  apply vram_bytes_of_path in Hvb. apply ram_bytes_of_path in Hrb.
  unfold converts, file_size_path, vram_path, ram_path.
  rewrite (descend_metadata d m "fileSize" Hm), !descend_estimate.
  rewrite Lv, Lr, Lf. subst vb rb.
  pose proof (gb_of_bytes_converts _ _ _ (or_intror eq_refl) Hfg) as [F1 F2].
  pose proof (gb_of_bytes_converts _ _ _ (or_introl eq_refl) Hvg) as [V1 V2].
  pose proof (gb_of_bytes_converts _ _ _ (or_introl eq_refl) Hrg) as [R1 R2].
  repeat split.
  - intros b Hb Hs. destruct (F1 b Hb Hs) as (y & Hy & ->). eauto.
  - intros Hs. rewrite (F2 Hs). reflexivity.
  - intros b Hb Hs. destruct (V1 b Hb Hs) as (y & Hy & ->). eauto.
  - intros Hs. rewrite (V2 Hs). reflexivity.
  - intros b Hb Hs. destruct (R1 b Hb Hs) as (y & Hy & ->). eauto.
  - intros Hs. rewrite (R2 Hs). reflexivity.
Qed.

(** C5.  In a normalised record each of file_size_gb, vram_required_gb and
    ram_required_gb is [round(b / 1024**3, 2)] when the tool reports the
    positive byte count [b] for it, and is absent ([None], not [0.0]) when
    the count is zero or missing; one GiB gives 1.0 and 4080263168 bytes
    give 3.8. *)
Theorem gb_conversion (float_repr : spec_float -> string) (raw : value) (md : pydict) :
  _extract_metadata float_repr raw = Ok md ->
  converts raw md file_size_path "file_size_gb"
  /\ converts raw md vram_path "vram_required_gb"
  /\ converts raw md ram_path "ram_required_gb"
  /\ gb_spec (1024 ^ 3) = Ok (S754_finite false 4503599627370496 (-52))
  /\ gb_spec 4080263168 = Ok (S754_finite false 8556839292003942 (-51)).
Proof.
  intros H.
  destruct (_extract_metadata_converts float_repr raw md H) as (Hf & Hv & Hr).
  repeat split; try apply Hf; try apply Hv; try apply Hr.
Qed.

(** ** Normalisation: zero and absence *)

(** The invariant as the specification words it does not hold: a file of
    one byte has the size 0.0 GB, which is neither absent nor positive. *)
Lemma one_byte_file_rounds_to_zero :
  exists md,
    _extract_metadata (fun _ => EmptyString) one_byte_file = Ok md
    /\ Py.lookup "file_size_gb" md = Some (VFloat (S754_zero false))
    /\ ~ positive_or_absent md "file_size_gb".
Proof.
  eexists. split; [vm_compute; reflexivity|]. split; [reflexivity|].
  intros [H | (x & H & Hx)].
  - discriminate H.
  - injection H as <-. exact Hx.
Qed.

Lemma converts_sign (raw : value) (md : pydict) (path : list step) (field : string) :
  converts raw md path field -> converts_nonnegative raw md path field.
Proof.
  intros [Hpos Hzero]. split; [|exact Hzero].
  intros b Hb Hsrc. destruct (Hpos b Hb Hsrc) as (y & Hy & Hfield).
  exists y. split; [exact Hy|]. split; [|exact Hfield].
  apply (gb_spec_nonnegative b y Hb Hy).
Qed.

(** C6, as amended.  In a normalised record each of file_size_gb,
    vram_required_gb and ram_required_gb is absent when its byte count is
    zero or missing, and for a positive integer byte count [b] it is the
    float [round(b / 1024**3, 2)], which is never negative and never NaN but
    is 0.0 for a count that rounds to 0.00 GB, as for one byte.
    bits_per_weight is absent when its source is zero or missing, is the
    rounding to two decimals of a positive float source, again never
    negative but 0.0 for 0.001, and is the integer itself for a positive
    integer source. *)
Theorem rounded_or_absent (float_repr : spec_float -> string) (raw : value)
    (md : pydict) :
  _extract_metadata float_repr raw = Ok md ->
  converts_nonnegative raw md file_size_path "file_size_gb"
  /\ converts_nonnegative raw md vram_path "vram_required_gb"
  /\ converts_nonnegative raw md ram_path "ram_required_gb"
  /\ (zero_or_missing (descend bits_per_weight_path raw) ->
      Py.lookup "bits_per_weight" md = Some VNone)
  /\ (forall x : spec_float,
        strictly_positive x ->
        descend bits_per_weight_path raw = Some (VFloat x) ->
        exists y, PyFloat.round_ndigits 2 x = Ok y /\ nonnegative y
                  /\ Py.lookup "bits_per_weight" md = Some (VFloat y))
  /\ (forall b : Z,
        0 < b ->
        descend bits_per_weight_path raw = Some (VInt b) ->
        Py.lookup "bits_per_weight" md = Some (VInt b))
  /\ gb_spec 1 = Ok (S754_zero false)
  /\ PyFloat.round_ndigits 2 one_thousandth = Ok (S754_zero false).
Proof.
  intros H.
  destruct (_extract_metadata_converts float_repr raw md H) as (Hf & Hv & Hr).
  split; [apply converts_sign, Hf|]. split; [apply converts_sign, Hv|].
  split; [apply converts_sign, Hr|].
  destruct (_extract_metadata_sizes _ _ _ H)
    as (d & m & vb & rb & vg & rg & fg & bg & -> & Hm & _ & _ & _ & _
        & _ & Hbg & _ & _ & _ & Lb).
  unfold bits_per_weight_path.
  rewrite (descend_metadata d m "bitsPerWeight" Hm), Lb.
  split; [|split; [|split; [|split; vm_compute; reflexivity]]].
  - intros [Hs | Hs]; rewrite Hs in Hbg; simpl in Hbg; congruence.
  - intros x Hx Hs. rewrite Hs in Hbg. simpl in Hbg.
    assert (PyFloat.truthy x = true) as Ht
      by (destruct x as [|[]| |[] ? ?]; try destruct Hx; reflexivity).
    rewrite Ht in Hbg. apply bind_Ok in Hbg as (y & Hy & Hbg).
    injection Hbg as <-. exists y. split; [exact Hy|]. split; [|reflexivity].
    apply (round_ndigits_nonnegative x y); [|exact Hy].
    destruct x as [|[]| |[] ? ?]; try destruct Hx; exact I.
  - intros b Hb Hs. rewrite Hs in Hbg. simpl in Hbg.
    replace (b =? 0) with false in Hbg by (symmetry; apply Z.eqb_neq; lia).
    simpl in Hbg. congruence.
Qed.

(** ** The extraction client: retry policy and failure absorption *)

Section ClientTheorems.

Variable float_repr : spec_float -> string.
Variable PARSER_PATH : string.
Variable json_loads : string -> result value.
Variable parser_exists : nat -> bool.
Variable subprocess_run : nat -> list string -> run_outcome.

Local Abbreviation attempt_try :=
  (_run_parser_try float_repr json_loads subprocess_run).
Local Abbreviation loop :=
  (retry_loop float_repr PARSER_PATH json_loads parser_exists subprocess_run).
Local Abbreviation with_retry :=
  (_run_parser_with_retry float_repr PARSER_PATH json_loads parser_exists
     subprocess_run).
Local Abbreviation from_hf :=
  (parse_gguf_from_hf float_repr PARSER_PATH json_loads parser_exists
     subprocess_run).
Local Abbreviation from_ms :=
  (parse_gguf_from_ms float_repr PARSER_PATH json_loads parser_exists
     subprocess_run).
Local Abbreviation from_local :=
  (parse_gguf_local float_repr PARSER_PATH json_loads parser_exists
     subprocess_run).
Local Abbreviation result_of :=
  (attempt_result float_repr PARSER_PATH json_loads parser_exists subprocess_run).
Local Abbreviation events_of := (attempt_events PARSER_PATH parser_exists).
Local Abbreviation fails :=
  (transient float_repr PARSER_PATH json_loads parser_exists subprocess_run).
Local Abbreviation yields :=
  (succeeds float_repr PARSER_PATH json_loads parser_exists subprocess_run).
Local Abbreviation missing :=
  (not_found float_repr PARSER_PATH json_loads parser_exists subprocess_run).
Local Abbreviation schedule := (backoff_trace PARSER_PATH parser_exists).
Local Abbreviation cmd_of := (command_line PARSER_PATH).

Lemma result_of_unfold (args : list string) (k : nat) :
  result_of args k
  = if parser_exists k
    then match attempt_try k (cmd_of args) with
         | Ok r => r
         | Raise _ => None
         end
    else None.
Proof.
  unfold attempt_result, _run_parser, command_line; simpl.
  destruct (parser_exists k); simpl; [|reflexivity].
  destruct (_run_parser_try _ _ _ _ _) as [r|[]]; reflexivity.
Qed.

(** The three results a single attempt can have. *)
Lemma result_of_cases (args : list string) (k : nat) :
  result_of args k = None
  \/ (exists msg, result_of args k
                  = Some [("_error", VStr "not_found"); ("_message", VStr msg)])
  \/ (exists md out err raw,
        result_of args k = Some md
        /\ parser_exists k = true
        /\ subprocess_run k (cmd_of args) = Completed 0 out err
        /\ json_loads out = Ok raw
        /\ _extract_metadata float_repr raw = Ok md).
Proof.
  rewrite result_of_unfold. unfold _run_parser_try.
  destruct (parser_exists k); [|left; reflexivity].
  destruct (subprocess_run k (cmd_of args)) as [e|rc out err];
    [left; reflexivity|].
  destruct (rc =? 0) eqn:Hrc; cbn [negb].
  - apply Z.eqb_eq in Hrc as ->.
    destruct (json_loads out) as [raw|e] eqn:Hjson; [|left; reflexivity].
    cbn. destruct (_extract_metadata float_repr raw) as [md|e] eqn:Hmd;
      [|left; reflexivity].
    right; right. exists md, out, err, raw.
    repeat split; assumption || reflexivity.
  - destruct (PyStr.contains "404" (PyStr.strip err)).
    + right; left. eexists. reflexivity.
    + left; reflexivity.
Qed.

Lemma loop_result (args : list string) (n : Z) (todo : nat) :
  forall (a d : Z) (w : world),
    fst (loop args n todo a d w) = None
    \/ exists md k out err raw,
         fst (loop args n todo a d w) = Some md
         /\ populated md
         /\ parser_exists k = true
         /\ subprocess_run k (cmd_of args) = Completed 0 out err
         /\ json_loads out = Ok raw
         /\ _extract_metadata float_repr raw = Ok md.
Proof.
  induction todo as [|todo IH]; intros a d w.
  - left; reflexivity.
  - rewrite loop_step. cbv zeta.
    destruct (result_of_cases args (attempts w))
      as [-> | [(msg & ->) | (md & out & err & raw & -> & He & Hr & Hj & Hmd)]].
    + cbn [is_success is_not_found]. destruct (a <? n - 1); apply IH.
    + left; reflexivity.
    + pose proof (_extract_metadata_populated _ _ _ Hmd) as Hpop.
      cbn [is_success]. rewrite (populated_no_error _ Hpop). cbn [negb fst].
      right. exists md, (attempts w), out, err, raw.
      repeat split; assumption || reflexivity.
Qed.

Lemma local_single_attempt (filepath : string) (w : world) :
  snd (from_local filepath w)
  = mkWorld (S (attempts w))
      (trace w ++ events_of ["--path"; filepath] (attempts w)).
Proof.
  unfold parse_gguf_local, _run_parser_with_retry.
  change (Z.to_nat 1) with 1%nat. rewrite loop_step. cbv zeta.
  destruct (is_success _); [reflexivity|].
  destruct (is_not_found _); reflexivity.
Qed.

(** C1.  A call with [max_attempts = n] makes at most [n] single attempts.
    A successful attempt that comes after [j] transient failures
    ([j < n]) is returned at once, after [j + 1] attempts with the sleeps
    2, 4, ..., 2^j between them; after two failures that is the third
    attempt and the sleeps are 2 and 4.  When all [n] attempts fail
    transiently the call returns nothing after the [n]-th attempt, with
    the sleeps 2, 4, ..., 2^(n-1) between them and none after the last.
    The default for remote extraction is 3 attempts, and local extraction
    makes exactly one attempt and never sleeps. *)
Theorem retry_policy (args : list string) (n : Z) (w : world) :
  (attempts (snd (with_retry args n w)) <= attempts w + Z.to_nat n)%nat
  /\ (forall (j : nat) (md : pydict),
        Z.of_nat j < n ->
        (forall i : nat, (i < j)%nat -> fails args (attempts w + i)) ->
        yields args (attempts w + j) md ->
        with_retry args n w
        = (Some md, mkWorld (attempts w + S j)
                      (trace w ++ schedule args (attempts w) j RETRY_DELAY))
        /\ sleeps (trace (snd (with_retry args n w)))
           = (sleeps (trace w) ++ backoff j)%list)
  /\ (forall m : nat,
        n = Z.of_nat (S m) ->
        (forall i : nat, (i <= m)%nat -> fails args (attempts w + i)) ->
        with_retry args n w
        = (None, mkWorld (attempts w + S m)
                   (trace w ++ schedule args (attempts w) m RETRY_DELAY))
        /\ sleeps (trace (snd (with_retry args n w)))
           = (sleeps (trace w) ++ backoff m)%list)
  /\ backoff 2 = [2; 4]
  /\ backoff 3 = [2; 4; 8]
  /\ MAX_RETRIES = 3
  /\ (forall repo filename : string,
        from_hf repo filename n w
        = with_retry ["--hf-repo"; repo; "--hf-file"; filename] n w
        /\ from_ms repo filename n w
           = with_retry ["--ms-repo"; repo; "--ms-file"; filename] n w)
  /\ (forall filepath : string,
        from_local filepath w = with_retry ["--path"; filepath] 1 w
        /\ attempts (snd (from_local filepath w)) = S (attempts w)
        /\ sleeps (trace (snd (from_local filepath w))) = sleeps (trace w)).
Proof.
  split; [|split; [|split]].
  - apply loop_attempts_le.
  - intros j md Hj Hfail Hok.
    assert (with_retry args n w
            = (Some md, mkWorld (attempts w + S j)
                          (trace w ++ schedule args (attempts w) j RETRY_DELAY)))
      as Heq.
    { unfold _run_parser_with_retry.
      apply loop_success_after; try assumption; lia. }
    split; [exact Heq|].
    rewrite Heq. cbn [snd trace].
    rewrite sleeps_app, sleeps_schedule. reflexivity.
  - intros m Hn Hfail.
    assert (with_retry args n w
            = (None, mkWorld (attempts w + S m)
                       (trace w ++ schedule args (attempts w) m RETRY_DELAY)))
      as Heq.
    { unfold _run_parser_with_retry. subst n. rewrite Nat2Z.id.
      apply loop_all_transient; [lia | assumption]. }
    split; [exact Heq|].
    rewrite Heq. cbn [snd trace].
    rewrite sleeps_app, sleeps_schedule. reflexivity.
  - repeat split; try reflexivity.
    + rewrite local_single_attempt. reflexivity.
    + rewrite local_single_attempt. cbn [trace].
      rewrite sleeps_app, sleeps_events_of, app_nil_r. reflexivity.
Qed.

Lemma not_found_result (args : list string) (k : nat)
    (returncode : Z) (stdout stderr : string) :
  parser_exists k = true ->
  subprocess_run k (cmd_of args) = Completed returncode stdout stderr ->
  returncode <> 0 ->
  PyStr.contains "404" stderr = true ->
  result_of args k
  = Some [("_error", VStr "not_found"); ("_message", VStr (PyStr.strip stderr))].
Proof.
  intros He Hrun Hrc H404.
  rewrite result_of_unfold, He. unfold _run_parser_try. rewrite Hrun.
  apply Z.eqb_neq in Hrc. rewrite Hrc. cbn [negb].
  rewrite contains_404_strip, H404. reflexivity.
Qed.

(** C2.  When the first attempt of a call ends with the process exiting
    nonzero and 404 in its error stream, the call makes exactly one
    subprocess invocation, does not sleep, and returns nothing; so do the
    two remote entry points. *)
Theorem not_found_stops_at_once (args : list string) (n : Z) (w : world)
    (returncode : Z) (stdout stderr : string) :
  1 <= n ->
  parser_exists (attempts w) = true ->
  subprocess_run (attempts w) (cmd_of args) = Completed returncode stdout stderr ->
  returncode <> 0 ->
  PyStr.contains "404" stderr = true ->
  with_retry args n w
  = (None, mkWorld (S (attempts w)) (trace w ++ [EvCheck; EvSpawn (cmd_of args)]))
  /\ spawns (trace (snd (with_retry args n w)))
     = (spawns (trace w) ++ [cmd_of args])%list
  /\ sleeps (trace (snd (with_retry args n w))) = sleeps (trace w)
  /\ (forall repo filename : string,
        args = ["--hf-repo"; repo; "--hf-file"; filename] ->
        fst (from_hf repo filename n w) = None
        /\ spawns (trace (snd (from_hf repo filename n w)))
           = (spawns (trace w) ++ [cmd_of args])%list
        /\ sleeps (trace (snd (from_hf repo filename n w))) = sleeps (trace w))
  /\ (forall repo filename : string,
        args = ["--ms-repo"; repo; "--ms-file"; filename] ->
        fst (from_ms repo filename n w) = None
        /\ spawns (trace (snd (from_ms repo filename n w)))
           = (spawns (trace w) ++ [cmd_of args])%list
        /\ sleeps (trace (snd (from_ms repo filename n w))) = sleeps (trace w)).
Proof.
  intros Hn He Hrun Hrc H404.
  assert (with_retry args n w
          = (None, mkWorld (S (attempts w))
                     (trace w ++ [EvCheck; EvSpawn (cmd_of args)]))) as Heq.
  { unfold _run_parser_with_retry.
    destruct (Z.to_nat n) as [|todo] eqn:Htodo; [lia|].
    rewrite loop_step. cbv zeta.
    rewrite (not_found_result _ _ _ _ _ He Hrun Hrc H404).
    cbn [is_success is_not_found Py.has_key Py.lookup String.eqb Ascii.eqb
         Bool.eqb negb].
    unfold attempt_events. rewrite He. reflexivity. }
  assert (spawns (trace (snd (with_retry args n w)))
          = (spawns (trace w) ++ [cmd_of args])%list) as Hspawn.
  { rewrite Heq. cbn [snd trace]. rewrite spawns_app. reflexivity. }
  assert (sleeps (trace (snd (with_retry args n w))) = sleeps (trace w))
    as Hsleep.
  { rewrite Heq. cbn [snd trace]. rewrite sleeps_app. cbn [sleeps].
    apply app_nil_r. }
  split; [exact Heq|]. split; [exact Hspawn|]. split; [exact Hsleep|].
  split; intros repo filename Hargs.
  - unfold parse_gguf_from_hf. rewrite <- Hargs.
    split; [rewrite Heq; reflexivity|]. split; assumption.
  - unfold parse_gguf_from_ms. rewrite <- Hargs.
    split; [rewrite Heq; reflexivity|]. split; assumption.
Qed.


(** C10.  When the process exits zero and its output is JSON whose
    estimate block holds an empty items list, normalisation raises (at the
    latest when it indexes the empty list for fully_offloadable, which is
    an IndexError when nothing else is wrong with the document), the
    attempt returns nothing, and the client treats it as a transient
    failure: with attempts left it sleeps the back-off delay and tries
    again instead of returning a record. *)
Theorem empty_items_is_transient (args : list string) (k : nat)
    (out err : string) (raw : value) :
  parser_exists k = true ->
  subprocess_run k (cmd_of args) = Completed 0 out err ->
  json_loads out = Ok raw ->
  descend [Key "estimate"; Key "items"] raw = Some (VList []) ->
  (exists e, _extract_metadata float_repr raw = Raise e)
  /\ _extract_metadata float_repr (VDict [("estimate", VDict [("items", VList [])])])
     = Raise IndexError
  /\ fails args k
  /\ (forall (n : Z) (w : world),
        attempts w = k ->
        2 <= n ->
        with_retry args n w
        = loop args n (Z.to_nat n - 1) 1 (RETRY_DELAY * 2)
            (mkWorld (S k)
               (trace w ++ [EvCheck; EvSpawn (cmd_of args); EvSleep RETRY_DELAY])))
  /\ (forall w : world,
        attempts w = k ->
        with_retry args 1 w
        = (None, mkWorld (S k) (trace w ++ [EvCheck; EvSpawn (cmd_of args)]))).
Proof.
  intros He Hrun Hjson Hpath.
  destruct (empty_items_raises float_repr raw Hpath) as [e Hraise].
  assert (fails args k) as Hfail.
  { unfold transient. rewrite result_of_unfold, He. unfold _run_parser_try.
    rewrite Hrun, Hjson. cbn. rewrite Hraise. destruct e; reflexivity. }
  split; [exists e; exact Hraise|]. split; [reflexivity|].
  split; [exact Hfail|]. split.
  - intros n w Hk Hn. subst k. unfold _run_parser_with_retry.
    destruct (Z.to_nat n) as [|todo] eqn:Htodo; [lia|].
    rewrite loop_step. cbv zeta. unfold transient in Hfail. rewrite Hfail.
    cbn [is_success is_not_found].
    replace (0 <? n - 1) with true by (symmetry; apply Z.ltb_lt; lia).
    unfold attempt_events, emit. rewrite He. cbn [attempts trace].
    rewrite <- app_assoc. cbn [app].
    replace (S todo - 1)%nat with todo by lia. reflexivity.
  - intros w Hk. subst k. unfold _run_parser_with_retry.
    change (Z.to_nat 1) with 1%nat.
    rewrite loop_step. cbv zeta. unfold transient in Hfail. rewrite Hfail.
    cbn [is_success is_not_found retry_loop].
    unfold attempt_events. rewrite He. reflexivity.
Qed.

End ClientTheorems.

(** ** The two hubs *)

Section Hubs.

Variable float_repr : spec_float -> string.
Variable PARSER_PATH : string.
Variable json_loads : string -> result value.
Variable parser_exists : nat -> bool.

(** The tool as it answers the first and the second backend. *)
Variable run_hf run_ms : nat -> list string -> run_outcome.

Variable args_hf args_ms : list string.

Local Abbreviation cmd_hf := (command_line PARSER_PATH args_hf).
Local Abbreviation cmd_ms := (command_line PARSER_PATH args_ms).
Local Abbreviation loop_hf :=
  (retry_loop float_repr PARSER_PATH json_loads parser_exists run_hf args_hf).
Local Abbreviation loop_ms :=
  (retry_loop float_repr PARSER_PATH json_loads parser_exists run_ms args_ms).

Hypothesis same_answers : forall k : nat, run_hf k cmd_hf = run_ms k cmd_ms.

Lemma same_result (k : nat) :
  attempt_result float_repr PARSER_PATH json_loads parser_exists run_hf args_hf k
  = attempt_result float_repr PARSER_PATH json_loads parser_exists run_ms args_ms k.
Proof.
  rewrite !result_of_unfold. unfold _run_parser_try.
  rewrite same_answers. reflexivity.
Qed.

Lemma retargeted_events (k : nat) :
  attempt_events PARSER_PATH parser_exists args_ms k
  = map (retarget cmd_ms) (attempt_events PARSER_PATH parser_exists args_hf k)
  /\ spawns_only cmd_hf (attempt_events PARSER_PATH parser_exists args_hf k).
Proof.
  unfold attempt_events, spawns_only.
  destruct (parser_exists k); split; try reflexivity;
    repeat constructor; intros c Hc; congruence.
Qed.

Lemma loops_correspond (n : Z) (todo : nat) :
  forall (a d : Z) (w1 w2 : world) (t0 t1 : list event),
    attempts w1 = attempts w2 ->
    trace w1 = (t0 ++ t1)%list ->
    trace w2 = (t0 ++ map (retarget cmd_ms) t1)%list ->
    spawns_only cmd_hf t1 ->
    fst (loop_hf n todo a d w1) = fst (loop_ms n todo a d w2)
    /\ attempts (snd (loop_hf n todo a d w1))
       = attempts (snd (loop_ms n todo a d w2))
    /\ exists t, trace (snd (loop_hf n todo a d w1)) = (t0 ++ t)%list
                 /\ trace (snd (loop_ms n todo a d w2))
                    = (t0 ++ map (retarget cmd_ms) t)%list
                 /\ spawns_only cmd_hf t.
Proof.
  induction todo as [|todo IH]; intros a d w1 w2 t0 t1 Hk H1 H2 Hsp.
  - cbn [retry_loop fst snd].
    split; [reflexivity|]. split; [exact Hk|]. exists t1. auto.
  - rewrite !loop_step. cbv zeta. rewrite <- Hk, <- same_result.
    destruct (retargeted_events (attempts w1)) as [Hev Hsp'].
    set (ev := attempt_events PARSER_PATH parser_exists args_hf (attempts w1))
      in *.
    assert (trace w1 ++ ev = t0 ++ (t1 ++ ev))%list as H1'
      by (rewrite H1, app_assoc; reflexivity).
    assert (trace w2 ++ attempt_events PARSER_PATH parser_exists args_ms (attempts w1)
            = t0 ++ map (retarget cmd_ms) (t1 ++ ev))%list as H2'
      by (rewrite H2, Hev, map_app, app_assoc; reflexivity).
    assert (spawns_only cmd_hf (t1 ++ ev)) as Hsp1
      by (apply Forall_app; split; assumption).
    destruct (is_success _);
      [cbn [fst snd attempts trace];
       split; [reflexivity|]; split; [reflexivity|]; exists (t1 ++ ev)%list; auto|].
    destruct (is_not_found _);
      [cbn [fst snd attempts trace];
       split; [reflexivity|]; split; [reflexivity|]; exists (t1 ++ ev)%list; auto|].
    destruct (a <? n - 1).
    + apply (IH _ _ _ _ t0 (t1 ++ ev ++ [EvSleep d])%list).
      * reflexivity.
      * cbn [emit trace]. rewrite H1', <- !app_assoc. reflexivity.
      * cbn [emit trace]. rewrite H2', !map_app, <- !app_assoc. reflexivity.
      * rewrite app_assoc. apply Forall_app. split; [exact Hsp1|].
        repeat constructor. intros c Hc. discriminate Hc.
    + apply (IH _ _ _ _ t0 (t1 ++ ev)%list); try assumption. reflexivity.
Qed.

End Hubs.

Lemma sleeps_retarget (cmd : list string) (t : list event) :
  sleeps (map (retarget cmd) t) = sleeps t.
Proof.
  induction t as [|[| |] t IH]; simpl; rewrite ?IH; reflexivity.
Qed.

(** C9.  For the same repository, file name and retry count, and a tool
    that answers the two command lines alike, extraction from the two hubs
    returns the same result after the same attempts and the same sleeps;
    the events differ only in the command line of the subprocess, which
    carries the flags --hf-repo/--hf-file for the first hub and
    --ms-repo/--ms-file for the second, each followed by the repository and
    by the file name exactly as given. *)
Theorem hubs_differ_only_in_flags (float_repr : spec_float -> string)
    (PARSER_PATH : string) (json_loads : string -> result value)
    (parser_exists : nat -> bool)
    (run_hf run_ms : nat -> list string -> run_outcome)
    (repo filename : string) (retries : Z) (w : world) :
  let cmd_hf := [PARSER_PATH; "--hf-repo"; repo; "--hf-file"; filename; "--json"] in
  let cmd_ms := [PARSER_PATH; "--ms-repo"; repo; "--ms-file"; filename; "--json"] in
  let hf := parse_gguf_from_hf float_repr PARSER_PATH json_loads parser_exists
              run_hf repo filename retries w in
  let ms := parse_gguf_from_ms float_repr PARSER_PATH json_loads parser_exists
              run_ms repo filename retries w in
  (forall k : nat, run_hf k cmd_hf = run_ms k cmd_ms) ->
  fst hf = fst ms
  /\ attempts (snd hf) = attempts (snd ms)
  /\ sleeps (trace (snd hf)) = sleeps (trace (snd ms))
  /\ exists t, trace (snd hf) = (trace w ++ t)%list
               /\ trace (snd ms) = (trace w ++ map (retarget cmd_ms) t)%list
               /\ spawns_only cmd_hf t.
Proof.
  intros cmd_hf cmd_ms hf ms Hsame.
  destruct (loops_correspond float_repr PARSER_PATH json_loads parser_exists
              run_hf run_ms ["--hf-repo"; repo; "--hf-file"; filename]
              ["--ms-repo"; repo; "--ms-file"; filename] Hsame
              retries (Z.to_nat retries) 0 RETRY_DELAY w w (trace w) [])
    as (Hres & Hk & t & Ht1 & Ht2 & Hsp).
  - reflexivity.
  - rewrite app_nil_r. reflexivity.
  - rewrite app_nil_r. reflexivity.
  - constructor.
  - split; [exact Hres|]. split; [exact Hk|]. split; [|exists t; auto].
    subst hf ms. unfold parse_gguf_from_hf, parse_gguf_from_ms,
      _run_parser_with_retry.
    rewrite Ht1, Ht2, !sleeps_app, sleeps_retarget. reflexivity.
Qed.

(** ** Enrichment *)

Lemma gguf_names_suffix (key : string) (entries : list value) :
  forall names : list string,
    gguf_names key entries = Ok names ->
    Forall (fun s => PyStr.endswith ".gguf" (PyStr.lower s) = true) names.
Proof.
  induction entries as [|f rest IH]; intros names H; cbn [gguf_names] in H.
  - injection H as <-. constructor.
  - apply bind_Ok in H as (name & Hname & H).
    apply bind_Ok in H as (lowered & Hlow & H).
    destruct (PyStr.endswith ".gguf" lowered) eqn:Hsuffix; [|apply IH, H].
    apply bind_Ok in H as (picked & Hpicked & H).
    destruct f as [| | | | | |d]; try discriminate Hname.
    cbn [Py.get] in Hname, Hpicked.
    injection Hname as <-. injection Hpicked as <-.
    destruct (Py.lookup key d) as [[| | | | s | |]|]; try discriminate Hlow;
      cbn [from_option id] in H, Hlow; try discriminate H.
    apply bind_Ok in H as (names' & Hnames' & H). injection H as <-.
    injection Hlow as <-. constructor; [exact Hsuffix | apply IH, Hnames'].
Qed.

Lemma listed_gguf_files_suffix (requests_get : string -> http_outcome)
    (source repo_id : string) :
  Forall (fun s => PyStr.endswith ".gguf" (PyStr.lower s) = true)
    (listed_gguf_files requests_get source repo_id).
Proof.
  unfold listed_gguf_files, get_gguf_files_from_hf, get_gguf_files_from_ms.
  destruct (String.eqb source "huggingface").
  - destruct (requests_get _) as [e|status body]; [constructor|].
    destruct (status =? 200); [|constructor].
    destruct (_ ≫= _) as [[names|]|e] eqn:H; try constructor.
    invert_binds H. injection H as <-.
    eapply gguf_names_suffix; eassumption.
  - destruct (requests_get _) as [e|status body]; [constructor|].
    destruct (status =? 200); [|constructor].
    destruct (_ ≫= _) as [[names|]|e] eqn:H; try constructor.
    invert_binds H. injection H as <-.
    eapply gguf_names_suffix; eassumption.
Qed.

Lemma first_containing_In (pref : string) (files : list string) (f : string) :
  first_containing pref files = Some f -> In f files.
Proof.
  induction files as [|g rest IH]; simpl; [discriminate|].
  destruct (PyStr.contains pref (PyStr.lower g)).
  - intros H. injection H as <-. left. reflexivity.
  - intros H. right. apply IH, H.
Qed.

Lemma scan_preferences_In (prefs files : list string) (f : string) :
  scan_preferences prefs files = Some f -> In f files.
Proof.
  induction prefs as [|p rest IH]; simpl; [discriminate|].
  destruct (first_containing p files) as [g|] eqn:Hg.
  - intros H. injection H as <-. eapply first_containing_In, Hg.
  - exact IH.
Qed.

(** A non-empty listing always has a representative, one of its files. *)
Lemma pick_representative_gguf_file_In (first : string) (rest : list string) :
  exists f, pick_representative_gguf_file (first :: rest) = Some f
            /\ In f (first :: rest).
Proof.
  unfold pick_representative_gguf_file.
  destruct (scan_preferences preferences (first :: rest)) as [f|] eqn:Hf.
  - exists f. split; [reflexivity|]. eapply scan_preferences_In, Hf.
  - exists first. split; [reflexivity | left; reflexivity].
Qed.

Lemma merge_metadata_success (model_dict : gmap string value) (gguf_file : string)
    (md : pydict) :
  md <> [] ->
  let m' := merge_metadata model_dict gguf_file (Some md) in
  m' !! "is_gguf" = Some (VBool true)
  /\ m' !! "quantization" = Some (md_get md "quantization")
  /\ m' !! "gguf_architecture" = Some (md_get md "architecture")
  /\ m' !! "context_length" = Some (md_get md "context_length")
  /\ m' !! "parameter_count" = Some (md_get md "parameters")
  /\ m' !! "vram_required_gb" = Some (md_get md "vram_required_gb")
  /\ m' !! "bits_per_weight" = Some (md_get md "bits_per_weight")
  /\ m' !! "gguf_file" = Some (VStr gguf_file)
  /\ forall k : string, k ∉ enriched_keys -> m' !! k = model_dict !! k.
Proof.
  intros Hmd. destruct md as [|kv md]; [congruence|].
  cbv zeta. unfold merge_metadata.
  repeat split; try (simplify_map_eq; reflexivity).
  intros k Hk. unfold enriched_keys in Hk.
  repeat (apply not_elem_of_cons in Hk; destruct Hk as [? Hk]).
  rewrite !lookup_insert_ne by congruence. reflexivity.
Qed.

Lemma merge_metadata_failure (model_dict : gmap string value) (gguf_file : string) :
  let m' := merge_metadata model_dict gguf_file None in
  m' !! "is_gguf" = Some (VBool true)
  /\ m' !! "gguf_file" = Some (VStr gguf_file)
  /\ forall k : string, k ∉ unparsed_keys -> m' !! k = model_dict !! k.
Proof.
  cbv zeta. unfold merge_metadata.
  repeat split; try (simplify_map_eq; reflexivity).
  intros k Hk. unfold unparsed_keys in Hk.
  repeat (apply not_elem_of_cons in Hk; destruct Hk as [? Hk]).
  rewrite !lookup_insert_ne by congruence. reflexivity.
Qed.

Section EnrichmentTheorems.

Variable float_repr : spec_float -> string.
Variable PARSER_PATH : string.
Variable json_loads : string -> result value.
Variable parser_exists : nat -> bool.
Variable subprocess_run : nat -> list string -> run_outcome.
Variable requests_get : string -> http_outcome.

Local Abbreviation enrich :=
  (enrich_model_with_gguf_metadata float_repr PARSER_PATH json_loads
     parser_exists subprocess_run).
Local Abbreviation files_of := (listed_gguf_files requests_get).
Local Abbreviation extract :=
  (extraction float_repr PARSER_PATH json_loads parser_exists subprocess_run).

(** With the parser module loaded and a string for the URL, enrichment is
    the listing, the choice and the extraction, one after the other. *)
Lemma enrich_unfold (model_dict : gmap string value) (source url : string)
    (w : world) :
  url_of model_dict = Some url ->
  enrich true requests_get model_dict source w
  = match files_of source (repo_id_of source url) with
    | [] => (Ok model_dict, w)
    | first :: rest =>
        match pick_representative_gguf_file (first :: rest) with
        | None | Some EmptyString => (Ok model_dict, w)
        | Some gguf_file =>
            (Ok (merge_metadata model_dict gguf_file
                   (fst (extract source (repo_id_of source url) gguf_file w))),
             snd (extract source (repo_id_of source url) gguf_file w))
        end
    end.
Proof.
  unfold url_of, enrich_model_with_gguf_metadata, listed_gguf_files,
    extraction, repo_id_of.
  intros Hurl. cbn [negb].
  destruct (model_dict !! "url") as [[| | | |u| |]|]; try discriminate Hurl;
    injection Hurl as Hurl; subst url; cbn [from_option id];
    destruct (String.eqb source "huggingface");
    match goal with
    | |- context [match ?l with [] => _ | _ :: _ => _ end] =>
        destruct l as [|first rest]; [reflexivity|]
    end;
    destruct (pick_representative_gguf_file (first :: rest)) as [[|c f]|];
    try reflexivity;
    match goal with
    | |- context [let '(_, _) := ?run in _] => destruct run; reflexivity
    end.
Qed.

Lemma extract_populated (source repo_id gguf_file : string) (w : world)
    (md : pydict) :
  fst (extract source repo_id gguf_file w) = Some md -> populated md.
Proof.
  unfold extraction, parse_gguf_from_hf, parse_gguf_from_ms,
    _run_parser_with_retry.
  destruct (String.eqb source "huggingface"); intros H;
    match type of H with
    | fst (retry_loop ?fr ?p ?jl ?pe ?sr ?args ?n ?todo ?a ?d ?w) = _ =>
        destruct (loop_result fr p jl pe sr args n todo a d w)
          as [Hnone | (md' & k & out & err & raw & Hsome & Hpop & _)]
    end; congruence.
Qed.


End EnrichmentTheorems.


(** ** The statements on a concrete outside world *)

Lemma retry_policy_witness :
  _run_parser_with_retry no_repr "gguf-parser.exe" loads_empty_object
    always_installed flaky_tool ["--hf-repo"; "org/m"; "--hf-file"; "m.gguf"]
    3 world0
  = (Some bare_record,
     mkWorld 3
       (backoff_trace "gguf-parser.exe" always_installed
          ["--hf-repo"; "org/m"; "--hf-file"; "m.gguf"] 0 2 RETRY_DELAY))
  /\ sleeps (trace (snd (_run_parser_with_retry no_repr "gguf-parser.exe"
                           loads_empty_object always_installed flaky_tool
                           ["--hf-repo"; "org/m"; "--hf-file"; "m.gguf"]
                           3 world0)))
     = [2; 4].
Proof.
  apply (proj1 (proj2 (retry_policy no_repr "gguf-parser.exe" loads_empty_object
                         always_installed flaky_tool
                         ["--hf-repo"; "org/m"; "--hf-file"; "m.gguf"]
                         3 world0))
           2%nat bare_record).
  - reflexivity.
  - intros [|[|i]] Hi; [reflexivity | reflexivity | lia].
  - split; reflexivity.
Defined.

Lemma not_found_stops_at_once_witness :
  _run_parser_with_retry no_repr "gguf-parser.exe" loads_empty_object
    always_installed not_found_tool ["--ms-repo"; "org/m"; "--ms-file"; "M.gguf"]
    3 world0
  = (None,
     mkWorld 1
       [EvCheck;
        EvSpawn ["gguf-parser.exe"; "--ms-repo"; "org/m"; "--ms-file"; "M.gguf";
                 "--json"]]).
Proof.
  apply (proj1 (not_found_stops_at_once no_repr "gguf-parser.exe"
                  loads_empty_object always_installed not_found_tool
                  ["--ms-repo"; "org/m"; "--ms-file"; "M.gguf"] 3 world0
                  1 EmptyString "Error: 404 Not Found "
                  ltac:(lia) eq_refl eq_refl ltac:(lia) eq_refl)).
Defined.


Lemma empty_items_is_transient_witness :
  transient no_repr "gguf-parser.exe" loads_empty_items always_installed
    answering_tool ["--path"; "m.gguf"] 0.
Proof.
  apply (proj1 (proj2 (proj2
           (empty_items_is_transient no_repr "gguf-parser.exe" loads_empty_items
              always_installed answering_tool ["--path"; "m.gguf"] 0
              "{}" EmptyString
              (VDict [("estimate", VDict [("items", VList [])])])
              eq_refl eq_refl eq_refl eq_refl)))).
Defined.

Lemma parameters_display_witness :
  Py.lookup "parameters_str" sample_record = Some (VStr "6.7B").
Proof.
  destruct (proj1 (parameters_display no_repr sample_document sample_record
                     6738415616 eq_refl eq_refl))
    as (s & Hs & Hfield).
  vm_compute in Hs. injection Hs as <-. exact Hfield.
Defined.

Lemma gb_conversion_witness :
  Py.lookup "file_size_gb" sample_record
  = Some (VFloat (S754_finite false 8556839292003942 (-51)))
  /\ Py.lookup "vram_required_gb" sample_record = Some VNone.
Proof.
  pose proof (gb_conversion no_repr sample_document sample_record eq_refl)
    as (Hfile & Hvram & _).
  split.
  - destruct (proj1 Hfile 4080263168 ltac:(lia) eq_refl) as (y & Hy & Hfield).
    vm_compute in Hy. injection Hy as <-. exact Hfield.
  - apply (proj2 Hvram). right. reflexivity.
Defined.

Lemma rounded_or_absent_witness :
  Py.lookup "bits_per_weight" sample_record
  = Some (VFloat (S754_finite false 5449355549118300 (-50))).
Proof.
  pose proof (rounded_or_absent no_repr sample_document sample_record eq_refl)
    as (_ & _ & _ & _ & Hbits & _).
  destruct (Hbits (PyFloat.of_ratio false 484 100) I eq_refl)
    as (y & Hy & _ & Hfield).
  vm_compute in Hy. injection Hy as <-. exact Hfield.
Defined.

Lemma hubs_differ_only_in_flags_witness :
  fst (parse_gguf_from_hf no_repr "gguf-parser.exe" loads_empty_object
         always_installed flaky_tool "org/m" "M.Q4_K_M.gguf" 3 world0)
  = fst (parse_gguf_from_ms no_repr "gguf-parser.exe" loads_empty_object
           always_installed flaky_tool "org/m" "M.Q4_K_M.gguf" 3 world0).
Proof.
  apply (hubs_differ_only_in_flags no_repr "gguf-parser.exe" loads_empty_object
           always_installed flaky_tool flaky_tool "org/m" "M.Q4_K_M.gguf" 3 world0).
  intros k. reflexivity.
Defined.


(* ===================================================================== *)
(** * Further properties of the extraction client *)
(* ===================================================================== *)

Lemma checks_app (t1 t2 : list event) :
  checks (t1 ++ t2) = (checks t1 + checks t2)%nat.
Proof.
  induction t1 as [|[| |] t1 IH]; simpl; rewrite ?IH; reflexivity.
Qed.

Lemma total_sleep_app (t1 t2 : list event) :
  total_sleep (t1 ++ t2) = total_sleep t1 + total_sleep t2.
Proof.
  unfold total_sleep. rewrite sleeps_app.
  induction (sleeps t1) as [|d l IH]; simpl; lia.
Qed.

Lemma total_backoff (j : nat) :
  foldr Z.add 0 (backoff j) = 2 ^ (Z.of_nat j + 1) - 2.
Proof.
  unfold backoff, RETRY_DELAY. induction j as [|j IH].
  - reflexivity.
  - rewrite seq_S, map_app, foldr_app. cbn [map foldr Nat.add].
    assert (forall (l : list Z) (x : Z), foldr Z.add x l = foldr Z.add 0 l + x)
      as Hshift by (induction l as [|y l IHl]; intros x; cbn [foldr];
                    [lia | rewrite IHl; lia]).
    rewrite Hshift, IH.
    assert (2 ^ (Z.of_nat (S j) + 1) = 2 * 2 ^ (Z.of_nat j + 1)) as H1
      by (rewrite <- Z.pow_succ_r by lia; f_equal; lia).
    assert (2 ^ (Z.of_nat j + 1) = 2 * 2 ^ Z.of_nat j) as H2
      by (rewrite <- Z.pow_succ_r by lia; f_equal; lia).
    lia.
Qed.

Section ClientInvariants.

Variable float_repr : spec_float -> string.
Variable PARSER_PATH : string.
Variable json_loads : string -> result value.
Variable parser_exists : nat -> bool.
Variable subprocess_run : nat -> list string -> run_outcome.

Local Abbreviation loop :=
  (retry_loop float_repr PARSER_PATH json_loads parser_exists subprocess_run).
Local Abbreviation with_retry :=
  (_run_parser_with_retry float_repr PARSER_PATH json_loads parser_exists
     subprocess_run).
Local Abbreviation events_of := (attempt_events PARSER_PATH parser_exists).
Local Abbreviation schedule := (backoff_trace PARSER_PATH parser_exists).
Local Abbreviation cmd_of := (command_line PARSER_PATH).

(** Whatever the attempts return, the loop runs [j + 1] of them, for some
    [j] below the number of iterations left, with [j] sleeps between
    them. *)
Lemma loop_shape (args : list string) (n : Z) (todo : nat) :
  forall (a d : Z) (w : world),
    todo = O \/ a + Z.of_nat todo = n ->
    (todo = O /\ loop args n todo a d w = (None, w))
    \/ exists j : nat,
         (j < todo)%nat
         /\ snd (loop args n todo a d w)
            = mkWorld (attempts w + S j)
                (trace w ++ schedule args (attempts w) j d).
Proof.
  induction todo as [|todo IH]; intros a d w Hn.
  - left. split; reflexivity.
  - right. destruct Hn as [Hn|Hn]; [discriminate Hn|].
    rewrite (loop_step float_repr PARSER_PATH json_loads parser_exists
               subprocess_run).
    cbv zeta.
    assert (forall r : option pydict,
              exists j : nat,
                (j < S todo)%nat
                /\ snd (r, mkWorld (S (attempts w))
                             (trace w ++ events_of args (attempts w)))
                   = mkWorld (attempts w + S j)
                       (trace w ++ schedule args (attempts w) j d)) as Hstop.
    { intros r. exists O. split; [lia|]. cbn [snd backoff_trace].
      rewrite app_nil_r. f_equal. lia. }
    destruct (is_success _); [apply Hstop|].
    destruct (is_not_found _); [apply Hstop|].
    destruct todo as [|todo'].
    + replace (a <? n - 1) with false by (symmetry; apply Z.ltb_ge; lia).
      cbn [retry_loop]. apply Hstop.
    + replace (a <? n - 1) with true by (symmetry; apply Z.ltb_lt; lia).
      destruct (IH (a + 1) (d * 2)
                  (emit (EvSleep d)
                     (mkWorld (S (attempts w))
                        (trace w ++ events_of args (attempts w))))
                  ltac:(lia))
        as [[Hzero _] | (j & Hj & Hsnd)]; [discriminate Hzero|].
      exists (S j). split; [lia|]. rewrite Hsnd.
      cbn [emit attempts trace backoff_trace].
      rewrite <- !app_assoc. cbn [app]. f_equal. lia.
Qed.

Lemma checks_events_of (args : list string) (k : nat) :
  checks (events_of args k) = 1%nat.
Proof. unfold attempt_events. destruct (parser_exists k); reflexivity. Qed.

Lemma spawns_events_of (args : list string) (k : nat) :
  spawns (events_of args k) = if parser_exists k then [cmd_of args] else [].
Proof. unfold attempt_events. destruct (parser_exists k); reflexivity. Qed.

Lemma checks_schedule (args : list string) (j : nat) :
  forall (k : nat) (d : Z), checks (schedule args k j d) = S j.
Proof.
  induction j as [|j IH]; intros k d; cbn [backoff_trace];
    rewrite checks_app, checks_events_of.
  - reflexivity.
  - cbn [checks]. rewrite IH. reflexivity.
Qed.

Lemma spawns_schedule (args : list string) (j : nat) :
  forall (k : nat) (d : Z),
    (length (spawns (schedule args k j d)) <= S j)%nat
    /\ Forall (fun c => c = cmd_of args) (spawns (schedule args k j d)).
Proof.
  induction j as [|j IH]; intros k d; cbn [backoff_trace];
    rewrite spawns_app, spawns_events_of.
  - destruct (parser_exists k); simpl; split; try lia; repeat constructor.
  - cbn [spawns]. destruct (IH (S k) (d * 2)) as [Hlen Hall].
    rewrite length_app. split.
    + destruct (parser_exists k); simpl; lia.
    + apply Forall_app. split; [|exact Hall].
      destruct (parser_exists k); repeat constructor.
Qed.

Lemma last_schedule (args : list string) (j : nat) :
  forall (k : nat) (d : Z) (t : list event),
    exists e, last (t ++ schedule args k j d) = Some e /\ is_sleep e = false.
Proof.
  induction j as [|j IH]; intros k d t; cbn [backoff_trace].
  - rewrite app_nil_r. unfold attempt_events.
    destruct (parser_exists k).
    + exists (EvSpawn (cmd_of args)).
      change (EvCheck :: [EvSpawn (cmd_of args)])
        with ([EvCheck] ++ [EvSpawn (cmd_of args)])%list.
      rewrite app_assoc, last_snoc. split; reflexivity.
    + exists EvCheck. rewrite last_snoc. split; reflexivity.
  - destruct (IH (S k) (d * 2) (t ++ events_of args k ++ [EvSleep d])%list)
      as (e & He & Hs).
    exists e. split; [|exact Hs].
    rewrite <- He. f_equal. rewrite <- !app_assoc. reflexivity.
Qed.

(** What a call appends to the trace. *)
Lemma with_retry_trace_shape (args : list string) (n : Z) (w : world) :
  exists t : list event,
    trace (snd (with_retry args n w)) = (trace w ++ t)%list
    /\ attempts (snd (with_retry args n w)) = (attempts w + checks t)%nat
    /\ (checks t <= Z.to_nat n)%nat
    /\ (length (spawns t) <= checks t)%nat
    /\ Forall (fun c => c = ([PARSER_PATH] ++ args ++ ["--json"])%list) (spawns t).
Proof.
  unfold _run_parser_with_retry.
  destruct (loop_shape args n (Z.to_nat n) 0 RETRY_DELAY w)
    as [[Hzero Hloop] | (j & Hj & Hsnd)].
  - destruct (Z_le_gt_dec n 0); [left | right]; lia.
  - exists []. rewrite Hloop, app_nil_r. cbn [snd checks spawns length].
    repeat split; try lia. constructor.
  - exists (schedule args (attempts w) j RETRY_DELAY). rewrite Hsnd.
    cbn [attempts trace]. rewrite checks_schedule.
    destruct (spawns_schedule args j (attempts w) RETRY_DELAY) as [Hlen Hall].
    repeat split; try lia; assumption.
Qed.

(** How long a call sleeps. *)
Lemma with_retry_sleep_shape (args : list string) (n : Z) (w : world) :
  (exists j : nat,
      (j <= Z.to_nat n - 1)%nat
      /\ sleeps (trace (snd (with_retry args n w)))
         = (sleeps (trace w) ++ backoff j)%list
      /\ total_sleep (trace (snd (with_retry args n w)))
         = total_sleep (trace w) + (2 ^ (Z.of_nat j + 1) - 2))
  /\ total_sleep (trace (snd (with_retry args n w)))
     <= total_sleep (trace w) + (2 ^ Z.max n 1 - 2)
  /\ (attempts (snd (with_retry args n w)) = attempts w
      \/ exists e, last (trace (snd (with_retry args n w))) = Some e
                   /\ is_sleep e = false).
Proof.
  unfold _run_parser_with_retry.
  destruct (loop_shape args n (Z.to_nat n) 0 RETRY_DELAY w)
    as [[Hzero Hloop] | (j & Hj & Hsnd)].
  - destruct (Z_le_gt_dec n 0); [left | right]; lia.
  - rewrite Hloop. cbn [snd]. split; [|split].
    + exists O. split; [lia|]. cbn. rewrite app_nil_r. split; [reflexivity | lia].
    + assert (2 <= 2 ^ Z.max n 1)
        by (change 2 with (2 ^ 1) at 1; apply Z.pow_le_mono_r; lia).
      lia.
    + left. reflexivity.
  - rewrite Hsnd. cbn [attempts trace].
    assert (sleeps (trace w ++ schedule args (attempts w) j RETRY_DELAY)
            = (sleeps (trace w) ++ backoff j)%list) as Hsleeps.
    { rewrite sleeps_app.
      rewrite (sleeps_schedule PARSER_PATH parser_exists). reflexivity. }
    assert (total_sleep (trace w ++ schedule args (attempts w) j RETRY_DELAY)
            = total_sleep (trace w) + (2 ^ (Z.of_nat j + 1) - 2)) as Htotal.
    { rewrite total_sleep_app. f_equal. unfold total_sleep.
      rewrite (sleeps_schedule PARSER_PATH parser_exists).
      apply total_backoff. }
    split; [|split].
    + exists j. split; [lia|]. split; assumption.
    + rewrite Htotal.
      assert (2 ^ (Z.of_nat j + 1) <= 2 ^ Z.max n 1)
        by (apply Z.pow_le_mono_r; lia).
      lia.
    + right. apply last_schedule.
Qed.

End ClientInvariants.

(** X1.  A call of the client only appends to the trace; what it appends
    records as many checks for the binary as attempts were made, at most
    [n] of them, at most one subprocess per attempt, and every subprocess
    is started with the command line [PARSER_PATH] + args + [--json]. *)
Theorem client_trace_invariant (float_repr : spec_float -> string)
    (PARSER_PATH : string) (json_loads : string -> result value)
    (parser_exists : nat -> bool)
    (subprocess_run : nat -> list string -> run_outcome)
    (args : list string) (n : Z) (w : world) :
  let out := _run_parser_with_retry float_repr PARSER_PATH json_loads
               parser_exists subprocess_run args n w in
  exists t : list event,
    trace (snd out) = (trace w ++ t)%list
    /\ attempts (snd out) = (attempts w + checks t)%nat
    /\ (checks t <= Z.to_nat n)%nat
    /\ (length (spawns t) <= checks t)%nat
    /\ Forall (fun c => c = ([PARSER_PATH] ++ args ++ ["--json"])%list) (spawns t).
Proof. apply with_retry_trace_shape. Qed.

(** X2.  Whatever the attempts return, the sleeps of a call are the first
    [j] back-off delays 2, 4, 8, ... for some [j] below the number of
    attempts allowed, so a call with [n >= 1] attempts sleeps at most
    [2^n - 2] seconds in all (6 seconds with the default of 3); and a call
    that made an attempt never ends on a sleep. *)
Theorem client_sleep_budget (float_repr : spec_float -> string)
    (PARSER_PATH : string) (json_loads : string -> result value)
    (parser_exists : nat -> bool)
    (subprocess_run : nat -> list string -> run_outcome)
    (args : list string) (n : Z) (w : world) :
  let out := _run_parser_with_retry float_repr PARSER_PATH json_loads
               parser_exists subprocess_run args n w in
  (exists j : nat,
      (j <= Z.to_nat n - 1)%nat
      /\ sleeps (trace (snd out)) = (sleeps (trace w) ++ backoff j)%list
      /\ total_sleep (trace (snd out))
         = total_sleep (trace w) + (2 ^ (Z.of_nat j + 1) - 2))
  /\ total_sleep (trace (snd out)) <= total_sleep (trace w) + (2 ^ Z.max n 1 - 2)
  /\ (attempts (snd out) = attempts w
      \/ exists e, last (trace (snd out)) = Some e /\ is_sleep e = false).
Proof. apply with_retry_sleep_shape. Qed.

(** X3.  On a machine without the parser binary a call with [n >= 1]
    attempts never starts a subprocess, still makes all [n] attempts and
    sleeps the whole back-off, [2^n - 2] seconds, and returns nothing. *)
Theorem missing_binary_costs_full_backoff (float_repr : spec_float -> string)
    (PARSER_PATH : string) (json_loads : string -> result value)
    (parser_exists : nat -> bool)
    (subprocess_run : nat -> list string -> run_outcome)
    (args : list string) (n : Z) (w : world) :
  (forall k : nat, parser_exists k = false) ->
  1 <= n ->
  let out := _run_parser_with_retry float_repr PARSER_PATH json_loads
               parser_exists subprocess_run args n w in
  fst out = None
  /\ attempts (snd out) = (attempts w + Z.to_nat n)%nat
  /\ spawns (trace (snd out)) = spawns (trace w)
  /\ total_sleep (trace (snd out)) = total_sleep (trace w) + (2 ^ n - 2).
Proof.
  intros Hmissing Hn out.
  assert (forall (j k : nat) (d : Z),
            spawns (backoff_trace PARSER_PATH parser_exists args k j d) = [])
    as Hnospawn.
  { induction j as [|j IH]; intros k d; cbn [backoff_trace];
      rewrite spawns_app; unfold attempt_events; rewrite Hmissing; simpl.
    - reflexivity.
    - apply IH. }
  destruct (Z.to_nat n) as [|m] eqn:Hm; [lia|].
  assert (out = (None, mkWorld (attempts w + S m)
                         (trace w ++ backoff_trace PARSER_PATH parser_exists
                                       args (attempts w) m RETRY_DELAY)))
    as Hout.
  { subst out. unfold _run_parser_with_retry. rewrite Hm.
    apply loop_all_transient; [lia|].
    intros i _. unfold transient, attempt_result, _run_parser.
    cbn [attempts]. rewrite Hmissing. reflexivity. }
  rewrite Hout. cbn [fst snd attempts trace].
  split; [reflexivity|]. split; [reflexivity|]. split.
  - rewrite spawns_app, Hnospawn. apply app_nil_r.
  - rewrite total_sleep_app. f_equal. unfold total_sleep.
    rewrite (sleeps_schedule PARSER_PATH parser_exists).
    change (foldr Z.add 0 (backoff m) = 2 ^ n - 2).
    rewrite total_backoff. f_equal. f_equal. lia.
Qed.

Lemma missing_binary_costs_full_backoff_witness :
  total_sleep
    (trace (snd (_run_parser_with_retry no_repr "gguf-parser.exe"
                   loads_empty_object never_installed answering_tool
                   ["--path"; "m.gguf"] 3 world0)))
  = 6.
Proof.
  apply (missing_binary_costs_full_backoff no_repr "gguf-parser.exe"
           loads_empty_object never_installed answering_tool
           ["--path"; "m.gguf"] 3 world0 (fun _ => eq_refl) ltac:(lia)).
Defined.

(* ===================================================================== *)
(** * Further properties of normalisation *)
(* ===================================================================== *)

Lemma lookup_set_key_eq (k : string) (v : value) (d : pydict) :
  Py.lookup k (set_key k v d) = Some v.
Proof.
  induction d as [|[k' v'] d IH]; cbn [set_key Py.lookup].
  - rewrite String.eqb_refl. reflexivity.
  - destruct (String.eqb k k') eqn:Hk; cbn [Py.lookup].
    + rewrite String.eqb_refl. reflexivity.
    + rewrite Hk. exact IH.
Qed.

Lemma lookup_set_key_ne (k k' : string) (v : value) (d : pydict) :
  k' <> k -> Py.lookup k' (set_key k v d) = Py.lookup k' d.
Proof.
  intros Hne. induction d as [|[k0 v0] d IH]; cbn [set_key Py.lookup].
  - destruct (String.eqb k' k) eqn:Hk; [|reflexivity].
    apply String.eqb_eq in Hk. congruence.
  - destruct (String.eqb k k0) eqn:Hk; cbn [Py.lookup].
    + apply String.eqb_eq in Hk. subst k0.
      destruct (String.eqb k' k) eqn:Hk'; [|reflexivity].
      apply String.eqb_eq in Hk'. congruence.
    + rewrite IH. reflexivity.
Qed.

(** X4.  A tool output that is valid JSON but not an object (a list, a
    string, a number, true, false or null) is never normalised:
    [_extract_metadata] raises AttributeError at its first line; and so
    does it raise when the estimate block is present but is not an
    object. *)
Theorem non_object_output_raises (float_repr : spec_float -> string) (raw : value) :
  (not_an_object raw -> _extract_metadata float_repr raw = Raise AttributeError)
  /\ (forall (d : pydict) (estimate : value),
        raw = VDict d ->
        Py.lookup "estimate" d = Some estimate ->
        not_an_object estimate ->
        _extract_metadata float_repr raw = Raise AttributeError).
Proof.
  split.
  - intros Hraw. destruct raw; try reflexivity. destruct Hraw.
  - intros d estimate -> Hest Hno.
    unfold _extract_metadata. cbn [Py.get mbind result_bind].
    rewrite Hest. cbn [from_option id].
    destruct estimate; try reflexivity. destruct Hno.
Qed.

Lemma non_object_output_raises_witness :
  _extract_metadata no_repr (VList [VDict []]) = Raise AttributeError.
Proof.
  apply (proj1 (non_object_output_raises no_repr (VList [VDict []])) I).
Defined.

(** Everything a successful normalisation wrote, field by field. *)
Lemma _extract_metadata_fields (float_repr : spec_float -> string)
    (raw : value) (md : pydict) :
  _extract_metadata float_repr raw = Ok md ->
  exists (d m a e i : pydict) (pstr : string) (vg rg fg bg : value),
    raw = VDict d
    /\ default (VDict []) (Py.lookup "metadata" d) = VDict m
    /\ default (VDict []) (Py.lookup "architecture" d) = VDict a
    /\ default (VDict []) (Py.lookup "estimate" d) = VDict e
    /\ Py.index0 (default (VList [VDict []]) (Py.lookup "items" e)) = Ok (VDict i)
    /\ params_str_of float_repr (default (VInt 0) (Py.lookup "parameters" m))
       = Ok pstr
    /\ md = [ ("architecture",
               if Py.truthy (default VNone (Py.lookup "architecture" m))
               then default VNone (Py.lookup "architecture" m)
               else default VNone (Py.lookup "architecture" a));
              ("quantization", default VNone (Py.lookup "fileTypeDetail" m));
              ("parameters", default VNone (Py.lookup "parameters" m));
              ("parameters_str", VStr pstr);
              ("context_length", default VNone (Py.lookup "maximumContextLength" a));
              ("embedding_length", default VNone (Py.lookup "embeddingLength" a));
              ("file_size_bytes", default VNone (Py.lookup "fileSize" m));
              ("file_size_gb", fg);
              ("bits_per_weight", bg);
              ("vram_required_gb", vg);
              ("ram_required_gb", rg);
              ("model_name", default VNone (Py.lookup "name" m));
              ("flash_attention", default (VBool false) (Py.lookup "flashAttention" e));
              ("fully_offloadable", default (VBool false) (Py.lookup "fullOffloaded" i)) ].
Proof.
  unfold _extract_metadata. intros H.
  destruct raw as [| | | | | |d]; try discriminate H.
  cbn [Py.get mbind result_bind] in H.
  apply bind_Ok in H as (vb & Hvb & H). apply bind_Ok in H as (vg & Hvg & H).
  apply bind_Ok in H as (rb & Hrb & H). apply bind_Ok in H as (rg & Hrg & H).
  destruct (from_option id (VDict []) (Py.lookup "estimate" d))
    as [| | | | | |e] eqn:He; try discriminate Hvb.
  apply bind_Ok in H as (params & Hparams & H).
  destruct (from_option id (VDict []) (Py.lookup "metadata" d))
    as [| | | | | |m] eqn:Hm; try discriminate Hparams.
  cbn [Py.get] in Hparams. injection Hparams as <-.
  apply bind_Ok in H as (pstr & Hpstr & H).
  cbn [Py.get mbind result_bind] in H.
  apply bind_Ok in H as (arch & Harch & H).
  apply bind_Ok in H as (ctx & Hctx & H).
  destruct (from_option id (VDict []) (Py.lookup "architecture" d))
    as [| | | | | |a] eqn:Ha; try discriminate Hctx.
  cbn [Py.get mbind result_bind] in H, Harch, Hctx.
  injection Hctx as <-.
  apply bind_Ok in H as (fg & Hfg & H). apply bind_Ok in H as (bg & Hbg & H).
  apply bind_Ok in H as (item0 & Hitem0 & H).
  apply bind_Ok in H as (fo & Hfo & H).
  destruct item0 as [| | | | | |i]; try discriminate Hfo.
  cbn [Py.get] in Hfo. injection Hfo as <-. injection H as <-.
  exists d, m, a, e, i, pstr, vg, rg, fg, bg.
  repeat split; try assumption; try reflexivity.
  unfold Py.or_else in Harch.
  destruct (Py.truthy _); injection Harch as <-; reflexivity.
Qed.

Lemma descend_block (d b : pydict) (block field : string) :
  default (VDict []) (Py.lookup block d) = VDict b ->
  descend [Key block; Key field] (VDict d) = Py.lookup field b.
Proof.
  cbn [descend]. destruct (Py.lookup block d) as [x|]; simpl.
  - intros ->. destruct (Py.lookup field b); reflexivity.
  - intros H. injection H as <-. reflexivity.
Qed.

(** X5.  A document without a parameter count still normalises: the
    record's count is absent while its display string is 0.  A document
    whose parameter count is not a number (null, a string, a list, an
    object) does not normalise at all: the comparison with one billion
    raises. *)
Theorem missing_and_null_parameters (float_repr : spec_float -> string)
    (raw : value) :
  (forall md : pydict,
      descend parameters_path raw = None ->
      _extract_metadata float_repr raw = Ok md ->
      Py.lookup "parameters" md = Some VNone
      /\ Py.lookup "parameters_str" md = Some (VStr "0"))
  /\ (forall v : value,
        descend parameters_path raw = Some v ->
        not_a_number v ->
        exists e, _extract_metadata float_repr raw = Raise e).
Proof.
  split.
  - intros md Hpath H.
    destruct (_extract_metadata_fields _ _ _ H)
      as (d & m & a & e & i & pstr & vg & rg & fg & bg
          & -> & Hm & _ & _ & _ & Hpstr & ->).
    unfold parameters_path in Hpath.
    rewrite (descend_block d m "metadata" "parameters" Hm) in Hpath.
    rewrite Hpath in Hpstr |- *. cbn in Hpstr. injection Hpstr as <-.
    split; reflexivity.
  - intros v Hpath Hv.
    destruct (descend_metadata_field _ _ _ Hpath) as (d & m & -> & Hm & Hp).
    unfold _extract_metadata. cbn [Py.get mbind result_bind].
    rewrite Hm. cbn [from_option id].
    do 4 (apply bind_Raise; intros ? _).
    cbn [Py.get mbind result_bind]. rewrite Hp. cbn [from_option id].
    exists TypeError. destruct v; try destruct Hv; reflexivity.
Qed.

Lemma missing_and_null_parameters_witness :
  exists e,
    _extract_metadata no_repr
      (VDict [("metadata", VDict [("parameters", VNone)])]) = Raise e.
Proof.
  apply (proj2 (missing_and_null_parameters no_repr
                  (VDict [("metadata", VDict [("parameters", VNone)])]))
           VNone eq_refl I).
Defined.

(** X6.  The remaining fields of a record are copied from the document as
    they are, whatever their JSON type: quantization, parameters,
    file_size_bytes and model_name from the metadata block,
    context_length and embedding_length from the architecture block,
    flash_attention from the estimate block (false when missing) and
    fully_offloadable from the first estimate item (false when missing);
    architecture is the metadata block's value unless that is missing or
    falsy, and then the architecture block's. *)
Theorem field_provenance (float_repr : spec_float -> string)
    (raw : value) (md : pydict) :
  _extract_metadata float_repr raw = Ok md ->
  let at_ (path : list step) := default VNone (descend path raw) in
  Py.lookup "quantization" md = Some (at_ [Key "metadata"; Key "fileTypeDetail"])
  /\ Py.lookup "parameters" md = Some (at_ [Key "metadata"; Key "parameters"])
  /\ Py.lookup "file_size_bytes" md = Some (at_ [Key "metadata"; Key "fileSize"])
  /\ Py.lookup "model_name" md = Some (at_ [Key "metadata"; Key "name"])
  /\ Py.lookup "context_length" md
     = Some (at_ [Key "architecture"; Key "maximumContextLength"])
  /\ Py.lookup "embedding_length" md
     = Some (at_ [Key "architecture"; Key "embeddingLength"])
  /\ Py.lookup "flash_attention" md
     = Some (default (VBool false) (descend [Key "estimate"; Key "flashAttention"] raw))
  /\ Py.lookup "fully_offloadable" md
     = Some (default (VBool false)
               (descend [Key "estimate"; Key "items"; First; Key "fullOffloaded"] raw))
  /\ Py.lookup "architecture" md
     = Some (if Py.truthy (at_ [Key "metadata"; Key "architecture"])
             then at_ [Key "metadata"; Key "architecture"]
             else at_ [Key "architecture"; Key "architecture"]).
Proof.
  intros H at_. subst at_.
  destruct (_extract_metadata_fields _ _ _ H)
    as (d & m & a & e & i & pstr & vg & rg & fg & bg
        & -> & Hm & Ha & He & Hi & _ & ->).
  rewrite !(descend_block d m "metadata" _ Hm).
  rewrite !(descend_block d a "architecture" _ Ha).
  rewrite !(descend_block d e "estimate" _ He).
  repeat split.
  cbn [Py.lookup String.eqb Ascii.eqb Bool.eqb]. f_equal. f_equal.
  rewrite descend_estimate, He. cbn [descend].
  destruct (Py.lookup "items" e) as [[| | | |s|[|x l]|]|];
    cbn in Hi |- *; try discriminate Hi.
  - destruct s; discriminate Hi.
  - injection Hi as ->. destruct (Py.lookup "fullOffloaded" i); reflexivity.
  - injection Hi as <-. reflexivity.
Qed.

Lemma field_provenance_witness :
  Py.lookup "parameters" sample_record = Some (VInt 6738415616).
Proof.
  apply (proj1 (proj2 (field_provenance no_repr sample_document sample_record
                         eq_refl))).
Defined.

(** X7.  Of the estimate items only the first is read, and of its vrams
    only the first: a document normalises to the same result, record or
    exception, whatever follows the first item and whatever follows the
    first vrams entry. *)
Theorem only_first_entries_are_read (float_repr : spec_float -> string)
    (d e i : pydict) :
  Py.lookup "estimate" d = Some (VDict e) ->
  (forall rest rest' : list value,
      Py.lookup "items" e = Some (VList (VDict i :: rest)) ->
      _extract_metadata float_repr
        (VDict (set_key "estimate"
                  (VDict (set_key "items" (VList (VDict i :: rest')) e)) d))
      = _extract_metadata float_repr (VDict d))
  /\ (forall (rest : list value) (v0 : value) (vs vs' : list value),
        Py.lookup "items" e = Some (VList (VDict i :: rest)) ->
        Py.lookup "vrams" i = Some (VList (v0 :: vs)) ->
        _extract_metadata float_repr
          (VDict (set_key "estimate"
                    (VDict (set_key "items"
                              (VList (VDict (set_key "vrams" (VList (v0 :: vs')) i)
                                      :: rest)) e)) d))
        = _extract_metadata float_repr (VDict d)).
Proof.
  intros Hest. split.
  - intros rest rest' Hitems.
    unfold _extract_metadata, vram_bytes_of, ram_bytes_of.
    cbn [Py.get Py.getitem mbind result_bind].
    rewrite !lookup_set_key_eq, !(lookup_set_key_ne "estimate") by discriminate.
    rewrite Hest. cbn [from_option id Py.get Py.getitem mbind result_bind].
    rewrite !lookup_set_key_eq, !(lookup_set_key_ne "items") by discriminate.
    rewrite Hitems. reflexivity.
  - intros rest v0 vs vs' Hitems Hvrams.
    unfold _extract_metadata, vram_bytes_of, ram_bytes_of.
    cbn [Py.get Py.getitem mbind result_bind].
    rewrite !lookup_set_key_eq, !(lookup_set_key_ne "estimate") by discriminate.
    rewrite Hest. cbn [from_option id Py.get Py.getitem mbind result_bind].
    rewrite !lookup_set_key_eq, !(lookup_set_key_ne "items") by discriminate.
    rewrite Hitems.
    cbn [from_option id Py.get Py.getitem Py.index0 Py.truthy mbind result_bind].
    rewrite !lookup_set_key_eq, !(lookup_set_key_ne "vrams") by discriminate.
    rewrite Hvrams. reflexivity.
Qed.

Lemma only_first_entries_are_read_witness :
  _extract_metadata no_repr
    (VDict (set_key "estimate"
              (VDict (set_key "items" (VList [VDict []; VInt 7])
                        [("items", VList [VDict []])]))
              [("estimate", VDict [("items", VList [VDict []])])]))
  = _extract_metadata no_repr
      (VDict [("estimate", VDict [("items", VList [VDict []])])]).
Proof.
  apply (proj1 (only_first_entries_are_read no_repr
                  [("estimate", VDict [("items", VList [VDict []])])]
                  [("items", VList [VDict []])] [] eq_refl)
           [] [VInt 7] eq_refl).
Defined.

(* ===================================================================== *)
(** * Further properties of the file listing and the file choice *)
(* ===================================================================== *)

(** X8.  The list comprehension over a listing is all or nothing: when
    every entry is an object whose name is a string (or missing) the
    result is the names with the GGUF extension, in listing order and with
    repetitions; a single entry that is not an object, or whose name is
    not a string, makes the whole comprehension raise. *)
Theorem gguf_names_filter (key : string) (entries : list value) :
  (Forall (fun f => is_Some (entry_name key f)) entries ->
   gguf_names key entries
   = Ok (List.filter has_gguf_suffix (omap (entry_name key) entries)))
  /\ (Exists (fun f => entry_name key f = None) entries ->
      exists e, gguf_names key entries = Raise e).
Proof.
  split.
  - induction 1 as [|f rest [name Hname] _ IH]; [reflexivity|].
    cbn [gguf_names omap list_omap]. rewrite Hname. cbn [List.filter].
    unfold entry_name in Hname.
    destruct f as [| | | | | |d]; try discriminate Hname.
    cbn [Py.get mbind result_bind].
    destruct (Py.lookup key d) as [[| | | |s| |]|]; try discriminate Hname;
      injection Hname as <-; cbn [from_option id lower_of mbind result_bind];
      fold (has_gguf_suffix EmptyString); try fold (has_gguf_suffix s).
    + destruct (has_gguf_suffix s); [|exact IH].
      rewrite IH. reflexivity.
    + change (has_gguf_suffix EmptyString) with false. exact IH.
  - induction 1 as [f rest Hbad | f rest _ IH]; cbn [gguf_names].
    + unfold entry_name in Hbad.
      destruct f as [| | | | | |d]; try (eexists; reflexivity).
      cbn [Py.get mbind result_bind].
      destruct (Py.lookup key d) as [[| | | |s| |]|]; try discriminate Hbad;
        eexists; reflexivity.
    + destruct IH as [e He].
      apply bind_Raise. intros name _. apply bind_Raise. intros lowered _.
      destruct (PyStr.endswith ".gguf" lowered); [|eauto].
      apply bind_Raise. intros picked _.
      destruct picked; try (eexists; reflexivity).
      rewrite He. eexists. reflexivity.
Qed.

Lemma gguf_names_filter_witness :
  gguf_names "rfilename"
    [VDict [("rfilename", VStr "a.GGUF")]; VDict []; VDict [("rfilename", VStr "b.bin")]]
  = Ok ["a.GGUF"].
Proof.
  apply (proj1 (gguf_names_filter "rfilename"
                  [VDict [("rfilename", VStr "a.GGUF")]; VDict [];
                   VDict [("rfilename", VStr "b.bin")]])).
  repeat constructor; eexists; reflexivity.
Defined.

(** X9.  Both listing functions return only names with the GGUF extension
    (so never an empty name), and return the empty list when the request
    raises, when the status is not 200, when the body is not JSON, and
    when the JSON does not have the expected shape. *)
Theorem listing_failures_give_empty (requests_get : string -> http_outcome)
    (repo_id : string) :
  let hf_url := String.append "https://huggingface.co/api/models/" repo_id in
  let ms_url := String.append "https://modelscope.cn/api/v1/models/"
                  (String.append repo_id "/repo/files") in
  Forall (fun s => has_gguf_suffix s = true /\ s <> EmptyString)
    (get_gguf_files_from_hf requests_get repo_id)
  /\ Forall (fun s => has_gguf_suffix s = true /\ s <> EmptyString)
       (get_gguf_files_from_ms requests_get repo_id)
  /\ (forall url (files : string -> list string),
        (url = hf_url /\ files = get_gguf_files_from_hf requests_get)
        \/ (url = ms_url /\ files = get_gguf_files_from_ms requests_get) ->
        (forall e, requests_get url = HttpRaises e -> files repo_id = [])
        /\ (forall status body,
              requests_get url = HttpResponse status body ->
              status <> 200 -> files repo_id = [])
        /\ (forall status e,
              requests_get url = HttpResponse status (Raise e) ->
              files repo_id = [])
        /\ (forall status data,
              requests_get url = HttpResponse status (Ok data) ->
              not_an_object data -> files repo_id = [])).
Proof.
  intros hf_url ms_url.
  assert (forall s, has_gguf_suffix s = true ->
                    has_gguf_suffix s = true /\ s <> EmptyString) as Hname.
  { intros s Hs. split; [exact Hs|]. intros ->. discriminate Hs. }
  split; [|split].
  - pose proof (listed_gguf_files_suffix requests_get "huggingface" repo_id) as H.
    unfold listed_gguf_files in H. cbn in H.
    eapply Forall_impl; [exact H|]. exact Hname.
  - pose proof (listed_gguf_files_suffix requests_get "modelscope" repo_id) as H.
    unfold listed_gguf_files in H. cbn in H.
    eapply Forall_impl; [exact H|]. exact Hname.
  - intros url files [[-> ->] | [-> ->]];
      unfold get_gguf_files_from_hf, get_gguf_files_from_ms;
      fold hf_url; fold ms_url; repeat split.
    + intros e ->. reflexivity.
    + intros status body -> Hstatus.
      apply Z.eqb_neq in Hstatus. rewrite Hstatus. reflexivity.
    + intros status e ->. destruct (status =? 200); reflexivity.
    + intros status data -> Hdata.
      destruct (status =? 200); [|reflexivity].
      destruct data; try reflexivity. destruct Hdata.
    + intros e ->. reflexivity.
    + intros status body -> Hstatus.
      apply Z.eqb_neq in Hstatus. rewrite Hstatus. reflexivity.
    + intros status e ->. destruct (status =? 200); reflexivity.
    + intros status data -> Hdata.
      destruct (status =? 200); [|reflexivity].
      destruct data; try reflexivity. destruct Hdata.
Qed.

Lemma listing_failures_give_empty_witness :
  get_gguf_files_from_hf (fun _ => HttpResponse 404 (Ok (VDict []))) "org/m" = [].
Proof.
  apply (proj1 (proj2 (proj2 (proj2
           (listing_failures_give_empty
              (fun _ => HttpResponse 404 (Ok (VDict []))) "org/m"))
           _ _ (or_introl (conj eq_refl eq_refl))))
           404 (Ok (VDict [])) eq_refl ltac:(lia)).
Defined.

(** X10.  The representative file is always one of the files of the
    listing, unchanged, and there is none exactly when the listing is
    empty. *)
Theorem pick_is_a_listed_file (gguf_files : list string) :
  (pick_representative_gguf_file gguf_files = None <-> gguf_files = [])
  /\ (forall f : string,
        pick_representative_gguf_file gguf_files = Some f -> In f gguf_files).
Proof.
  destruct gguf_files as [|first rest].
  - split; [split; reflexivity|]. intros f H. discriminate H.
  - destruct (pick_representative_gguf_file_In first rest) as (g & Hg & Hin).
    split.
    + split; [rewrite Hg|]; discriminate.
    + intros f Hf. rewrite Hg in Hf. injection Hf as <-. exact Hin.
Qed.

(* ===================================================================== *)
(** * Further properties of enrichment *)
(* ===================================================================== *)

Lemma startswith_append (p s : string) :
  PyStr.startswith p (String.append p s) = true.
Proof.
  induction p as [|c p IH]; [reflexivity|].
  change (String.append (String c p) s) with (String c (String.append p s)).
  cbn [PyStr.startswith]. rewrite Ascii.eqb_refl. exact IH.
Qed.

Lemma replace_from_skip (old new p s : string) :
  PyStr.replace_from old new (String.length p) (String.append p s)
  = PyStr.replace_from old new O s.
Proof.
  induction p as [|c p IH]; [reflexivity|].
  change (String.append (String c p) s) with (String c (String.append p s)).
  cbn [String.length PyStr.replace_from]. exact IH.
Qed.

Lemma replace_from_absent (old new s : string) :
  PyStr.contains old s = false -> PyStr.replace_from old new O s = s.
Proof.
  induction s as [|c s IH]; [reflexivity|].
  cbn [PyStr.contains PyStr.replace_from].
  destruct (PyStr.startswith old (String c s)); [discriminate|].
  intros H. rewrite (IH H). reflexivity.
Qed.

(** Removing a prefix that was put in front gives back what followed it,
    when that does not itself contain the prefix. *)
Lemma replace_prefix (c : ascii) (p s : string) :
  PyStr.contains (String c p) s = false ->
  PyStr.replace (String c p) EmptyString (String.append (String c p) s) = s.
Proof.
  intros H. unfold PyStr.replace.
  change (String.append (String c p) s) with (String c (String.append p s)).
  cbn [PyStr.replace_from].
  change (String c (String.append p s)) with (String.append (String c p) s).
  rewrite startswith_append.
  cbn [String.length Nat.pred String.append].
  rewrite replace_from_skip. apply replace_from_absent, H.
Qed.

Lemma rstrip_char_absent (c : ascii) (s : string) :
  PyStr.endswith (String c EmptyString) s = false ->
  PyStr.rstrip_char c s = s.
Proof.
  unfold PyStr.endswith, PyStr.rstrip_char.
  change (PyStr.rev (String c EmptyString)) with (String c EmptyString).
  intros H. rewrite <- (rev_involutive s) at 2. f_equal.
  destruct (PyStr.rev s) as [|b t]; [reflexivity|].
  cbn [PyStr.startswith] in H. cbn [PyStr.dropwhile].
  destruct (Ascii.eqb c b); [discriminate H | reflexivity].
Qed.

(** X11.  The scraper builds a model's URL by putting the hub's address in
    front of the model identifier, and enrichment takes it off again: it
    gets the identifier back, for the first hub when the identifier does
    not contain that address, for the second when moreover the identifier
    does not end with a slash (a trailing slash is lost). *)
Theorem repo_id_round_trip (model_id source : string) :
  (PyStr.contains "https://huggingface.co/" model_id = false ->
   repo_id_of "huggingface" (String.append "https://huggingface.co/" model_id)
   = model_id)
  /\ (String.eqb source "huggingface" = false ->
      PyStr.contains "https://modelscope.cn/models/" model_id = false ->
      repo_id_of source (String.append "https://modelscope.cn/models/" model_id)
      = PyStr.rstrip_char "/" model_id
      /\ (PyStr.endswith "/" model_id = false ->
          repo_id_of source (String.append "https://modelscope.cn/models/" model_id)
          = model_id)).
Proof.
  split.
  - intros H. unfold repo_id_of. cbn [String.eqb Ascii.eqb Bool.eqb].
    apply replace_prefix, H.
  - intros Hsource H. unfold repo_id_of. rewrite Hsource.
    rewrite replace_prefix by exact H.
    split; [reflexivity|]. apply rstrip_char_absent.
Qed.

Lemma repo_id_round_trip_witness :
  repo_id_of "huggingface"
    (String.append "https://huggingface.co/" "TheBloke/Llama-2-7B-GGUF")
  = "TheBloke/Llama-2-7B-GGUF".
Proof.
  apply (proj1 (repo_id_round_trip "TheBloke/Llama-2-7B-GGUF" "huggingface")
           eq_refl).
Defined.

Section EnrichmentBudget.

Variable float_repr : spec_float -> string.
Variable PARSER_PATH : string.
Variable json_loads : string -> result value.
Variable parser_exists : nat -> bool.
Variable subprocess_run : nat -> list string -> run_outcome.
Variable requests_get : string -> http_outcome.

Local Abbreviation enrich :=
  (enrich_model_with_gguf_metadata float_repr PARSER_PATH json_loads
     parser_exists subprocess_run).
Local Abbreviation with_retry :=
  (_run_parser_with_retry float_repr PARSER_PATH json_loads parser_exists
     subprocess_run).

(** Enrichment touches the outside through one extraction at most, of a
    file of the listing. *)
Lemma enrich_cases (available : bool) (model_dict : gmap string value)
    (source : string) (w : world) :
  snd (enrich available requests_get model_dict source w) = w
  \/ exists url gguf_file args,
       In gguf_file
         (listed_gguf_files requests_get source (repo_id_of source url))
       /\ (args = ["--hf-repo"; repo_id_of source url; "--hf-file"; gguf_file]
           \/ args = ["--ms-repo"; repo_id_of source url; "--ms-file"; gguf_file])
       /\ snd (enrich available requests_get model_dict source w)
          = snd (with_retry args MAX_RETRIES w).
Proof.
  destruct available; [|left; reflexivity].
  destruct (url_of model_dict) as [url|] eqn:Hurl.
  - rewrite (enrich_unfold float_repr PARSER_PATH json_loads parser_exists
               subprocess_run requests_get model_dict source url w Hurl).
    destruct (listed_gguf_files requests_get source (repo_id_of source url))
      as [|first rest] eqn:Hfiles; [left; reflexivity|].
    destruct (pick_representative_gguf_file_In first rest)
      as (gguf_file & Hpick & Hin).
    rewrite Hpick.
    destruct gguf_file as [|c name]; [left; reflexivity|].
    right. exists url, (String c name).
    unfold extraction, parse_gguf_from_hf, parse_gguf_from_ms. cbn [snd].
    try rewrite <- Hfiles in Hin.
    destruct (String.eqb source "huggingface"); eexists;
      (split; [first [exact Hin | rewrite Hfiles; exact Hin]|]);
      (split; [|reflexivity]); auto.
  - left. unfold url_of in Hurl. unfold enrich_model_with_gguf_metadata.
    cbn [negb].
    destruct (model_dict !! "url") as [[| | | |u| |]|]; try discriminate Hurl;
      reflexivity.
Qed.

End EnrichmentBudget.


(* ===================================================================== *)
(** * Properties of the size estimate *)
(* ===================================================================== *)

(** A string that occurs also occurs without its first character. *)
Lemma contains_drop_first (c : ascii) (p s : string) :
  PyStr.contains (String c p) s = true -> PyStr.contains p s = true.
Proof.
  induction s as [|b s IH]; cbn [PyStr.contains PyStr.startswith].
  - discriminate.
  - destruct (Ascii.eqb c b).
    + destruct (PyStr.startswith p s) eqn:Hp.
      * intros _. destruct (PyStr.startswith p (String b s)); [reflexivity|].
        destruct s as [|b' s']; destruct p; cbn [PyStr.contains] in *;
          rewrite ?Hp; reflexivity.
      * intros H. rewrite (IH H).
        destruct (PyStr.startswith p (String b s)); reflexivity.
    + intros H. rewrite (IH H).
      destruct (PyStr.startswith p (String b s)); reflexivity.
Qed.

Lemma first_indicator_range (name : string) (size : Z) :
  Scrape.first_indicator Scrape.size_indicators name = Some size ->
  In size [1; 2; 3; 4; 6; 8; 14; 16; 140].
Proof.
  unfold Scrape.size_indicators. cbn [Scrape.first_indicator]. intros H.
  repeat match type of H with
         | (if PyStr.contains ?i name then _ else _) = Some _ =>
             let E := fresh "E" in
             destruct (PyStr.contains i name) eqn:E;
             [ first [ injection H as <-; simpl; tauto
                     | exfalso; apply contains_drop_first in E; congruence ]
             | ]
         end.
  discriminate H.
Qed.

(** X13.  An estimate taken from the model's name is never 26, 28, 64, 68
    or 144: a name that contains 13b, 14b, 32b, 34b or 72b also contains
    3b, 4b or 2b, which the table lists earlier.  So the integer estimates
    are 1, 2, 3, 4, 6, 8, 14, 16 and 140 only, and a model without file
    sizes whose name contains 13b is estimated at 6 GB or less. *)
Theorem size_estimate_from_name (model_data : value) :
  (forall size : Z,
      Scrape.estimate_model_size model_data = Ok (VInt size) ->
      In size [1; 2; 3; 4; 6; 8; 14; 16; 140])
  /\ (forall model_id : string,
        model_data = VDict [("id", VStr model_id)] ->
        PyStr.contains "13b" (PyStr.lower model_id) = true ->
        exists size,
          Scrape.estimate_model_size model_data = Ok (VInt size) /\ size <= 6).
Proof.
  split.
  - unfold Scrape.estimate_model_size. intros size H.
    apply bind_Ok in H as (siblings & _ & H).
    apply bind_Ok in H as (files & _ & H).
    apply bind_Ok in H as (total & _ & H).
    apply bind_Ok in H as (positive & _ & H).
    destruct positive.
    + invert_binds H. discriminate H.
    + apply bind_Ok in H as (name & _ & H).
      destruct (Scrape.first_indicator _ name) as [n|] eqn:Hn;
        [|discriminate H].
      injection H as <-. apply (first_indicator_range name n Hn).
  - intros model_id -> H13.
    pose proof (contains_drop_first _ _ _ H13) as H3.
    unfold Scrape.estimate_model_size, Scrape.lower_id. cbn.
    unfold Scrape.size_indicators. cbn [Scrape.first_indicator].
    rewrite H3.
    repeat match goal with
           | |- context [if PyStr.contains ?i ?nm then _ else _] =>
               destruct (PyStr.contains i nm);
               [eexists; split; [reflexivity | lia]|]
           end.
    eexists. split; [reflexivity | lia].
Qed.

Lemma size_estimate_from_name_witness :
  exists size,
    Scrape.estimate_model_size (VDict [("id", VStr "Llama-2-13B-chat")])
    = Ok (VInt size)
    /\ size <= 6.
Proof.
  apply (proj2 (size_estimate_from_name (VDict [("id", VStr "Llama-2-13B-chat")]))
           "Llama-2-13B-chat" eq_refl eq_refl).
Defined.

Lemma sum_sizes_int (files : list value) (sizes : list Z) :
  Forall2 (fun f n => entry_size f = Some n) files sizes ->
  forall acc : Z,
    Scrape.sum_sizes files (VInt acc) = Ok (VInt (acc + foldr Z.add 0 sizes)).
Proof.
  induction 1 as [|f n files sizes Hf _ IH]; intros acc.
  - cbn [Scrape.sum_sizes foldr]. apply f_equal, f_equal; lia.
  - cbn [Scrape.sum_sizes foldr].
    unfold entry_size in Hf. destruct f as [| | | | | |d]; try discriminate Hf.
    cbn [Py.get mbind result_bind].
    destruct (Py.lookup "size" d) as [[| |m| | | |]|]; try discriminate Hf;
      injection Hf as <-; cbn [from_option id Py.truthy].
    + destruct (m =? 0) eqn:Hm; cbn [negb].
      * apply Z.eqb_eq in Hm. subst m. rewrite (IH acc).
        apply f_equal, f_equal; lia.
      * cbn [Scrape.add mbind result_bind]. rewrite (IH (acc + m)).
        apply f_equal, f_equal; lia.
    + rewrite (IH acc). apply f_equal, f_equal; lia.
Qed.

(** X14.  When the listed files report integer sizes (a missing size
    counts as zero) that add up to a positive number of bytes, the estimate
    is that sum in GB rounded to one decimal, a float, and the name of the
    model is not looked at; when they add up to zero or less, only the name
    decides. *)
Theorem size_estimate_from_files (d : pydict) (files : list value) (sizes : list Z) :
  Py.lookup "siblings" d = Some (VList files) ->
  Forall2 (fun f n => entry_size f = Some n) files sizes ->
  let total := foldr Z.add 0 sizes in
  (0 < total -> Scrape.estimate_model_size (VDict d) = gb_estimate total)
  /\ (total <= 0 ->
      Scrape.estimate_model_size (VDict d)
      = (name ← Scrape.lower_id (VDict d);
         Ok match Scrape.first_indicator Scrape.size_indicators name with
            | Some size => VInt size
            | None => VNone
            end)).
Proof.
  intros Hsiblings Hsizes total.
  unfold Scrape.estimate_model_size.
  cbn [Py.get mbind result_bind]. rewrite Hsiblings.
  cbn [from_option id Py.iterate mbind result_bind].
  rewrite (sum_sizes_int files sizes Hsizes 0).
  cbn [mbind result_bind Scrape.gt0]. change (0 + foldr Z.add 0 sizes) with total.
  split; intros Htotal.
  - replace (0 <? total) with true by (symmetry; apply Z.ltb_lt; lia).
    reflexivity.
  - replace (0 <? total) with false by (symmetry; apply Z.ltb_ge; lia).
    reflexivity.
Qed.

Lemma size_estimate_from_files_witness :
  Scrape.estimate_model_size
    (VDict [("id", VStr "m-7b");
            ("siblings", VList [VDict [("size", VInt 4080263168)]; VDict []])])
  = gb_estimate 4080263168.
Proof.
  apply (proj1 (size_estimate_from_files
                  [("id", VStr "m-7b");
                   ("siblings", VList [VDict [("size", VInt 4080263168)]; VDict []])]
                  [VDict [("size", VInt 4080263168)]; VDict []]
                  [4080263168; 0] eq_refl
                  ltac:(repeat constructor))).
  reflexivity.
Defined.

(* ===================================================================== *)
(** * Properties of the classification of a model *)
(* ===================================================================== *)

Lemma any_in_list (ts : list string) (l : list value) :
  exists b, Scrape.any_in ts (VList l) = Ok b.
Proof.
  induction ts as [|t ts [b IH]]; cbn [Scrape.any_in Scrape.str_in mbind result_bind].
  - eauto.
  - destruct (existsb _ l); eauto.
Qed.

Lemma any_in_hit (ts : list string) (l : list value) (t : string) :
  In t ts -> In (VStr t) l -> Scrape.any_in ts (VList l) = Ok true.
Proof.
  intros Ht Hl.
  induction ts as [|t0 ts IH]; [destruct Ht|].
  cbn [Scrape.any_in Scrape.str_in mbind result_bind].
  destruct (existsb _ l) eqn:Hhit; [reflexivity|].
  destruct Ht as [-> | Ht]; [|apply IH, Ht].
  exfalso. rewrite <- not_true_iff_false in Hhit. apply Hhit.
  apply existsb_exists. exists (VStr t). split; [exact Hl|].
  apply String.eqb_refl.
Qed.

(** X15.  [detect_category] answers text, image, coding or multimodal and
    nothing else; one image tag among the tags decides for image whatever
    the other fields hold, a malformed identifier included; and tags that
    are null (or a number) make it raise TypeError. *)
Theorem detect_category_range (model_data : value) :
  (forall c : string,
      Scrape.detect_category model_data = Ok c -> In c categories)
  /\ (forall (d : pydict) (tags : list value) (t : string),
        model_data = VDict d ->
        Py.lookup "tags" d = Some (VList tags) ->
        In t Scrape.image_tags ->
        In (VStr t) tags ->
        Scrape.detect_category model_data = Ok "image")
  /\ (forall (d : pydict) (tags : value),
        model_data = VDict d ->
        Py.lookup "tags" d = Some tags ->
        not_iterable tags ->
        Scrape.detect_category model_data = Raise TypeError).
Proof.
  split; [|split].
  - unfold Scrape.detect_category. intros c H.
    repeat first
      [ apply bind_Ok in H; destruct H as (? & _ & H)
      | match type of H with
        | (if ?b then _ else _) = _ => destruct b
        end ];
      injection H as <-; simpl; tauto.
  - intros d tags t -> Htags Ht Hin.
    unfold Scrape.detect_category. cbn [Py.get mbind result_bind].
    rewrite Htags. cbn [from_option id].
    rewrite (any_in_hit _ _ t Ht Hin). reflexivity.
  - intros d tags -> Htags Hno.
    unfold Scrape.detect_category. cbn [Py.get mbind result_bind].
    rewrite Htags. cbn [from_option id].
    destruct tags; try destruct Hno; reflexivity.
Qed.

Lemma detect_category_range_witness :
  Scrape.detect_category
    (VDict [("id", VNone); ("tags", VList [VStr "pytorch"; VStr "diffusers"])])
  = Ok "image".
Proof.
  apply (proj1 (proj2 (detect_category_range
                         (VDict [("id", VNone);
                                 ("tags", VList [VStr "pytorch"; VStr "diffusers"])])))
           _ [VStr "pytorch"; VStr "diffusers"] "diffusers" eq_refl eq_refl).
  - left. reflexivity.
  - right. left. reflexivity.
Defined.

Lemma lowered_strings (l : list string) :
  Scrape.lowered (map VStr l) = Ok (map PyStr.lower l).
Proof.
  induction l as [|s l IH]; [reflexivity|].
  cbn [map Scrape.lowered lower_of mbind result_bind]. rewrite IH. reflexivity.
Qed.

Lemma any_gguf_file_well_formed (files : list value) :
  Forall (fun f => is_Some (entry_name "rfilename" f)) files ->
  Scrape.any_gguf_file files
  = Ok (existsb has_gguf_suffix (omap (entry_name "rfilename") files)).
Proof.
  induction 1 as [|f rest [name Hname] _ IH]; [reflexivity|].
  cbn [Scrape.any_gguf_file omap list_omap]. rewrite Hname. cbn [existsb].
  unfold entry_name in Hname.
  destruct f as [| | | | | |d]; try discriminate Hname.
  cbn [Py.get mbind result_bind].
  destruct (Py.lookup "rfilename" d) as [[| | | |s| |]|]; try discriminate Hname;
    injection Hname as <-; cbn [from_option id lower_of mbind result_bind];
    fold (has_gguf_suffix EmptyString); try fold (has_gguf_suffix s).
  - destruct (has_gguf_suffix s); [reflexivity | exact IH].
  - change (has_gguf_suffix EmptyString) with false. exact IH.
Qed.

(** X16.  On model data of the documented shape none of the three
    classifiers raises: each gives an answer. *)
Theorem classifiers_answer (d : pydict) :
  well_formed_model d ->
  (exists c, Scrape.detect_category (VDict d) = Ok c)
  /\ (exists b, Scrape.is_chinese_model (VDict d) = Ok b)
  /\ (exists b, Scrape.is_gguf_model (VDict d) = Ok b).
Proof.
  intros (Hid & Hpipe & Htags & Hfiles).
  assert (exists name, Scrape.lower_id (VDict d) = Ok name) as [name Hname].
  { unfold Scrape.lower_id. cbn [Py.get mbind result_bind].
    destruct Hid as [-> | [s ->]]; eexists; reflexivity. }
  assert (exists l, default (VList []) (Py.lookup "tags" d) = VList (map VStr l))
    as [tags Htags'].
  { destruct Htags as [-> | [l ->]]; [exists [] | exists l]; reflexivity. }
  assert (exists p, default (VStr EmptyString) (Py.lookup "pipeline_tag" d) = VStr p)
    as [pipe Hpipe'].
  { destruct Hpipe as [-> | [s ->]]; eexists; reflexivity. }
  split; [|split].
  - unfold Scrape.detect_category. cbn [Py.get mbind result_bind].
    rewrite Htags', Hpipe', Hname.
    destruct (any_in_list Scrape.image_tags (map VStr tags)) as [b1 ->].
    destruct (any_in_list Scrape.coding_tags (map VStr tags)) as [b2 ->].
    destruct (any_in_list Scrape.multimodal_tags (map VStr tags)) as [b3 ->].
    cbn [mbind result_bind Scrape.either_in Scrape.str_in].
    destruct b1; [eauto|].
    destruct (PyStr.contains "text-to-image" pipe); cbn [mbind result_bind];
      [eauto|].
    destruct (PyStr.contains "image-to-image" pipe); [eauto|].
    destruct b2; [eauto|].
    destruct (PyStr.contains "code" name); [eauto|].
    destruct b3; [eauto|].
    destruct (PyStr.contains "vision" name); eauto.
  - unfold Scrape.is_chinese_model. rewrite Hname.
    cbn [Py.get mbind result_bind]. rewrite Htags'.
    destruct (existsb _ Scrape.chinese_indicators); [eauto|].
    cbn [Scrape.either_in Scrape.str_in mbind result_bind].
    destruct (existsb _ (map VStr tags)); eauto.
  - unfold Scrape.is_gguf_model. rewrite Hname.
    cbn [Py.get mbind result_bind]. rewrite Htags'.
    destruct (PyStr.contains "gguf" name); [eauto|].
    cbn [Py.iterate mbind result_bind]. rewrite lowered_strings.
    cbn [mbind result_bind].
    destruct (existsb _ (map PyStr.lower tags)); [eauto|].
    destruct Hfiles as [-> | (fs & -> & Hfs)];
      cbn [from_option id Py.iterate mbind result_bind].
    + eexists. reflexivity.
    + rewrite (any_gguf_file_well_formed fs Hfs). eauto.
Qed.

Lemma classifiers_answer_witness :
  exists c, Scrape.detect_category
              (VDict [("id", VStr "org/DeepSeek-Coder-GGUF");
                      ("tags", VList (map VStr ["gguf"; "code"]))]) = Ok c.
Proof.
  apply (proj1 (classifiers_answer
                  [("id", VStr "org/DeepSeek-Coder-GGUF");
                   ("tags", VList (map VStr ["gguf"; "code"]))]
                  (conj (or_intror (ex_intro _ _ eq_refl))
                     (conj (or_introl eq_refl)
                        (conj (or_intror (ex_intro _ ["gguf"; "code"] eq_refl))
                           (or_introl eq_refl)))))).
Defined.

Lemma any_gguf_file_false (files : list value) :
  forall names : list string,
    Scrape.any_gguf_file files = Ok false ->
    gguf_names "rfilename" files = Ok names ->
    names = [].
Proof.
  induction files as [|f rest IH]; intros names Hany Hnames;
    cbn [Scrape.any_gguf_file gguf_names] in Hany, Hnames.
  - injection Hnames as <-. reflexivity.
  - apply bind_Ok in Hany as (name & Hname & Hany).
    apply bind_Ok in Hany as (lowered & Hlow & Hany).
    rewrite Hname in Hnames. cbn [mbind result_bind] in Hnames.
    rewrite Hlow in Hnames. cbn [mbind result_bind] in Hnames.
    destruct (PyStr.endswith ".gguf" lowered); [discriminate Hany|].
    apply (IH names Hany Hnames).
Qed.

(** X17.  Detection by the model data agrees with the listing: when the
    files of the model data list a GGUF file, [is_gguf_model] does not
    answer false (it answers true, or raises on a malformed identifier or
    tag). *)
Theorem listed_gguf_file_is_detected (d : pydict) (files : list value)
    (name : string) (names : list string) :
  Py.lookup "siblings" d = Some (VList files) ->
  gguf_names "rfilename" files = Ok (name :: names) ->
  Scrape.is_gguf_model (VDict d) <> Ok false.
Proof.
  intros Hsiblings Hnames H.
  unfold Scrape.is_gguf_model in H.
  apply bind_Ok in H as (model_id & _ & H).
  apply bind_Ok in H as (tags & _ & H).
  destruct (PyStr.contains "gguf" model_id); [discriminate H|].
  apply bind_Ok in H as (tags1 & _ & H).
  apply bind_Ok in H as (tags2 & _ & H).
  destruct (existsb _ tags2); [discriminate H|].
  cbn [Py.get mbind result_bind] in H. rewrite Hsiblings in H.
  cbn [from_option id Py.iterate mbind result_bind] in H.
  discriminate (any_gguf_file_false files (name :: names) H Hnames).
Qed.

Lemma listed_gguf_file_is_detected_witness :
  Scrape.is_gguf_model
    (VDict [("id", VStr "org/m");
            ("siblings", VList [VDict [("rfilename", VStr "m.Q4_0.GGUF")]])])
  <> Ok false.
Proof.
  apply (listed_gguf_file_is_detected
           [("id", VStr "org/m");
            ("siblings", VList [VDict [("rfilename", VStr "m.Q4_0.GGUF")]])]
           [VDict [("rfilename", VStr "m.Q4_0.GGUF")]] "m.Q4_0.GGUF" []
           eq_refl eq_refl).
Defined.

(* ===================================================================== *)
(** * Properties of the configuration *)
(* ===================================================================== *)

Lemma lookup_absent (k : string) (d : pydict) :
  ~ In k (map fst d) -> Py.lookup k d = None.
Proof.
  induction d as [|[k' v] d IH]; cbn [map fst In Py.lookup]; [reflexivity|].
  intros H. destruct (String.eqb k k') eqn:Hk.
  - apply String.eqb_eq in Hk. exfalso. apply H. left. congruence.
  - apply IH. intros Hin. apply H. right. exact Hin.
Qed.

(** In a merge the second dict wins, key by key. *)
Lemma lookup_merge (d2 : pydict) :
  forall (d1 : pydict) (k : string),
    List.NoDup (map fst d2) ->
    Py.lookup k (Scrape.merge d1 d2)
    = match Py.lookup k d2 with
      | Some v => Some v
      | None => Py.lookup k d1
      end.
Proof.
  unfold Scrape.merge.
  induction d2 as [|[k0 v0] d2 IH]; intros d1 k Hnodup; [reflexivity|].
  cbn [fold_left fst snd map] in *. inversion Hnodup as [|? ? Hfresh Hrest]; subst.
  rewrite (IH _ k Hrest). cbn [Py.lookup].
  destruct (String.eqb k k0) eqn:Hk.
  - apply String.eqb_eq in Hk. subst k0.
    rewrite (lookup_absent k d2 Hfresh). apply lookup_set_key_eq.
  - destruct (Py.lookup k d2); [reflexivity|].
    apply lookup_set_key_ne. intros ->. rewrite String.eqb_refl in Hk.
    discriminate Hk.
Qed.

(** X18.  Without config.json the configuration is the default one.  With
    it, a file that cannot be read or decoded makes [load_config] raise
    (there is no fall-back to the defaults), and so does JSON that is not
    an object; an object is merged over the defaults key by key, its
    values winning.  The merge is shallow: a file that sets sources to
    only huggingface=false drops the default entry for modelscope, and
    modelscope stays switched on because the switch defaults to true. *)
Theorem load_config_merge (json_load : result value) :
  Scrape.load_config false json_load = Ok Scrape.DEFAULT_CONFIG
  /\ (forall e, json_load = Raise e -> Scrape.load_config true json_load = Raise e)
  /\ (forall v, json_load = Ok v -> not_an_object v ->
        Scrape.load_config true json_load = Raise TypeError)
  /\ (forall user : pydict,
        json_load = Ok (VDict user) ->
        List.NoDup (map fst user) ->
        exists config,
          Scrape.load_config true json_load = Ok config
          /\ (forall k : string,
                Py.lookup k config
                = match Py.lookup k user with
                  | Some v => Some v
                  | None => Py.lookup k Scrape.DEFAULT_CONFIG
                  end)
          /\ (Py.lookup "sources" user
              = Some (VDict [("huggingface", VBool false)]) ->
              Scrape.source_enabled config "huggingface" = Ok false
              /\ Scrape.source_enabled config "modelscope" = Ok true
              /\ descend [Key "sources"; Key "modelscope"] (VDict config) = None)).
Proof.
  split; [reflexivity|]. split; [intros e ->; reflexivity|].
  split; [intros v -> Hv; destruct v; try reflexivity; destruct Hv|].
  intros user -> Hnodup.
  exists (Scrape.merge Scrape.DEFAULT_CONFIG user).
  split; [reflexivity|].
  pose proof (fun k => lookup_merge user Scrape.DEFAULT_CONFIG k Hnodup) as Hlookup.
  split; [exact Hlookup|].
  intros Hsources. unfold Scrape.source_enabled. cbn [descend].
  rewrite (Hlookup "sources"), Hsources.
  repeat split; reflexivity.
Qed.

Lemma load_config_merge_witness :
  exists config,
    Scrape.load_config true (Ok (VDict [("vram_limit_gb", VInt 48)])) = Ok config
    /\ Py.lookup "vram_limit_gb" config = Some (VInt 48)
    /\ Py.lookup "max_models_per_source" config = Some (VInt 100).
Proof.
  destruct (proj2 (proj2 (proj2
              (load_config_merge (Ok (VDict [("vram_limit_gb", VInt 48)])))))
              [("vram_limit_gb", VInt 48)] eq_refl
              ltac:(repeat constructor; intros []))
    as (config & Hconfig & Hlookup & _).
  exists config. split; [exact Hconfig|].
  split; rewrite Hlookup; reflexivity.
Defined.

(* ===================================================================== *)
(** * Properties of the dashboard statistics *)
(* ===================================================================== *)

Lemma count_where_bound (test : pydict -> result bool) (rows : list pydict) :
  forall n : Z,
    Dashboard.count_where test rows = Ok n ->
    0 <= n <= Z.of_nat (length rows).
Proof.
  induction rows as [|m rows IH]; intros n H; cbn [Dashboard.count_where] in H.
  - injection H as <-. simpl. lia.
  - apply bind_Ok in H as (hit & _ & H). apply bind_Ok in H as (n' & Hn' & H).
    injection H as <-. specialize (IH n' Hn').
    cbn [length]. rewrite Nat2Z.inj_succ. destruct hit; lia.
Qed.

(** A row counts for one category at most, and for one exactly when its
    category is one of the four. *)
Lemma category_counts (rows : list pydict) :
  forall t i c m : Z,
    Dashboard.count_where (Dashboard.category_is "text") rows = Ok t ->
    Dashboard.count_where (Dashboard.category_is "image") rows = Ok i ->
    Dashboard.count_where (Dashboard.category_is "coding") rows = Ok c ->
    Dashboard.count_where (Dashboard.category_is "multimodal") rows = Ok m ->
    t + i + c + m <= Z.of_nat (length rows)
    /\ (t + i + c + m = Z.of_nat (length rows)
        <-> Forall (fun row => exists s, Py.lookup "category" row = Some (VStr s)
                                         /\ In s categories) rows).
Proof.
  induction rows as [|row rows IH]; intros t i c m Ht Hi Hc Hm;
    cbn [Dashboard.count_where] in Ht, Hi, Hc, Hm.
  - injection Ht as <-. injection Hi as <-. injection Hc as <-.
    injection Hm as <-. simpl. split; [lia|]. split; [constructor | reflexivity].
  - apply bind_Ok in Ht as (ht & Hht & Ht). apply bind_Ok in Ht as (t' & Ht' & Ht).
    apply bind_Ok in Hi as (hi & Hhi & Hi). apply bind_Ok in Hi as (i' & Hi' & Hi).
    apply bind_Ok in Hc as (hc & Hhc & Hc). apply bind_Ok in Hc as (c' & Hc' & Hc).
    apply bind_Ok in Hm as (hm & Hhm & Hm). apply bind_Ok in Hm as (m' & Hm' & Hm).
    injection Ht as <-. injection Hi as <-. injection Hc as <-. injection Hm as <-.
    destruct (IH t' i' c' m' Ht' Hi' Hc' Hm') as [Hle Hiff].
    cbn [length]. rewrite Nat2Z.inj_succ.
    unfold Dashboard.category_is, Dashboard.getitem in Hht, Hhi, Hhc, Hhm.
    destruct (Py.lookup "category" row) as [v|] eqn:Hv; [|discriminate Hht].
    cbn [mbind result_bind] in Hht, Hhi, Hhc, Hhm.
    injection Hht as <-. injection Hhi as <-. injection Hhc as <-.
    injection Hhm as <-.
    assert (forall P : Prop,
              (Forall (fun row => exists s, Py.lookup "category" row = Some (VStr s)
                                            /\ In s categories) (row :: rows)
               <-> (exists s, v = VStr s /\ In s categories)
                   /\ Forall (fun row => exists s,
                                Py.lookup "category" row = Some (VStr s)
                                /\ In s categories) rows)) as Hcons.
    { intros _. rewrite Forall_cons. rewrite Hv. split.
      - intros [(s & Hs & Hin) Hrest]. injection Hs as ->. eauto.
      - intros [(s & -> & Hin) Hrest]. eauto. }
    rewrite (Hcons True). clear Hcons.
    destruct v as [| | | |s| |];
      try (split; [lia|]; split;
           [intros H; lia | intros [(s' & Hs' & _) _]; discriminate Hs']).
    destruct (String.eqb s "text") eqn:E1;
      [apply String.eqb_eq in E1; subst s; cbn;
       split; [lia|]; rewrite <- Hiff; split;
       [intros H; split; [exists "text"; simpl; tauto | lia]
       | intros [_ H]; lia]|].
    destruct (String.eqb s "image") eqn:E2;
      [apply String.eqb_eq in E2; subst s; cbn;
       split; [lia|]; rewrite <- Hiff; split;
       [intros H; split; [exists "image"; simpl; tauto | lia]
       | intros [_ H]; lia]|].
    destruct (String.eqb s "coding") eqn:E3;
      [apply String.eqb_eq in E3; subst s; cbn;
       split; [lia|]; rewrite <- Hiff; split;
       [intros H; split; [exists "coding"; simpl; tauto | lia]
       | intros [_ H]; lia]|].
    destruct (String.eqb s "multimodal") eqn:E4;
      [apply String.eqb_eq in E4; subst s; cbn;
       split; [lia|]; rewrite <- Hiff; split;
       [intros H; split; [exists "multimodal"; simpl; tauto | lia]
       | intros [_ H]; lia]|].
    split; [lia|]. split; [intros H; lia|].
    intros [(s' & Hs' & Hin) _]. injection Hs' as <-.
    apply String.eqb_neq in E1, E2, E3, E4.
    simpl in Hin. intuition congruence.
Qed.

(** X19.  In the statistics of /api/models the total is the number of
    rows, no count is negative or above the total, and the four category
    counts never add up to more than the total; they add up to exactly
    the total when, and only when, every row's category is text, image,
    coding or multimodal. *)
Theorem stats_are_consistent (models_list : list pydict) (s : pydict) :
  Dashboard.stats models_list = Ok s ->
  let total := Z.of_nat (length models_list) in
  stat "total" s = total
  /\ Forall (fun k => 0 <= stat k s <= total)
       ["gguf"; "chinese"; "text"; "image"; "coding"; "multimodal"]
  /\ stat "text" s + stat "image" s + stat "coding" s + stat "multimodal" s <= total
  /\ (stat "text" s + stat "image" s + stat "coding" s + stat "multimodal" s = total
      <-> Forall (fun row => exists c, Py.lookup "category" row = Some (VStr c)
                                       /\ In c categories) models_list).
Proof.
  intros H total. subst total. unfold Dashboard.stats in H.
  set (total := Z.of_nat (length models_list)).
  apply bind_Ok in H as (gguf & Hgguf & H).
  apply bind_Ok in H as (chinese & Hchinese & H).
  apply bind_Ok in H as (text & Htext & H).
  apply bind_Ok in H as (image & Himage & H).
  apply bind_Ok in H as (coding & Hcoding & H).
  apply bind_Ok in H as (multimodal & Hmultimodal & H).
  injection H as <-.
  change (stat "total" _) with total. change (stat "text" _) with text.
  change (stat "image" _) with image. change (stat "coding" _) with coding.
  change (stat "multimodal" _) with multimodal.
  split; [reflexivity|]. split.
  - repeat constructor; cbn; eapply count_where_bound; eassumption.
  - apply (category_counts models_list text image coding multimodal);
      assumption.
Qed.

Lemma stats_are_consistent_witness :
  exists s,
    Dashboard.stats
      [ [("name", VStr "m-GGUF"); ("is_gguf", VInt 0); ("is_chinese", VInt 1);
         ("category", VStr "coding")];
        [("name", VStr "n"); ("is_gguf", VInt 1); ("is_chinese", VInt 0);
         ("category", VStr "audio")] ]
    = Ok s
    /\ stat "total" s = 2.
Proof.
  eexists. split; [vm_compute; reflexivity|].
  apply (proj1 (stats_are_consistent
                  [ [("name", VStr "m-GGUF"); ("is_gguf", VInt 0);
                     ("is_chinese", VInt 1); ("category", VStr "coding")];
                    [("name", VStr "n"); ("is_gguf", VInt 1);
                     ("is_chinese", VInt 0); ("category", VStr "audio")] ]
                  _ eq_refl)).
Defined.

(* ===================================================================== *)
(** * The file choice and files without a preferred quantization *)
(* ===================================================================== *)

Lemma first_containing_app (pref : string) (files extra : list string) :
  unmatched extra pref ->
  first_containing pref (files ++ extra)%list = first_containing pref files.
Proof.
  intros Hextra. induction files as [|f files IH]; cbn [app first_containing].
  - apply first_containing_unmatched, Hextra.
  - destruct (PyStr.contains pref (PyStr.lower f)); [reflexivity | exact IH].
Qed.

Lemma scan_preferences_app (prefs files extra : list string) :
  Forall (unmatched extra) prefs ->
  scan_preferences prefs (files ++ extra)%list = scan_preferences prefs files.
Proof.
  induction 1 as [|pref prefs Hpref _ IH]; cbn [scan_preferences].
  - reflexivity.
  - rewrite (first_containing_app pref files extra Hpref), IH. reflexivity.
Qed.


